(** * The ManagedCluster reconciler of the import controller

    A shallow embedding of
    [pkg/controller/managedcluster/managedcluster_controller.go]:
    the API objects the reconciler touches, the reconciler itself as a
    program over the calls it makes on its client, and the properties of
    its import decision, its namespace cleanup and its status recorder. *)

From stdpp Require Import gmap strings list.
From Stdlib Require Import ZArith.


(** ** Errors

    A Go [error] is one of: an API status error (its reason decides
    [errors.IsNotFound]), the [*strconv.NumError] of a failed parse, or a
    formatted message ([fmt.Errorf]). *)

Inductive StatusReason : Set :=
| StatusReasonNotFound
| StatusReasonConflict
| StatusReasonInternalError.

Inductive error : Set :=
| StatusError (reason : StatusReason) (message : string)
| NumError (func num : string)
| Errorf (message : string).

Module errors.

(** [errors.IsNotFound] of k8s.io/apimachinery/pkg/api/errors. *)
Definition IsNotFound (err : error) : bool :=
  match err with
  | StatusError StatusReasonNotFound _ => true
  | _ => false
  end.

End errors.

(** The double quote character, used by [strconv] to quote its input. *)
Definition dquote : string := String (Ascii.ascii_of_nat 34) EmptyString.

(** [err.Error()]. *)
Definition Error (err : error) : string :=
  match err with
  | StatusError _ m => m
  | NumError f n =>
      "strconv." +:+ f +:+ ": parsing " +:+ dquote +:+ n +:+ dquote
        +:+ ": invalid syntax"
  | Errorf m => m
  end.

Module strconv.

(** [strconv.ParseBool]: the value and the error of Go's pair. *)
Definition ParseBool (str : string) : bool * option error :=
  if bool_decide (str ∈ ["1"; "t"; "T"; "true"; "TRUE"; "True"])
  then (true, None)
  else if bool_decide (str ∈ ["0"; "f"; "F"; "false"; "FALSE"; "False"])
  then (false, None)
  else (false, Some (NumError "ParseBool" str)).

End strconv.

(** ** API objects *)

Module metav1.

(** The status of a condition; the API admits these three values and no
    other. *)
Inductive ConditionStatus : Set :=
| ConditionTrue
| ConditionFalse
| ConditionUnknown.

(** [metav1.Time]; [None] is the zero value. *)
Definition Time : Set := option Z.

Record Condition : Set := mkCondition {
  CondType : string;
  Status : ConditionStatus;
  LastTransitionTime : Time;
  Reason : string;
  Message : string
}.

Record ObjectMeta : Type := mkObjectMeta {
  Name : string;
  Namespace : string;
  Labels : gmap string string;
  Finalizers : list string;
  DeletionTimestamp : Time
}.

Definition SetLabels (m : ObjectMeta) (l : gmap string string) : ObjectMeta :=
  mkObjectMeta (Name m) (Namespace m) l (Finalizers m) (DeletionTimestamp m).

Definition SetFinalizers (m : ObjectMeta) (fs : list string) : ObjectMeta :=
  mkObjectMeta (Name m) (Namespace m) (Labels m) fs (DeletionTimestamp m).

End metav1.

#[global] Instance ConditionStatus_eq_dec : EqDecision metav1.ConditionStatus.
Proof. solve_decision. Defined.

Module clusterv1.

Definition ManagedClusterConditionAvailable : string :=
  "ManagedClusterConditionAvailable".

Record ManagedClusterStatus : Set := mkStatus {
  Conditions : list metav1.Condition
}.

Record ManagedCluster : Type := mkManagedCluster {
  ObjectMeta : metav1.ObjectMeta;
  Status : ManagedClusterStatus
}.

End clusterv1.

Module corev1.

Record Namespace : Type := mkNamespace { NamespaceMeta : metav1.ObjectMeta }.
Record Secret : Type := mkSecret { SecretMeta : metav1.ObjectMeta }.
Record ServiceAccount : Type :=
  mkServiceAccount { ServiceAccountMeta : metav1.ObjectMeta }.

End corev1.

Module hivev1.

Record ClusterDeployment : Type :=
  mkClusterDeployment { ClusterDeploymentMeta : metav1.ObjectMeta }.

End hivev1.

(** The kinds of object the reconciler reads and writes, and the Go type
    of each. *)
Inductive Kind : Set :=
| KManagedCluster
| KNamespace
| KClusterDeployment
| KSecret
| KServiceAccount.

Definition objT (k : Kind) : Type :=
  match k with
  | KManagedCluster => clusterv1.ManagedCluster
  | KNamespace => corev1.Namespace
  | KClusterDeployment => hivev1.ClusterDeployment
  | KSecret => corev1.Secret
  | KServiceAccount => corev1.ServiceAccount
  end.

(** [metav1.Object]: every API object embeds an [ObjectMeta]. *)
Class Object (T : Type) := {
  GetObjectMeta : T -> metav1.ObjectMeta;
  SetObjectMeta : T -> metav1.ObjectMeta -> T
}.

#[global] Instance ManagedCluster_Object : Object clusterv1.ManagedCluster := {
  GetObjectMeta := clusterv1.ObjectMeta;
  SetObjectMeta o m := clusterv1.mkManagedCluster m (clusterv1.Status o)
}.
#[global] Instance Namespace_Object : Object corev1.Namespace := {
  GetObjectMeta := corev1.NamespaceMeta;
  SetObjectMeta _ m := corev1.mkNamespace m
}.
#[global] Instance Secret_Object : Object corev1.Secret := {
  GetObjectMeta := corev1.SecretMeta;
  SetObjectMeta _ m := corev1.mkSecret m
}.
#[global] Instance ServiceAccount_Object : Object corev1.ServiceAccount := {
  GetObjectMeta := corev1.ServiceAccountMeta;
  SetObjectMeta _ m := corev1.mkServiceAccount m
}.
#[global] Instance ClusterDeployment_Object : Object hivev1.ClusterDeployment := {
  GetObjectMeta := hivev1.ClusterDeploymentMeta;
  SetObjectMeta _ m := hivev1.mkClusterDeployment m
}.

Definition GetName {T} `{Object T} (o : T) : string :=
  metav1.Name (GetObjectMeta o).
Definition GetLabels {T} `{Object T} (o : T) : gmap string string :=
  metav1.Labels (GetObjectMeta o).
Definition SetLabels {T} `{Object T} (o : T) (l : gmap string string) : T :=
  SetObjectMeta o (metav1.SetLabels (GetObjectMeta o) l).
Definition GetFinalizers {T} `{Object T} (o : T) : list string :=
  metav1.Finalizers (GetObjectMeta o).
Definition SetFinalizers {T} `{Object T} (o : T) (fs : list string) : T :=
  SetObjectMeta o (metav1.SetFinalizers (GetObjectMeta o) fs).
Definition GetDeletionTimestamp {T} `{Object T} (o : T) : metav1.Time :=
  metav1.DeletionTimestamp (GetObjectMeta o).

Module libgometav1.

(** [AddFinalizer] of library-go: append unless already present. *)
Definition AddFinalizer {T} `{Object T} (o : T) (finalizer : string) : T :=
  if bool_decide (finalizer ∈ GetFinalizers o) then o
  else SetFinalizers o (GetFinalizers o ++ [finalizer]).

(** [RemoveFinalizer] of library-go: keep every other finalizer. *)
Definition RemoveFinalizer {T} `{Object T} (o : T) (finalizer : string) : T :=
  SetFinalizers o
    (filter (fun f => f ≠ finalizer) (GetFinalizers o)).

End libgometav1.

(** ** Constants of the controller *)

Definition managedClusterFinalizer : string :=
  "managedcluster-import-controller.open-cluster-management.io/cleanup".
Definition registrationFinalizer : string :=
  "cluster.open-cluster-management.io/api-resource-cleanup".
Definition clusterLabel : string :=
  "cluster.open-cluster-management.io/managedCluster".
Definition selfManagedLabel : string := "local-cluster".
Definition autoImportRetryName : string := "autoImportRetry".
Definition autoImportSecretName : string := "auto-import-secret".
Definition ManagedClusterImportSucceeded : string :=
  "ManagedClusterImportSucceeded".

(** ** Pure helpers of the controller *)

(** [meta.FindStatusCondition]: the first condition of the given type. *)
Fixpoint FindStatusCondition (conditions : list metav1.Condition)
    (conditionType : string) : option metav1.Condition :=
  match conditions with
  | [] => None
  | c :: rest =>
      if bool_decide (metav1.CondType c = conditionType) then Some c
      else FindStatusCondition rest conditionType
  end.

(** [checkOffLine]: the loop returns at the first condition of type
    Available; without one the cluster counts as offline. *)
Fixpoint checkOffLineConditions (conditions : list metav1.Condition) : bool :=
  match conditions with
  | [] => true
  | sc :: rest =>
      if bool_decide
           (metav1.CondType sc = clusterv1.ManagedClusterConditionAvailable)
      then bool_decide (metav1.Status sc = metav1.ConditionUnknown)
           || bool_decide (metav1.Status sc = metav1.ConditionFalse)
      else checkOffLineConditions rest
  end.

Definition checkOffLine (managedCluster : clusterv1.ManagedCluster) : bool :=
  checkOffLineConditions
    (clusterv1.Conditions (clusterv1.Status managedCluster)).

(** [filterFinalizers], lines 373-379: the inner loop looks for [cf]
    among [finalizers] and breaks at the first hit. *)
Fixpoint filterFinalizers_found (cf : string) (finalizers : list string) :
    bool :=
  match finalizers with
  | [] => false
  | f :: rest =>
      if bool_decide (cf = f) then true else filterFinalizers_found cf rest
  end.

(** Lines 372-383: the outer loop over the cluster's finalizers, from
    the [results] appended so far. *)
Fixpoint filterFinalizers_loop (results clusterFinalizers : list string)
    (finalizers : list string) : list string :=
  match clusterFinalizers with
  | [] => results
  | cf :: rest =>
      let found := filterFinalizers_found cf finalizers in
      filterFinalizers_loop
        (if negb found then results ++ [cf] else results) rest finalizers
  end.

(** [filterFinalizers], lines 369-385. *)
Definition filterFinalizers (managedCluster : clusterv1.ManagedCluster)
    (finalizers : list string) : list string :=
  let results := [] in
  let clusterFinalizers := GetFinalizers managedCluster in
  filterFinalizers_loop results clusterFinalizers finalizers.

(** ** Requests, results and the calls of the reconciler *)

Module time.

(** [time.Duration]: a count of nanoseconds. *)
Definition Duration : Set := Z.
Definition Nanosecond : Duration := 1%Z.
Definition Second : Duration := (1000000000 * Nanosecond)%Z.
Definition Minute : Duration := (60 * Second)%Z.

End time.

Module types.

Record NamespacedName : Set := mkNamespacedName {
  Namespace : string;
  Name : string
}.

End types.

Module reconcile.

Record Request : Set := mkRequest { NamespacedName : types.NamespacedName }.

Record Result : Set := mkResult {
  Requeue : bool;
  RequeueAfter : time.Duration
}.

(** [reconcile.Result{}]. *)
Definition zero : Result := mkResult false 0%Z.

End reconcile.

(** What [client.Get] leaves in its object argument, or its error. *)
Inductive got (A : Type) : Type :=
| Found (obj : A)
| Failed (err : error).
Arguments Found {A} obj.
Arguments Failed {A} err.

(** The anonymous [config] struct handed to the applier. *)
Record Config : Set := mkConfig {
  ManagedClusterName : string;
  ManagedClusterNamespace : string;
  BootstrapServiceAccountName : string
}.

(** [*unstructured.Unstructured], kept opaque. *)
Definition Unstructured : Set := string.

(** The calls the reconciler makes and the type of each answer.  The
    first four are the methods of [client.Client] it uses; [Now] is
    [time.Now]; the rest are the applier's methods and the functions of
    this package that live in other files ([managedClusterDeletion],
    [generateImportYAMLs], [createOrUpdateImportSecret],
    [deleteKlusterletSyncSets], [createOrUpdateManifestWorks],
    [importCluster]): each is a call answered by the environment with the
    values the Go function returns. *)
Inductive call : Type -> Type :=
| Get (k : Kind) (key : types.NamespacedName) : call (got (objT k))
| Update (k : Kind) (obj : objT k) : call (option error)
| Delete (k : Kind) (obj : objT k) : call (option error)
| StatusPatch (obj base : clusterv1.ManagedCluster) : call (option error)
| Now : call Z
| NewApplier (owner : clusterv1.ManagedCluster) : call (option error)
| CreateResource (assetName : string) (values : Config) : call (option error)
| CreateOrUpdateInPath (path : string) (excluded : list string)
    (recursive : bool) (values : Config) : call (option error)
| managedClusterDeletion (instance : clusterv1.ManagedCluster) :
    call (reconcile.Result * option error)
| generateImportYAMLs (managedCluster : clusterv1.ManagedCluster)
    (excluded : list string) :
    call (list Unstructured * list Unstructured * option error)
| createOrUpdateImportSecret (managedCluster : clusterv1.ManagedCluster)
    (crds yamls : list Unstructured) : call (option error)
| deleteKlusterletSyncSets (managedCluster : clusterv1.ManagedCluster) :
    call (reconcile.Result * option error)
| createOrUpdateManifestWorks (managedCluster : clusterv1.ManagedCluster)
    (crds yamls : list Unstructured) : call (option error)
| importCluster (managedCluster : clusterv1.ManagedCluster)
    (clusterDeployment : option hivev1.ClusterDeployment)
    (autoImportSecret : option corev1.Secret) :
    call (reconcile.Result * option error).

(** A program is a tree of calls: it returns, or makes a call and goes on
    with the answer. *)
Inductive Prog (A : Type) : Type :=
| Ret (a : A)
| Vis {X : Type} (c : call X) (k : X -> Prog A).
Arguments Ret {A} a.
Arguments Vis {A X} c k.

Fixpoint bind {A B : Type} (p : Prog A) (f : A -> Prog B) : Prog B :=
  match p with
  | Ret a => f a
  | Vis c k => Vis c (fun x => bind (k x) f)
  end.

Definition trigger {X : Type} (c : call X) : Prog X := Vis c Ret.

#[global] Instance Prog_ret : MRet Prog := @Ret.
#[global] Instance Prog_bind : MBind Prog := fun A B f p => bind p f.

(** One call of a run together with its answer. *)
Inductive Event : Type :=
| Ev {X : Type} (c : call X) (x : X).

(** ** Running a program against an environment

    The environment answers every call from its own state; a run returns
    the program's value, the environment's final state and the calls made,
    oldest first. *)
Section Run.

Context {St : Type}.
Variable handle : forall X : Type, call X -> St -> X * St.

Fixpoint run {A : Type} (p : Prog A) (s : St) : A * St * list Event :=
  match p with
  | Ret a => (a, s, [])
  | Vis c k =>
      let '(x, s1) := handle _ c s in
      let '(a, s2, t) := run (k x) s1 in
      (a, s2, Ev c x :: t)
  end.

End Run.

(** ** The reconciler

    Logging calls ([reqLogger], [log], [klog]) return nothing and change
    nothing; they are left out.  The client's [Update] and [Patch] are
    taken to leave the local object as the reconciler built it. *)

(** What [toBeImported] returns: the auto-import secret, the cluster
    deployment, the decision and the error. *)
Definition Decision : Type :=
  option corev1.Secret * option hivev1.ClusterDeployment * bool * option error.

(** [toBeImported], lines 302-343. *)
Definition toBeImported (managedCluster : clusterv1.ManagedCluster) :
    Prog Decision :=
  match GetLabels managedCluster !! selfManagedLabel with
  | Some v =>
      let '(toImport, err) := strconv.ParseBool v in
      mret (None, None, toImport, err)
  | None =>
      r ← trigger (Get KClusterDeployment
                     {| types.Name := GetName managedCluster;
                        types.Namespace := GetName managedCluster |});
      match r with
      | Found clusterDeployment =>
          mret (None, Some clusterDeployment, true, None)
      | Failed err =>
          if negb (errors.IsNotFound err) then mret (None, None, false, Some err)
          else
            r ← trigger (Get KSecret
                           {| types.Name := autoImportSecretName;
                              types.Namespace := GetName managedCluster |});
            match r with
            | Failed err =>
                if errors.IsNotFound err then mret (None, None, false, None)
                else mret (None, None, false, Some err)
            | Found autoImportSecret =>
                mret (Some autoImportSecret, None, true, None)
            end
      end
  end.

(** Apply [f] to the first condition of the given type, in place. *)
Fixpoint updateCondition (conditions : list metav1.Condition)
    (conditionType : string) (f : metav1.Condition -> metav1.Condition) :
    list metav1.Condition :=
  match conditions with
  | [] => []
  | c :: rest =>
      if bool_decide (metav1.CondType c = conditionType) then f c :: rest
      else c :: updateCondition rest conditionType f
  end.

(** [meta.SetStatusCondition] of k8s.io/apimachinery/pkg/api/meta: append
    a condition of a new type; otherwise overwrite reason and message of
    the existing one, and its status and transition time when the status
    changes.  The clock is read only when a time is needed and the new
    condition carries none. *)
Definition SetStatusCondition (conditions : list metav1.Condition)
    (newCondition : metav1.Condition) : Prog (list metav1.Condition) :=
  match FindStatusCondition conditions (metav1.CondType newCondition) with
  | None =>
      t ← match metav1.LastTransitionTime newCondition with
          | None => now ← trigger Now; mret (Some now)
          | Some t => mret (Some t)
          end;
      mret (conditions ++
              [metav1.mkCondition (metav1.CondType newCondition)
                 (metav1.Status newCondition) t
                 (metav1.Reason newCondition)
                 (metav1.Message newCondition)])
  | Some existingCondition =>
      '(status, t) ←
        (if bool_decide (metav1.Status existingCondition
                           ≠ metav1.Status newCondition)
         then
           match metav1.LastTransitionTime newCondition with
           | Some t => mret (metav1.Status newCondition, Some t)
           | None =>
               now ← trigger Now; mret (metav1.Status newCondition, Some now)
           end
         else mret (metav1.Status existingCondition,
                    metav1.LastTransitionTime existingCondition));
      mret (updateCondition conditions (metav1.CondType newCondition)
              (fun c => metav1.mkCondition (metav1.CondType c) status t
                          (metav1.Reason newCondition)
                          (metav1.Message newCondition)))
  end.

(** The condition [setConditionImport] builds, lines 346-359. *)
Definition importCondition (errIn : option error) (reason : string) :
    metav1.Condition :=
  match errIn with
  | None =>
      metav1.mkCondition ManagedClusterImportSucceeded metav1.ConditionTrue
        None "ManagedClusterImported" "Import succeeded"
  | Some e =>
      metav1.mkCondition ManagedClusterImportSucceeded metav1.ConditionFalse
        None "ManagedClusterNotImported"
        (if bool_decide (reason ≠ "") then Error e +:+ ": " +:+ reason
         else Error e)
  end.

Definition setConditions (managedCluster : clusterv1.ManagedCluster)
    (conditions : list metav1.Condition) : clusterv1.ManagedCluster :=
  clusterv1.mkManagedCluster (clusterv1.ObjectMeta managedCluster)
    (clusterv1.mkStatus conditions).

(** [setConditionImport], lines 345-367.  The patch is computed from a
    copy taken before the condition is set. *)
Definition setConditionImport (managedCluster : clusterv1.ManagedCluster)
    (errIn : option error) (reason : string) : Prog (option error) :=
  let newCondition := importCondition errIn reason in
  let patch := managedCluster in
  conditions ← SetStatusCondition
                 (clusterv1.Conditions (clusterv1.Status managedCluster))
                 newCondition;
  let managedCluster := setConditions managedCluster conditions in
  err ← trigger (StatusPatch managedCluster patch);
  match err with
  | Some err => mret (Some err)
  | None => mret errIn
  end.

(** [deleteNamespace], lines 396-456. *)
Definition deleteNamespace (namespaceName : string) : Prog (option error) :=
  r ← trigger (Get KNamespace
                 {| types.Namespace := ""; types.Name := namespaceName |});
  match r with
  | Failed err =>
      if errors.IsNotFound err then mret None else mret (Some err)
  | Found ns =>
      match GetDeletionTimestamp ns with
      | Some _ => mret None
      | None =>
          r ← trigger (Get KClusterDeployment
                         {| types.Name := namespaceName;
                            types.Namespace := namespaceName |});
          match r with
          | Failed err =>
              if errors.IsNotFound err then
                (* tobeDeleted *)
                err ← trigger (Delete KNamespace ns);
                match err with
                | Some err =>
                    if negb (errors.IsNotFound err) then mret (Some err)
                    else mret None
                | None => mret None
                end
              else mret (Some err)
          | Found clusterDeployment =>
              let clusterDeployment :=
                libgometav1.RemoveFinalizer clusterDeployment
                  managedClusterFinalizer in
              err ← trigger (Update KClusterDeployment clusterDeployment);
              match err with
              | Some err => mret (Some err)
              | None =>
                  mret (Some (Errorf
                    ("can not delete namespace " +:+ namespaceName
                       +:+ " as ClusterDeployment " +:+ namespaceName
                       +:+ " still exist")))
              end
          end
      end
  end.

(** What [Reconcile] returns. *)
Definition Outcome : Type := reconcile.Result * option error.

(** What the provisioning steps leave for the rest of [Reconcile]: the
    instance and the generated [crds] and [yamls]. *)
Definition Provisioned : Type :=
  clusterv1.ManagedCluster * list Unstructured * list Unstructured.

Section Reconciler.

(** The constant [bootstrapServiceAccountNamePostfix] is declared in
    another file of the package. *)
Variable bootstrapServiceAccountNamePostfix : string.

(** [Reconcile], lines 159-170: the finalizer and the [name] label are
    set on the local instance. *)
Definition Reconcile_prepare (instance : clusterv1.ManagedCluster) :
    clusterv1.ManagedCluster :=
  let instance :=
    libgometav1.AddFinalizer instance managedClusterFinalizer in
  let instanceLabels := GetLabels instance in
  match instanceLabels !! "name" with
  | Some _ => instance
  | None =>
      SetLabels instance (<["name" := GetName instance]> instanceLabels)
  end.

(** [Reconcile], lines 172-267: the provisioning steps on the prepared
    instance.  [inl] is an early [return] of [Reconcile]; [inr] falls
    through to line 269. *)
Definition Reconcile_provision (instance : clusterv1.ManagedCluster) :
    Prog (Outcome + Provisioned) :=
  err ← trigger (Update KManagedCluster instance);
  match err with
  | Some err => mret (inl (reconcile.zero, Some err))
  | None =>
  (* Add clusterLabel on ns if missing *)
  r ← trigger (Get KNamespace
                 {| types.Namespace := ""; types.Name := GetName instance |});
  match r with
  | Failed err => mret (inl (reconcile.zero, Some err))
  | Found ns =>
  let labels := GetLabels ns in
  err ← match labels !! clusterLabel with
        | Some _ => mret None
        | None =>
            trigger (Update KNamespace
                       (SetLabels ns
                          (<[clusterLabel := GetName instance]> labels)))
        end;
  match err with
  | Some err => mret (inl (reconcile.zero, Some err))
  | None =>
  (* Create the values for the yamls *)
  let config :=
    {| ManagedClusterName := GetName instance;
       ManagedClusterNamespace := GetName instance;
       BootstrapServiceAccountName :=
         GetName instance +:+ bootstrapServiceAccountNamePostfix |} in
  err ← trigger (NewApplier instance);
  match err with
  | Some err => mret (inl (reconcile.zero, Some err))
  | None =>
  r ← trigger (Get KServiceAccount
                 {| types.Name :=
                      GetName instance +:+ bootstrapServiceAccountNamePostfix;
                    types.Namespace := GetName instance |});
  err ← match r with
        | Failed err =>
            if errors.IsNotFound err then
              trigger (CreateResource
                "hub/managedcluster/manifests/managedcluster-service-account.yaml"
                config)
            else mret None
        | Found _ => mret None
        end;
  match err with
  | Some err => mret (inl (reconcile.zero, Some err))
  | None =>
  err ← trigger (CreateOrUpdateInPath
           "hub/managedcluster/manifests"
           ["hub/managedcluster/manifests/managedcluster-service-account.yaml"]
           false config);
  match err with
  | Some err => mret (inl (reconcile.zero, Some err))
  | None =>
  '(crds, yamls, err) ← trigger (generateImportYAMLs instance []);
  match err with
  | Some err => mret (inl (reconcile.zero, Some err))
  | None =>
  err ← trigger (createOrUpdateImportSecret instance crds yamls);
  match err with
  | Some err => mret (inl (reconcile.zero, Some err))
  | None =>
  (* Remove syncset if exists as we are now using manifestworks *)
  '(result, err) ← trigger (deleteKlusterletSyncSets instance);
  match err with
  | Some err => mret (inl (result, Some err))
  | None => mret (inr (instance, crds, yamls))
  end end end end end end end end end.

(** [Reconcile], lines 277-297: the branch of an offline cluster. *)
Definition Reconcile_offline (instance : clusterv1.ManagedCluster) :
    Prog Outcome :=
  '(autoImportSecret, clusterDeployment, toImport, err) ←
    toBeImported instance;
  match err with
  | Some err => mret (reconcile.zero, Some err)
  | None =>
      (* Stop here if no auto-import *)
      if negb toImport then mret (reconcile.zero, None)
      else
        (* Import the cluster *)
        '(result, err) ←
          trigger (importCluster instance clusterDeployment autoImportSecret);
        if reconcile.Requeue result || bool_decide (err ≠ None)
        then mret (result, err)
        else
          errCond ← setConditionImport instance err
                      ("Unable to import " +:+ GetName instance);
          mret (result, err)
  end.

(** [Reconcile], lines 126-300. *)
Definition Reconcile (request : reconcile.Request) : Prog Outcome :=
  let requestName := types.Name (reconcile.NamespacedName request) in
  (* Fetch the ManagedCluster instance *)
  r ← trigger (Get KManagedCluster
                 {| types.Namespace := ""; types.Name := requestName |});
  match r with
  | Failed err =>
      if errors.IsNotFound err then
        err ← deleteNamespace requestName;
        match err with
        | Some _ =>
            mret ({| reconcile.Requeue := true;
                     reconcile.RequeueAfter := (1 * time.Minute)%Z |}, None)
        | None => mret (reconcile.zero, None)
        end
      else
        (* Error reading the object - requeue the request. *)
        mret (reconcile.zero, Some err)
  | Found instance =>
      match GetDeletionTimestamp instance with
      | Some _ => trigger (managedClusterDeletion instance)
      | None =>
          p ← Reconcile_provision (Reconcile_prepare instance);
          match p with
          | inl out => mret out
          | inr (instance, crds, yamls) =>
              if negb (checkOffLine instance) then
                err ← trigger
                        (createOrUpdateManifestWorks instance crds yamls);
                match err with
                | Some err => mret (reconcile.zero, Some err)
                | None => mret (reconcile.zero, None)
                end
              else Reconcile_offline instance
          end
      end
  end.

End Reconciler.

(** ** A store to run the reconciler against

    An in-memory object store in the manner of the fake client of
    controller-runtime: objects by name (cluster-scoped kinds) or by
    namespace and name, a schedule of faults that the next client calls
    hit (one entry per call, [None] for no fault), a clock, and the fixed
    answers of the functions defined outside this file. *)

#[global] Instance Condition_eq_dec : EqDecision metav1.Condition.
Proof. solve_decision. Defined.

Record Answers : Type := mkAnswers {
  onNewApplier : option error;
  onCreateResource : option error;
  onCreateOrUpdateInPath : option error;
  onManagedClusterDeletion : reconcile.Result * option error;
  onGenerateImportYAMLs :
    list Unstructured * list Unstructured * option error;
  onCreateOrUpdateImportSecret : option error;
  onDeleteKlusterletSyncSets : reconcile.Result * option error;
  onCreateOrUpdateManifestWorks : option error;
  onImportCluster : reconcile.Result * option error
}.

Record World : Type := mkWorld {
  clusters : gmap string clusterv1.ManagedCluster;
  namespaces : gmap string corev1.Namespace;
  deployments : gmap (string * string) hivev1.ClusterDeployment;
  secrets : gmap (string * string) corev1.Secret;
  serviceAccounts : gmap (string * string) corev1.ServiceAccount;
  faults : list (option error);
  clock : Z;
  answers : Answers
}.

Module fake.

Definition notFound : error := StatusError StatusReasonNotFound "not found".

Definition nsKey (key : types.NamespacedName) : string * string :=
  (types.Namespace key, types.Name key).

Definition objKey {T} `{Object T} (o : T) : string * string :=
  (metav1.Namespace (GetObjectMeta o), metav1.Name (GetObjectMeta o)).

Definition lookup (k : Kind) (key : types.NamespacedName) (w : World) :
    option (objT k) :=
  match k with
  | KManagedCluster => clusters w !! types.Name key
  | KNamespace => namespaces w !! types.Name key
  | KClusterDeployment => deployments w !! nsKey key
  | KSecret => secrets w !! nsKey key
  | KServiceAccount => serviceAccounts w !! nsKey key
  end.

Definition setFaults (w : World) (fs : list (option error)) : World :=
  mkWorld (clusters w) (namespaces w) (deployments w) (secrets w)
    (serviceAccounts w) fs (clock w) (answers w).

Definition setClusters (w : World)
    (m : gmap string clusterv1.ManagedCluster) : World :=
  mkWorld m (namespaces w) (deployments w) (secrets w)
    (serviceAccounts w) (faults w) (clock w) (answers w).

Definition setNamespaces (w : World)
    (m : gmap string corev1.Namespace) : World :=
  mkWorld (clusters w) m (deployments w) (secrets w)
    (serviceAccounts w) (faults w) (clock w) (answers w).

Definition setDeployments (w : World)
    (m : gmap (string * string) hivev1.ClusterDeployment) : World :=
  mkWorld (clusters w) (namespaces w) m (secrets w)
    (serviceAccounts w) (faults w) (clock w) (answers w).

Definition setSecrets (w : World)
    (m : gmap (string * string) corev1.Secret) : World :=
  mkWorld (clusters w) (namespaces w) (deployments w) m
    (serviceAccounts w) (faults w) (clock w) (answers w).

Definition setServiceAccounts (w : World)
    (m : gmap (string * string) corev1.ServiceAccount) : World :=
  mkWorld (clusters w) (namespaces w) (deployments w) (secrets w)
    m (faults w) (clock w) (answers w).

Definition tick (w : World) : World :=
  mkWorld (clusters w) (namespaces w) (deployments w) (secrets w)
    (serviceAccounts w) (faults w) (clock w + 1)%Z (answers w).

(** The fault of the next client call, and the world after it. *)
Definition nextFault (w : World) : option error * World :=
  match faults w with
  | [] => (None, w)
  | f :: rest => (f, setFaults w rest)
  end.

(** Store [obj] under its own key, whatever was there. *)
Definition store (k : Kind) : objT k -> World -> World :=
  match k with
  | KManagedCluster => fun obj w =>
      setClusters w (<[GetName obj := obj]> (clusters w))
  | KNamespace => fun obj w =>
      setNamespaces w (<[GetName obj := obj]> (namespaces w))
  | KClusterDeployment => fun obj w =>
      setDeployments w (<[objKey obj := obj]> (deployments w))
  | KSecret => fun obj w =>
      setSecrets w (<[objKey obj := obj]> (secrets w))
  | KServiceAccount => fun obj w =>
      setServiceAccounts w (<[objKey obj := obj]> (serviceAccounts w))
  end.

Definition remove (k : Kind) : objT k -> World -> World :=
  match k with
  | KManagedCluster => fun obj w =>
      setClusters w (delete (GetName obj) (clusters w))
  | KNamespace => fun obj w =>
      setNamespaces w (delete (GetName obj) (namespaces w))
  | KClusterDeployment => fun obj w =>
      setDeployments w (delete (objKey obj) (deployments w))
  | KSecret => fun obj w =>
      setSecrets w (delete (objKey obj) (secrets w))
  | KServiceAccount => fun obj w =>
      setServiceAccounts w (delete (objKey obj) (serviceAccounts w))
  end.

Definition keyOf (k : Kind) : objT k -> types.NamespacedName :=
  match k with
  | KManagedCluster => fun obj => types.mkNamespacedName "" (GetName obj)
  | KNamespace => fun obj => types.mkNamespacedName "" (GetName obj)
  | KClusterDeployment => fun obj =>
      types.mkNamespacedName (fst (objKey obj)) (snd (objKey obj))
  | KSecret => fun obj =>
      types.mkNamespacedName (fst (objKey obj)) (snd (objKey obj))
  | KServiceAccount => fun obj =>
      types.mkNamespacedName (fst (objKey obj)) (snd (objKey obj))
  end.

Definition get (k : Kind) (key : types.NamespacedName) (w : World) :
    got (objT k) * World :=
  match nextFault w with
  | (Some err, w) => (Failed err, w)
  | (None, w) =>
      match lookup k key w with
      | Some obj => (Found obj, w)
      | None => (Failed notFound, w)
      end
  end.

Definition update (k : Kind) (obj : objT k) (w : World) :
    option error * World :=
  match nextFault w with
  | (Some err, w) => (Some err, w)
  | (None, w) =>
      match lookup k (keyOf k obj) w with
      | Some _ => (None, store k obj w)
      | None => (Some notFound, w)
      end
  end.

Definition delete (k : Kind) (obj : objT k) (w : World) :
    option error * World :=
  match nextFault w with
  | (Some err, w) => (Some err, w)
  | (None, w) =>
      match lookup k (keyOf k obj) w with
      | Some _ => (None, remove k obj w)
      | None => (Some notFound, w)
      end
  end.

(** A merge patch of the status: the conditions are sent, and replace
    the stored ones, only when they differ from those of the base. *)
Definition statusPatch (obj base : clusterv1.ManagedCluster) (w : World) :
    option error * World :=
  match nextFault w with
  | (Some err, w) => (Some err, w)
  | (None, w) =>
      match clusters w !! GetName obj with
      | Some stored =>
          if bool_decide (clusterv1.Conditions (clusterv1.Status obj)
                            = clusterv1.Conditions (clusterv1.Status base))
          then (None, w)
          else (None,
                setClusters w
                  (<[GetName obj :=
                       setConditions stored
                         (clusterv1.Conditions (clusterv1.Status obj))]>
                     (clusters w)))
      | None => (Some notFound, w)
      end
  end.

Definition handle (X : Type) (c : call X) : World -> X * World :=
  match c in call X return World -> X * World with
  | Get k key => get k key
  | Update k obj => update k obj
  | Delete k obj => delete k obj
  | StatusPatch obj base => statusPatch obj base
  | Now => fun w => (clock w, tick w)
  | NewApplier _ => fun w => (onNewApplier (answers w), w)
  | CreateResource _ _ => fun w => (onCreateResource (answers w), w)
  | CreateOrUpdateInPath _ _ _ _ =>
      fun w => (onCreateOrUpdateInPath (answers w), w)
  | managedClusterDeletion _ =>
      fun w => (onManagedClusterDeletion (answers w), w)
  | generateImportYAMLs _ _ =>
      fun w => (onGenerateImportYAMLs (answers w), w)
  | createOrUpdateImportSecret _ _ _ =>
      fun w => (onCreateOrUpdateImportSecret (answers w), w)
  | deleteKlusterletSyncSets _ =>
      fun w => (onDeleteKlusterletSyncSets (answers w), w)
  | createOrUpdateManifestWorks _ _ _ =>
      fun w => (onCreateOrUpdateManifestWorks (answers w), w)
  | importCluster _ _ _ => fun w => (onImportCluster (answers w), w)
  end.

(** Every helper succeeds and asks for no requeue. *)
Definition allGood : Answers :=
  mkAnswers None None None (reconcile.zero, None) ([], [], None) None
    (reconcile.zero, None) None (reconcile.zero, None).

Definition emptyWorld : World :=
  mkWorld ∅ ∅ ∅ ∅ ∅ [] 0%Z allGood.

End fake.

(** ** Observations on a run *)

(** The calls of a run that read the store. *)
Definition isLookup (ev : Event) : bool :=
  match ev with
  | Ev (Get _ _) _ => true
  | _ => false
  end.

Definition isUpdate (ev : Event) : bool :=
  match ev with
  | Ev (Update _ _) _ => true
  | _ => false
  end.

Definition isDelete (ev : Event) : bool :=
  match ev with
  | Ev (Delete _ _) _ => true
  | _ => false
  end.

Definition isStatusPatch (ev : Event) : bool :=
  match ev with
  | Ev (StatusPatch _ _) _ => true
  | _ => false
  end.

Definition isImportCluster (ev : Event) : bool :=
  match ev with
  | Ev (importCluster _ _ _) _ => true
  | _ => false
  end.

(** The calls of a run that write to the store through the client. *)
Definition isMutation (ev : Event) : bool :=
  isUpdate ev || isDelete ev || isStatusPatch ev.

Definition isNow (ev : Event) : bool :=
  match ev with
  | Ev Now _ => true
  | _ => false
  end.

(** A status patch that the store refused. *)
Definition isFailedStatusPatch (ev : Event) : bool :=
  match ev with
  | Ev c x =>
      match c in call X return X -> bool with
      | StatusPatch _ _ => fun err => bool_decide (err ≠ None)
      | _ => fun _ => false
      end x
  end.

Fixpoint count (f : Event -> bool) (t : list Event) : nat :=
  match t with
  | [] => 0
  | ev :: t => (if f ev then 1 else 0) + count f t
  end.

(** The calls of the import itself: the import of the cluster and the
    patch that records its outcome. *)
Definition isImportStep (ev : Event) : bool :=
  isStatusPatch ev || isImportCluster ev.

(** A program avoids the calls [bad] when no run of it can make one. *)
Inductive Avoids (bad : Event -> bool) {A : Type} : Prog A -> Prop :=
| Avoids_ret (a : A) : Avoids bad (Ret a)
| Avoids_vis {X : Type} (c : call X) (k : X -> Prog A) :
    (forall x, bad (Ev c x) = false) ->
    (forall x, Avoids bad (k x)) ->
    Avoids bad (Vis c k).

(** The calls of a run that write through the client, in order. *)
Definition mutations (t : list Event) : list Event :=
  List.filter isMutation t.

(** The message of the error that blocks the deletion of a namespace. *)
Definition blockedMessage (namespaceName : string) : string :=
  "can not delete namespace " +:+ namespaceName
    +:+ " as ClusterDeployment " +:+ namespaceName +:+ " still exist".

(** The answer of a call, read as the Go [error] it carries. *)
Definition errorOf (ev : Event) : option error :=
  match ev with
  | Ev c x =>
      match c in call X return X -> option error with
      | Get _ _ =>
          fun r => match r with Found _ => None | Failed err => Some err end
      | Update _ _ | Delete _ _ | StatusPatch _ _ | NewApplier _
      | CreateResource _ _ | CreateOrUpdateInPath _ _ _ _
      | createOrUpdateImportSecret _ _ _
      | createOrUpdateManifestWorks _ _ _ => fun err => err
      | Now => fun _ => None
      | managedClusterDeletion _ | deleteKlusterletSyncSets _
      | importCluster _ _ _ => fun r => r.2
      | generateImportYAMLs _ _ => fun r => r.2
      end x
  end.

Definition isServiceAccountLookup (ev : Event) : bool :=
  match ev with
  | Ev (Get KServiceAccount _) _ => true
  | _ => false
  end.

(** A lookup of a service account answered with a not-found error. *)
Definition isMissingServiceAccount (ev : Event) : bool :=
  isServiceAccountLookup ev
  && match errorOf ev with
     | Some err => errors.IsNotFound err
     | None => false
     end.

Definition isCreateResource (ev : Event) : bool :=
  match ev with
  | Ev (CreateResource _ _) _ => true
  | _ => false
  end.

Definition isManagedClusterDeletion (ev : Event) : bool :=
  match ev with
  | Ev (managedClusterDeletion _) _ => true
  | _ => false
  end.

Definition isCreateOrUpdateManifestWorks (ev : Event) : bool :=
  match ev with
  | Ev (createOrUpdateManifestWorks _ _ _) _ => true
  | _ => false
  end.

(** The calls that end a reconciliation one way or another: the deletion
    of the cluster, its manifest works, its import, or the delete of its
    namespace. *)
Definition isRoute (ev : Event) : bool :=
  isManagedClusterDeletion ev || isCreateOrUpdateManifestWorks ev
  || isImportCluster ev || isDelete ev.

(** A write through the client that is none of the reconciler's: the
    delete of anything but a namespace, the update of a secret or of a
    service account. *)
Definition isForeignWrite (ev : Event) : bool :=
  match ev with
  | Ev (Delete k _) _ =>
      match k with
      | KNamespace => false
      | _ => true
      end
  | Ev (Update k _) _ =>
      match k with
      | KSecret | KServiceAccount => true
      | _ => false
      end
  | _ => false
  end.

(** The read of a secret other than an auto-import secret. *)
Definition isForeignSecretRead (ev : Event) : bool :=
  match ev with
  | Ev (Get KSecret key) _ =>
      bool_decide (types.Name key ≠ autoImportSecretName)
  | _ => false
  end.

(** The error of the last call of a run. *)
Fixpoint lastError (t : list Event) : option error :=
  match t with
  | [] => None
  | [ev] => errorOf ev
  | _ :: t => lastError t
  end.

(** Every call before the last one succeeded, the lookup of the service
    account apart. *)
Fixpoint failFast (t : list Event) : bool :=
  match t with
  | [] => true
  | [_] => true
  | ev :: t =>
      match errorOf ev with
      | None => failFast t
      | Some _ => isServiceAccountLookup ev && failFast t
      end
  end.

(** The calls around the service account. *)
Definition aboutServiceAccount (ev : Event) : bool :=
  isCreateResource ev || isServiceAccountLookup ev.

(** The lookups of the import decision. *)
Definition isDecisionLookup (ev : Event) : bool :=
  match ev with
  | Ev (Get KClusterDeployment _) _ | Ev (Get KSecret _) _ => true
  | _ => false
  end.

(** The namespaces once the namespace [name] carries the cluster label. *)
Definition labelled (name : string) (nss : gmap string corev1.Namespace) :
    gmap string corev1.Namespace :=
  match nss !! name with
  | Some ns =>
      match GetLabels ns !! clusterLabel with
      | Some _ => nss
      | None =>
          <[name := SetLabels ns (<[clusterLabel := name]> (GetLabels ns))]>
            nss
      end
  | None => nss
  end.

(** The removal of the sync sets, the last of the provisioning steps. *)
Definition isDeleteKlusterletSyncSets (ev : Event) : bool :=
  match ev with
  | Ev (deleteKlusterletSyncSets _) _ => true
  | _ => false
  end.

(** An import after which line 290 returns: it failed, or it asked for a
    requeue. *)
Definition isStoppedImport (ev : Event) : bool :=
  match ev with
  | Ev c x =>
      match c in call X return X -> bool with
      | importCluster _ _ _ =>
          fun out => reconcile.Requeue out.1 || bool_decide (out.2 ≠ None)
      | _ => fun _ => false
      end x
  end.

(** What [importCluster] answered. *)
Definition importAnswer (ev : Event) :
    option (reconcile.Result * option error) :=
  match ev with
  | Ev c x =>
      match c in call X return X -> option (reconcile.Result * option error)
      with
      | importCluster _ _ _ => fun out => Some out
      | _ => fun _ => None
      end x
  end.

(** A status patch records a success when the object it sends carries
    the condition ManagedClusterImportSucceeded as lines 346-351 build
    it; a call that is no status patch records nothing. *)
Definition recordsSuccess (ev : Event) : Prop :=
  match ev with
  | Ev (StatusPatch obj _) _ =>
      exists c,
        FindStatusCondition (clusterv1.Conditions (clusterv1.Status obj))
          ManagedClusterImportSucceeded = Some c
        /\ metav1.Status c = metav1.ConditionTrue
        /\ metav1.Reason c = "ManagedClusterImported"
        /\ metav1.Message c = "Import succeeded"
  | _ => True
  end.




(** ** The client of the reconciler

    [customClient], lines 57-76, embeds a [client.Client] and overrides
    its [Get]: a Secret is read through [APIReader], anything else
    through the embedded client.  Both answer from the same state;
    [APIReader] is a [client.Reader], of which [Get] is the method the
    override calls.  The functions of the other files are answered by
    the environment as before. *)
Definition isSecret (k : Kind) : bool :=
  match k with
  | KSecret => true
  | _ => false
  end.

Section CustomClient.

Context {St : Type}.
Variable Client : forall X : Type, call X -> St -> X * St.
Variable APIReader :
  forall k : Kind, types.NamespacedName -> St -> got (objT k) * St.

(** [customClient.Get], lines 71-76. *)
Definition customClient_Get (k : Kind) (key : types.NamespacedName) :
    St -> got (objT k) * St :=
  if isSecret k then APIReader k key
  else Client _ (Get k key).

(** [customClient] as an environment: [Get] is overridden, every other
    call is that of the embedded client. *)
Definition customClient (X : Type) (c : call X) : St -> X * St :=
  match c in call X return St -> X * St with
  | Get k key => customClient_Get k key
  | c => Client _ c
  end.

End CustomClient.

(** A [Get] of a Secret. *)
Definition isSecretGet {X : Type} (c : call X) : bool :=
  match c with
  | Get k _ => isSecret k
  | _ => false
  end.

(** ** The predicate on ManifestWork events

    [newManifestWorkSpecPredicate], lines 78-108.  An event carries
    metadata and objects that may be nil; an object is a ManifestWork or
    something else.  The type of the spec of a ManifestWork and
    [reflect.DeepEqual] on it belong to other packages. *)
Module workv1.

Record ManifestWork (ManifestWorkSpec : Type) : Type := mkManifestWork {
  ManifestWorkMeta : metav1.ObjectMeta;
  Spec : ManifestWorkSpec
}.
Arguments mkManifestWork {ManifestWorkSpec} _ _.
Arguments ManifestWorkMeta {ManifestWorkSpec} _.
Arguments Spec {ManifestWorkSpec} _.

End workv1.

Module runtime.

(** [runtime.Object], as far as the predicate tells objects apart. *)
Inductive Object (ManifestWorkSpec : Type) : Type :=
| IsManifestWork (manifestWork : workv1.ManifestWork ManifestWorkSpec)
| IsOther (k : Kind) (obj : objT k).
Arguments IsManifestWork {ManifestWorkSpec} _.
Arguments IsOther {ManifestWorkSpec} _ _.

End runtime.

Module event.

Record GenericEvent (T : Type) : Type := mkGenericEvent {
  GenericMeta : option metav1.ObjectMeta;
  GenericObject : option (runtime.Object T)
}.

Record CreateEvent (T : Type) : Type := mkCreateEvent {
  CreateMeta : option metav1.ObjectMeta;
  CreateObject : option (runtime.Object T)
}.

Record DeleteEvent (T : Type) : Type := mkDeleteEvent {
  DeleteMeta : option metav1.ObjectMeta;
  DeleteObject : option (runtime.Object T);
  DeleteStateUnknown : bool
}.

Record UpdateEvent (T : Type) : Type := mkUpdateEvent {
  MetaOld : option metav1.ObjectMeta;
  ObjectOld : option (runtime.Object T);
  MetaNew : option metav1.ObjectMeta;
  ObjectNew : option (runtime.Object T)
}.
Arguments mkUpdateEvent {T} _ _ _ _.
Arguments MetaOld {T} _.
Arguments ObjectOld {T} _.
Arguments MetaNew {T} _.
Arguments ObjectNew {T} _.

End event.

Module predicate.

(** [predicate.Funcs]. *)
Record Funcs (T : Type) : Type := mkFuncs {
  CreateFunc : event.CreateEvent T -> bool;
  DeleteFunc : event.DeleteEvent T -> bool;
  UpdateFunc : event.UpdateEvent T -> bool;
  GenericFunc : event.GenericEvent T -> bool
}.
Arguments mkFuncs {T} _ _ _ _.
Arguments CreateFunc {T} _ _.
Arguments DeleteFunc {T} _ _.
Arguments UpdateFunc {T} _ _.
Arguments GenericFunc {T} _ _.

End predicate.

Section ManifestWorkPredicate.

Context {ManifestWorkSpec : Type}.
Variable DeepEqual : ManifestWorkSpec -> ManifestWorkSpec -> bool.

Definition newManifestWorkSpecPredicate : predicate.Funcs ManifestWorkSpec :=
  {| predicate.GenericFunc := fun e => false;
     predicate.CreateFunc := fun e => false;
     predicate.DeleteFunc := fun e => true;
     predicate.UpdateFunc := fun e =>
       match event.MetaOld e with
       | None => false
       | Some _ =>
       match event.ObjectOld e with
       | None => false
       | Some objectOld =>
       match event.ObjectNew e with
       | None => false
       | Some objectNew =>
       match event.MetaNew e with
       | None => false
       | Some _ =>
           match objectNew, objectOld with
           | runtime.IsManifestWork newManifestWork,
             runtime.IsManifestWork oldManifestWork =>
               negb (DeepEqual (workv1.Spec newManifestWork)
                       (workv1.Spec oldManifestWork))
           | _, _ => false
           end
       end end end end |}.

End ManifestWorkPredicate.

(** ** Sample objects and stores *)

Module sample.

Definition postfix : string := "-bootstrap-sa".

Definition request : reconcile.Request :=
  reconcile.mkRequest (types.mkNamespacedName "" "cluster1").

(** A freshly registered cluster: no label, no finalizer, no condition. *)
Definition cluster : clusterv1.ManagedCluster :=
  clusterv1.mkManagedCluster
    (metav1.mkObjectMeta "cluster1" "" ∅ [] None) (clusterv1.mkStatus []).

(** The same cluster carrying the self-managed label with value [v]. *)
Definition selfManaged (v : string) : clusterv1.ManagedCluster :=
  SetLabels cluster {[ selfManagedLabel := v ]}.

Definition namespace : corev1.Namespace :=
  corev1.mkNamespace (metav1.mkObjectMeta "cluster1" "" ∅ [] None).

(** The namespace once its deletion has started. *)
Definition terminating : corev1.Namespace :=
  corev1.mkNamespace (metav1.mkObjectMeta "cluster1" "" ∅ [] (Some 5%Z)).

Definition deployment : hivev1.ClusterDeployment :=
  hivev1.mkClusterDeployment
    (metav1.mkObjectMeta "cluster1" "cluster1" ∅
       [managedClusterFinalizer; "hive.openshift.io/deprovision"] None).

Definition conflict : error :=
  StatusError StatusReasonConflict "the object has been modified".

Definition internal : error :=
  StatusError StatusReasonInternalError "etcdserver: request timed out".

Definition boom : error := Errorf "boom".

(** The cluster and its namespace, nothing else. *)
Definition bare : World :=
  mkWorld {[ "cluster1" := cluster ]} {[ "cluster1" := namespace ]}
    ∅ ∅ ∅ [] 0%Z fake.allGood.

(** The cluster, its namespace and its cluster deployment. *)
Definition hived : World :=
  fake.setDeployments bare {[ ("cluster1", "cluster1") := deployment ]}.

(** The cluster is gone; namespace and cluster deployment remain. *)
Definition orphaned : World :=
  fake.setClusters hived ∅.

(** As [orphaned], the namespace being already in deletion. *)
Definition orphanedTerminating : World :=
  fake.setNamespaces orphaned {[ "cluster1" := terminating ]}.

(** The import of the cluster fails. *)
Definition failingImport : Answers :=
  mkAnswers None None None (reconcile.zero, None) ([], [], None) None
    (reconcile.zero, None) None (reconcile.zero, Some boom).

Definition withAnswers (w : World) (a : Answers) : World :=
  mkWorld (clusters w) (namespaces w) (deployments w) (secrets w)
    (serviceAccounts w) (faults w) (clock w) a.

(** The cluster once its deletion has been requested. *)
Definition deleting : clusterv1.ManagedCluster :=
  clusterv1.mkManagedCluster
    (metav1.mkObjectMeta "cluster1" "" ∅ [managedClusterFinalizer]
       (Some 7%Z))
    (clusterv1.mkStatus []).

(** The cluster reporting itself available. *)
Definition online : clusterv1.ManagedCluster :=
  clusterv1.mkManagedCluster
    (metav1.mkObjectMeta "cluster1" "" ∅ [] None)
    (clusterv1.mkStatus
       [metav1.mkCondition clusterv1.ManagedClusterConditionAvailable
          metav1.ConditionTrue (Some 3%Z) "ManagedClusterAvailable"
          "Managed cluster is available"]).

(** An auto-import secret for the cluster. *)
Definition secret : corev1.Secret :=
  corev1.mkSecret
    (metav1.mkObjectMeta autoImportSecretName "cluster1" ∅ [] None).

(** A cache that cannot serve secrets. *)
Definition brokenCache (X : Type) (c : call X) : World -> X * World :=
  match c in call X return World -> X * World with
  | Get KSecret key => fun w => (Failed boom, w)
  | c => fake.handle _ c
  end.

End sample.

(** ** Basic facts *)

Lemma ParseBool_error (v : string) (b : bool) (e : error) :
  strconv.ParseBool v = (b, Some e) -> b = false /\ e = NumError "ParseBool" v.
Proof.
  unfold strconv.ParseBool.
  repeat case_bool_decide; intros [= <- <-]; auto.
Qed.

Lemma RemoveFinalizer_gone {T} `{Object T} (o : T) (f : string) :
  (forall o' m, GetObjectMeta (SetObjectMeta o' m) = m) ->
  f ∉ GetFinalizers (libgometav1.RemoveFinalizer o f).
Proof.
  intros Hset. unfold libgometav1.RemoveFinalizer, GetFinalizers, SetFinalizers.
  rewrite Hset. cbn. rewrite list_elem_of_filter. tauto.
Qed.

Lemma RemoveFinalizer_others {T} `{Object T} (o : T) (f g : string) :
  (forall o' m, GetObjectMeta (SetObjectMeta o' m) = m) ->
  g ≠ f ->
  g ∈ GetFinalizers (libgometav1.RemoveFinalizer o f) <-> g ∈ GetFinalizers o.
Proof.
  intros Hset Hne. unfold libgometav1.RemoveFinalizer, GetFinalizers, SetFinalizers.
  rewrite Hset. cbn. rewrite list_elem_of_filter. tauto.
Qed.

Lemma checkOffLineConditions_find (conditions : list metav1.Condition) :
  checkOffLineConditions conditions =
    match FindStatusCondition conditions
            clusterv1.ManagedClusterConditionAvailable with
    | None => true
    | Some sc =>
        match metav1.Status sc with
        | metav1.ConditionTrue => false
        | _ => true
        end
    end.
Proof.
  induction conditions as [| sc rest IH]; [reflexivity |].
  cbn [checkOffLineConditions FindStatusCondition].
  case_bool_decide; [| exact IH].
  destruct (metav1.Status sc); reflexivity.
Qed.

Lemma Avoids_bind (bad : Event -> bool) {A B : Type}
    (p : Prog A) (f : A -> Prog B) :
  Avoids bad p -> (forall a, Avoids bad (f a)) -> Avoids bad (p ≫= f).
Proof.
  intros Hp Hf. induction Hp as [a | X c k Hc Hk IH].
  - apply Hf.
  - change (Vis c k ≫= f) with (Vis c (fun x => k x ≫= f)).
    constructor; auto.
Qed.

Lemma count_app (f : Event -> bool) (t1 t2 : list Event) :
  count f (t1 ++ t2) = count f t1 + count f t2.
Proof. induction t1 as [| ev t1 IH]; cbn; [reflexivity | rewrite IH; lia]. Qed.

Lemma count_le (f g : Event -> bool) (t : list Event) :
  (forall ev, f ev = true -> g ev = true) -> count f t <= count g t.
Proof.
  intros Hfg. induction t as [| ev t IH]; cbn; [lia |].
  specialize (Hfg ev).
  destruct (f ev), (g ev); first [lia | discriminate Hfg; reflexivity].
Qed.

Lemma FindStatusCondition_app (conditions : list metav1.Condition)
    (c : metav1.Condition) (conditionType : string) :
  FindStatusCondition (conditions ++ [c]) conditionType =
    match FindStatusCondition conditions conditionType with
    | Some c' => Some c'
    | None =>
        if bool_decide (metav1.CondType c = conditionType) then Some c
        else None
    end.
Proof.
  induction conditions as [| c' rest IH]; cbn; [reflexivity |].
  destruct (bool_decide (metav1.CondType c' = conditionType));
    [reflexivity | exact IH].
Qed.

Lemma FindStatusCondition_update (conditions : list metav1.Condition)
    (conditionType ty : string)
    (f : metav1.Condition -> metav1.Condition) :
  (forall c, metav1.CondType (f c) = metav1.CondType c) ->
  FindStatusCondition (updateCondition conditions conditionType f) ty =
    if bool_decide (ty = conditionType)
    then f <$> FindStatusCondition conditions ty
    else FindStatusCondition conditions ty.
Proof.
  intros Hf. induction conditions as [| c rest IH]; cbn.
  - case_bool_decide; reflexivity.
  - destruct (bool_decide (metav1.CondType c = conditionType)) eqn:Hc; cbn.
    + apply bool_decide_eq_true in Hc. rewrite Hf.
      repeat case_bool_decide; cbn; congruence.
    + apply bool_decide_eq_false in Hc. rewrite IH.
      repeat case_bool_decide; cbn; congruence.
Qed.

(** Walk a program down to its leaves, one case per answer. *)
Ltac avoids :=
  repeat (cbn;
          lazymatch goal with
          | |- Avoids _ (Ret _) => constructor
          | |- Avoids _ (mret _) => exact (Avoids_ret _ _)
          | |- Avoids _ (Vis _ _) => constructor; [intros; reflexivity | intros]
          | |- context [match ?x with _ => _ end] => destruct x
          end).

Lemma toBeImported_avoids (managedCluster : clusterv1.ManagedCluster) :
  Avoids isImportStep (toBeImported managedCluster).
Proof. unfold toBeImported. avoids. Qed.

Lemma deleteNamespace_avoids (namespaceName : string) :
  Avoids isImportStep (deleteNamespace namespaceName).
Proof. unfold deleteNamespace. avoids. Qed.

Lemma Reconcile_provision_avoids (postfix : string)
    (instance : clusterv1.ManagedCluster) :
  Avoids isImportStep (Reconcile_provision postfix instance).
Proof. unfold Reconcile_provision. avoids. Qed.

Lemma count_import_free (t : list Event) :
  count isImportStep t = 0 ->
  count isStatusPatch t = 0
  /\ count isImportCluster t = 0
  /\ count isFailedStatusPatch t = 0.
Proof.
  intros Hfree.
  assert (count isStatusPatch t <= count isImportStep t) as Hpatch.
  { apply count_le. intros ev Hev. unfold isImportStep. rewrite Hev.
    reflexivity. }
  assert (count isImportCluster t <= count isImportStep t).
  { apply count_le. intros ev Hev. unfold isImportStep. rewrite Hev.
    apply orb_true_r. }
  assert (count isFailedStatusPatch t <= count isStatusPatch t).
  { apply count_le. intros [X c x] Hev. destruct c; try discriminate Hev.
    reflexivity. }
  lia.
Qed.

(** Case analysis on the run of a part of the program of the goal. *)
Tactic Notation "ran" constr(p) "as" simple_intropattern(pat) :=
  unfold Decision, Outcome, Provisioned in *;
  match goal with
  | |- context [@run ?S ?h ?T p ?s] => destruct (@run S h T p s) as pat
  end.

Section Properties.

Context {St : Type}.
Variable handle : forall X : Type, call X -> St -> X * St.

Lemma run_ret {A} (a : A) (s : St) : run handle (mret a) s = (a, s, []).
Proof. reflexivity. Qed.

Lemma run_vis {A X} (c : call X) (k : X -> Prog A) (s : St) :
  run handle (Vis c k) s =
    let '(x, s1) := handle _ c s in
    let '(a, s2, t) := run handle (k x) s1 in
    (a, s2, Ev c x :: t).
Proof. reflexivity. Qed.

Lemma run_trigger {X} (c : call X) (s : St) :
  run handle (trigger c) s =
    let '(x, s1) := handle _ c s in (x, s1, [Ev c x]).
Proof. cbn. destruct (handle X c s). reflexivity. Qed.

Lemma run_bind {A B} (p : Prog A) (f : A -> Prog B) (s : St) :
  run handle (p ≫= f) s =
    let '(a, s1, t1) := run handle p s in
    let '(b, s2, t2) := run handle (f a) s1 in
    (b, s2, t1 ++ t2).
Proof.
  revert s. induction p as [a | X c k IH]; intros s.
  - cbn. destruct (run handle (f a) s) as [[b s2] t2]. reflexivity.
  - change (Vis c k ≫= f) with (Vis c (fun x => k x ≫= f)).
    rewrite !run_vis. destruct (handle X c s) as [x s1].
    rewrite IH. destruct (run handle (k x) s1) as [[a s2] t].
    destruct (run handle (f a) s2) as [[b s3] t2]. reflexivity.
Qed.

(** Rewrite with an answer of the environment. *)
Ltac answered H := cbn in H; rewrite H; cbn.

(** Case analysis on the answer to the next call of the goal. *)
Ltac ask x s1 :=
  match goal with
  | |- context [handle ?X ?c ?s] => destruct (handle X c s) as [x s1]
  end.

(** *** The import decision *)

(** C1: a self-managed label that parses decides alone, without any
    lookup, and one that does not parse is a fatal error; without the
    label an existing cluster deployment means import, referencing it,
    with no look at the auto-import secret; without label, cluster
    deployment and auto-import secret the decision is not to import,
    without error. *)
Theorem toBeImported_precedence
    (managedCluster : clusterv1.ManagedCluster) (s : St) :
  let name := GetName managedCluster in
  let cdKey := {| types.Name := name; types.Namespace := name |} in
  let secretKey :=
    {| types.Name := autoImportSecretName; types.Namespace := name |} in
  (forall v b,
      GetLabels managedCluster !! selfManagedLabel = Some v ->
      strconv.ParseBool v = (b, None) ->
      run handle (toBeImported managedCluster) s
      = ((None, None, b, None), s, []))
  /\ (forall v b e,
        GetLabels managedCluster !! selfManagedLabel = Some v ->
        strconv.ParseBool v = (b, Some e) ->
        run handle (toBeImported managedCluster) s
        = ((None, None, false, Some e), s, []))
  /\ (forall cd s1,
        GetLabels managedCluster !! selfManagedLabel = None ->
        handle _ (Get KClusterDeployment cdKey) s = (Found cd, s1) ->
        run handle (toBeImported managedCluster) s
        = ((None, Some cd, true, None), s1,
           [Ev (Get KClusterDeployment cdKey) (Found cd)]))
  /\ (forall e1 s1 e2 s2,
        GetLabels managedCluster !! selfManagedLabel = None ->
        handle _ (Get KClusterDeployment cdKey) s = (Failed e1, s1) ->
        errors.IsNotFound e1 = true ->
        handle _ (Get KSecret secretKey) s1 = (Failed e2, s2) ->
        errors.IsNotFound e2 = true ->
        run handle (toBeImported managedCluster) s
        = ((None, None, false, None), s2,
           [Ev (Get KClusterDeployment cdKey) (Failed e1);
            Ev (Get KSecret secretKey) (Failed e2)])).
Proof.
  cbn zeta. unfold toBeImported. repeat split.
  - intros v b Hl Hp. rewrite Hl, Hp. reflexivity.
  - intros v b e Hl Hp. rewrite Hl, Hp.
    apply ParseBool_error in Hp as [-> _]. reflexivity.
  - intros cd s1 Hl Hcd. rewrite Hl. cbn. answered Hcd. reflexivity.
  - intros e1 s1 e2 s2 Hl Hcd He1 Hsec He2. rewrite Hl. cbn.
    answered Hcd. rewrite He1. cbn. answered Hsec. rewrite He2.
    reflexivity.
Qed.

(** C7, as the code has it: the decision engine makes no lookup when
    the self-managed label is present, otherwise the lookup of the
    cluster deployment, and after it the lookup of the auto-import
    secret only when the first answered not found: two lookups at most,
    and no rule is evaluated once an earlier one has resolved. *)
Theorem toBeImported_lookups
    (managedCluster : clusterv1.ManagedCluster) (s : St) :
  let name := GetName managedCluster in
  let cdKey := {| types.Name := name; types.Namespace := name |} in
  let secretKey :=
    {| types.Name := autoImportSecretName; types.Namespace := name |} in
  let t := (run handle (toBeImported managedCluster) s).2 in
  count isLookup t <= 2
  /\ length t = count isLookup t
  /\ (is_Some (GetLabels managedCluster !! selfManagedLabel) /\ t = []
      \/ GetLabels managedCluster !! selfManagedLabel = None
         /\ (exists r, t = [Ev (Get KClusterDeployment cdKey) r]
                /\ match r with
                   | Found _ => True
                   | Failed e => errors.IsNotFound e = false
                   end)
      \/ GetLabels managedCluster !! selfManagedLabel = None
         /\ (exists e r, t = [Ev (Get KClusterDeployment cdKey) (Failed e);
                              Ev (Get KSecret secretKey) r]
                  /\ errors.IsNotFound e = true)).
Proof.
  cbn zeta. unfold toBeImported.
  destruct (GetLabels managedCluster !! selfManagedLabel) as [v |] eqn:Hl.
  - destruct (strconv.ParseBool v) as [b err]. cbn.
    split; [lia |]. split; [reflexivity |]. left. eauto.
  - cbn. ask r s1. destruct r as [cd | e1].
    + cbn. split; [lia |]. split; [reflexivity |]. right; left.
      split; [reflexivity |]. exists (Found cd). auto.
    + destruct (errors.IsNotFound e1) eqn:He1; cbn.
      * ask r s2.
        destruct r as [sec | e2]; [| destruct (errors.IsNotFound e2)]; cbn;
          (split; [lia |]; split; [reflexivity |]; right; right;
           split; [reflexivity |]; eauto).
      * split; [lia |]. split; [reflexivity |]. right; left.
        split; [reflexivity |]. exists (Failed e1). auto.
Qed.

(** *** The cleanup of the namespace *)

(** C9: [deleteNamespace] succeeds without writing anything when the
    namespace is not found or already carries a deletion timestamp;
    when the namespace is live and no cluster deployment is found it
    issues the delete of that namespace, and a delete answered with
    success or with not found is a success. *)
Theorem deleteNamespace_noop (namespaceName : string) (s : St) :
  let nsKey := {| types.Namespace := ""; types.Name := namespaceName |} in
  let cdKey :=
    {| types.Name := namespaceName; types.Namespace := namespaceName |} in
  (forall e s1,
      handle _ (Get KNamespace nsKey) s = (Failed e, s1) ->
      errors.IsNotFound e = true ->
      run handle (deleteNamespace namespaceName) s
      = (None, s1, [Ev (Get KNamespace nsKey) (Failed e)]))
  /\ (forall ns s1 ts,
        handle _ (Get KNamespace nsKey) s = (Found ns, s1) ->
        GetDeletionTimestamp ns = Some ts ->
        run handle (deleteNamespace namespaceName) s
        = (None, s1, [Ev (Get KNamespace nsKey) (Found ns)]))
  /\ (forall ns s1 e s2 r s3,
        handle _ (Get KNamespace nsKey) s = (Found ns, s1) ->
        GetDeletionTimestamp ns = None ->
        handle _ (Get KClusterDeployment cdKey) s1 = (Failed e, s2) ->
        errors.IsNotFound e = true ->
        handle _ (Delete KNamespace ns) s2 = (r, s3) ->
        match r with
        | None => True
        | Some e' => errors.IsNotFound e' = true
        end ->
        run handle (deleteNamespace namespaceName) s
        = (None, s3,
           [Ev (Get KNamespace nsKey) (Found ns);
            Ev (Get KClusterDeployment cdKey) (Failed e);
            Ev (Delete KNamespace ns) r])).
Proof.
  cbn zeta. unfold deleteNamespace. repeat split.
  - intros e s1 Hns He. cbn. answered Hns. rewrite He. reflexivity.
  - intros ns s1 ts Hns Hts. cbn. answered Hns.
    cbn in Hts. rewrite Hts. reflexivity.
  - intros ns s1 e s2 r s3 Hns Hts Hcd He Hdel Hr. cbn. answered Hns.
    cbn in Hts. rewrite Hts. cbn. answered Hcd. rewrite He. cbn.
    answered Hdel. destruct r as [e' |]; [rewrite Hr |]; reflexivity.
Qed.

(** C2, as the code has it: when the namespace is found without a
    deletion timestamp and the cluster deployment named after it is
    found, [deleteNamespace] issues exactly one update, of that record
    without the controller's finalizer, and no delete; it returns the
    error naming the namespace when the update succeeds and the error
    of the update otherwise. *)
Theorem deleteNamespace_blocked (namespaceName : string) (s : St)
    (ns : corev1.Namespace) (s1 : St) (cd : hivev1.ClusterDeployment)
    (s2 : St) (r : option error) (s3 : St) :
  let nsKey := {| types.Namespace := ""; types.Name := namespaceName |} in
  let cdKey :=
    {| types.Name := namespaceName; types.Namespace := namespaceName |} in
  let released := libgometav1.RemoveFinalizer cd managedClusterFinalizer in
  handle _ (Get KNamespace nsKey) s = (Found ns, s1) ->
  GetDeletionTimestamp ns = None ->
  handle _ (Get KClusterDeployment cdKey) s1 = (Found cd, s2) ->
  handle _ (Update KClusterDeployment released) s2 = (r, s3) ->
  let '(err, s', t) := run handle (deleteNamespace namespaceName) s in
  t = [Ev (Get KNamespace nsKey) (Found ns);
       Ev (Get KClusterDeployment cdKey) (Found cd);
       Ev (Update KClusterDeployment released) r]
  /\ s' = s3
  /\ count isUpdate t = 1
  /\ count isDelete t = 0
  /\ (managedClusterFinalizer ∉ GetFinalizers released)
  /\ (forall f, f ≠ managedClusterFinalizer ->
             (f ∈ GetFinalizers released <-> f ∈ GetFinalizers cd))
  /\ err = match r with
           | Some e => Some e
           | None => Some (Errorf (blockedMessage namespaceName))
           end.
Proof.
  cbn zeta. intros Hns Hts Hcd Hupd. unfold deleteNamespace. cbn.
  answered Hns. cbn in Hts. rewrite Hts. cbn. answered Hcd.
  answered Hupd.
  assert ((managedClusterFinalizer
             ∉ GetFinalizers
                 (libgometav1.RemoveFinalizer cd managedClusterFinalizer))
          /\ (forall f, f ≠ managedClusterFinalizer ->
                 (f ∈ GetFinalizers
                        (libgometav1.RemoveFinalizer cd
                           managedClusterFinalizer)
                  <-> f ∈ GetFinalizers cd))) as [Hgone Hkept].
  { split; [apply RemoveFinalizer_gone; reflexivity |].
    intros f Hf. apply RemoveFinalizer_others; [reflexivity | exact Hf]. }
  destruct r as [e |]; cbn; repeat split; auto; apply Hkept; auto.
Qed.

(** *** The status recorder *)

(** [SetStatusCondition] reads the clock at most once and makes no
    other call; afterwards the condition found under the type of the new
    one carries its status, reason and message, and the conditions of
    other types are as before. *)
Lemma run_SetStatusCondition (conditions : list metav1.Condition)
    (newCondition : metav1.Condition) (s : St) :
  let '(conditions', s', t) :=
    run handle (SetStatusCondition conditions newCondition) s in
  (t = [] \/ exists now, t = [Ev Now now])
  /\ (exists c,
        FindStatusCondition conditions' (metav1.CondType newCondition)
        = Some c
        /\ metav1.Status c = metav1.Status newCondition
        /\ metav1.Reason c = metav1.Reason newCondition
        /\ metav1.Message c = metav1.Message newCondition)
  /\ (forall ty, ty ≠ metav1.CondType newCondition ->
        FindStatusCondition conditions' ty
        = FindStatusCondition conditions ty).
Proof.
  unfold SetStatusCondition.
  destruct (FindStatusCondition conditions (metav1.CondType newCondition))
    as [existing |] eqn:Hfind.
  - assert (forall status t,
               status = metav1.Status newCondition ->
               let conditions' :=
                 updateCondition conditions (metav1.CondType newCondition)
                   (fun c => metav1.mkCondition (metav1.CondType c) status t
                               (metav1.Reason newCondition)
                               (metav1.Message newCondition)) in
               (exists c,
                   FindStatusCondition conditions'
                     (metav1.CondType newCondition) = Some c
                   /\ metav1.Status c = metav1.Status newCondition
                   /\ metav1.Reason c = metav1.Reason newCondition
                   /\ metav1.Message c = metav1.Message newCondition)
               /\ (forall ty, ty ≠ metav1.CondType newCondition ->
                     FindStatusCondition conditions' ty
                     = FindStatusCondition conditions ty)) as Hupd.
    { intros status t ->. cbn zeta. split.
      - rewrite FindStatusCondition_update by reflexivity.
        rewrite bool_decide_eq_true_2 by reflexivity.
        rewrite Hfind. cbn. eauto.
      - intros ty Hty. rewrite FindStatusCondition_update by reflexivity.
        rewrite bool_decide_eq_false_2 by exact Hty. reflexivity. }
    case_bool_decide as Hstatus.
    + destruct (metav1.LastTransitionTime newCondition) as [t |]; cbn.
      * split; [left; reflexivity | apply Hupd; reflexivity].
      * ask now s1. cbn.
        split; [right; eauto | apply Hupd; reflexivity].
    + cbn. split; [left; reflexivity |]. apply Hupd.
      destruct (decide (metav1.Status existing = metav1.Status newCondition));
        [assumption | contradiction].
  - assert (forall t,
               let conditions' :=
                 conditions ++
                   [metav1.mkCondition (metav1.CondType newCondition)
                      (metav1.Status newCondition) t
                      (metav1.Reason newCondition)
                      (metav1.Message newCondition)] in
               (exists c,
                   FindStatusCondition conditions'
                     (metav1.CondType newCondition) = Some c
                   /\ metav1.Status c = metav1.Status newCondition
                   /\ metav1.Reason c = metav1.Reason newCondition
                   /\ metav1.Message c = metav1.Message newCondition)
               /\ (forall ty, ty ≠ metav1.CondType newCondition ->
                     FindStatusCondition conditions' ty
                     = FindStatusCondition conditions ty)) as Happ.
    { intros t. cbn zeta. split.
      - rewrite FindStatusCondition_app, Hfind. cbn.
        rewrite bool_decide_eq_true_2 by reflexivity. eauto.
      - intros ty Hty. rewrite FindStatusCondition_app. cbn.
        rewrite bool_decide_eq_false_2 by congruence.
        destruct (FindStatusCondition conditions ty); reflexivity. }
    destruct (metav1.LastTransitionTime newCondition) as [t |]; cbn.
    + split; [left; reflexivity | apply Happ].
    + ask now s1. cbn. split; [right; eauto | apply Happ].
Qed.

(** [setConditionImport] ends with one status patch, of the cluster
    carrying the import condition against the cluster as it was
    received, and returns the error of that patch, or else [errIn]. *)
Lemma run_setConditionImport (managedCluster : clusterv1.ManagedCluster)
    (errIn : option error) (reason : string) (s : St) :
  let '(err, s', t) :=
    run handle (setConditionImport managedCluster errIn reason) s in
  exists reads conditions r c,
    t = reads ++
          [Ev (StatusPatch (setConditions managedCluster conditions)
                 managedCluster) r]
    /\ (reads = [] \/ exists now, reads = [Ev Now now])
    /\ FindStatusCondition conditions ManagedClusterImportSucceeded = Some c
    /\ metav1.Status c = metav1.Status (importCondition errIn reason)
    /\ metav1.Reason c = metav1.Reason (importCondition errIn reason)
    /\ metav1.Message c = metav1.Message (importCondition errIn reason)
    /\ (forall ty, ty ≠ ManagedClusterImportSucceeded ->
          FindStatusCondition conditions ty
          = FindStatusCondition
              (clusterv1.Conditions (clusterv1.Status managedCluster)) ty)
    /\ err = match r with
             | Some e => Some e
             | None => errIn
             end.
Proof.
  unfold setConditionImport. cbn zeta. rewrite run_bind.
  pose proof (run_SetStatusCondition
                (clusterv1.Conditions (clusterv1.Status managedCluster))
                (importCondition errIn reason) s) as Hset.
  destruct (run handle (SetStatusCondition _ _) s) as [[conditions s1] reads].
  destruct Hset as (Hreads & (c & Hfind & Hstatus & Hreason & Hmessage) & Hothers).
  assert (metav1.CondType (importCondition errIn reason)
          = ManagedClusterImportSucceeded) as Hty
    by (destruct errIn; reflexivity).
  rewrite Hty in Hfind, Hothers.
  cbn. ask r s2.
  destruct r as [e |]; cbn;
    [exists reads, conditions, (Some e), c
    | exists reads, conditions, None, c]; repeat split; auto.
Qed.

Lemma Avoids_count (bad : Event -> bool) {A} (p : Prog A) :
  Avoids bad p -> forall s, count bad (run handle p s).2 = 0.
Proof.
  induction 1 as [a | X c k Hc Hk IH]; intros s; [reflexivity |].
  rewrite run_vis. destruct (handle X c s) as [x s1].
  specialize (IH x s1). destruct (run handle (k x) s1) as [[a s2] t].
  cbn in *. rewrite Hc, IH. reflexivity.
Qed.

(** *** The reconciler, step by step *)

Section Reconcile.

Variable postfix : string.

(** The run of the offline branch, in terms of the run of the
    decision engine, the answer to [importCluster] and the run of the
    status recorder. *)
Lemma run_Reconcile_offline (instance : clusterv1.ManagedCluster)
    (s : St) :
  run handle (Reconcile_offline instance) s =
    let '(autoImportSecret, clusterDeployment, toImport, err, s1, t1) :=
      run handle (toBeImported instance) s in
    match err with
    | Some e => ((reconcile.zero, Some e), s1, t1)
    | None =>
        if negb toImport then ((reconcile.zero, None), s1, t1)
        else
          let c := importCluster instance clusterDeployment
                     autoImportSecret in
          let '(result, err, s2) := handle _ c s1 in
          if reconcile.Requeue result || bool_decide (err ≠ None)
          then ((result, err), s2, t1 ++ [Ev c (result, err)])
          else
            let '(errCond, s3, t3) :=
              run handle
                (setConditionImport instance err
                   ("Unable to import " +:+ GetName instance)) s2 in
            ((result, err), s3, t1 ++ Ev c (result, err) :: t3)
    end.
Proof.
  unfold Reconcile_offline. rewrite run_bind.
  ran (toBeImported instance) as [[[[[sec cd] toImport] err] s1] t1].
  destruct err as [e |]; [cbv beta iota; rewrite run_ret, app_nil_r; reflexivity |].
  destruct toImport; cbn [negb]; [| cbv beta iota; rewrite run_ret, app_nil_r; reflexivity].
  cbv beta iota. rewrite run_bind, run_trigger. cbn zeta.
  destruct (handle _ (importCluster instance cd sec) s1)
    as [[result err] s2].
  destruct (reconcile.Requeue result || bool_decide (err ≠ None));
    [reflexivity |].
  rewrite run_bind.
  ran (setConditionImport instance err
         ("Unable to import " +:+ GetName instance))
    as [[errCond s3] t3].
  cbv beta iota. rewrite run_ret, app_nil_r. reflexivity.
Qed.

(** The run of [Reconcile], in terms of the runs of its parts. *)
Lemma run_Reconcile (request : reconcile.Request) (s : St) :
  run handle (Reconcile postfix request) s =
    let name := types.Name (reconcile.NamespacedName request) in
    let c := Get KManagedCluster
               {| types.Namespace := ""; types.Name := name |} in
    let '(r, s0) := handle _ c s in
    match r with
    | Failed err =>
        if errors.IsNotFound err then
          let '(e, s1, t) := run handle (deleteNamespace name) s0 in
          (match e with
           | Some _ =>
               ({| reconcile.Requeue := true;
                   reconcile.RequeueAfter := (1 * time.Minute)%Z |}, None)
           | None => (reconcile.zero, None)
           end, s1, Ev c r :: t)
        else ((reconcile.zero, Some err), s0, [Ev c r])
    | Found instance =>
        match GetDeletionTimestamp instance with
        | Some _ =>
            let d := managedClusterDeletion instance in
            let '(out, s1) := handle _ d s0 in
            (out, s1, [Ev c r; Ev d out])
        | None =>
            let '(p, s1, t1) :=
              run handle
                (Reconcile_provision postfix (Reconcile_prepare instance))
                s0 in
            match p with
            | inl out => (out, s1, Ev c r :: t1)
            | inr (instance, crds, yamls) =>
                if negb (checkOffLine instance) then
                  let w := createOrUpdateManifestWorks instance
                             crds yamls in
                  let '(err, s2) := handle _ w s1 in
                  ((reconcile.zero, err), s2, Ev c r :: t1 ++ [Ev w err])
                else
                  let '(out, s2, t2) :=
                    run handle (Reconcile_offline instance) s1 in
                  (out, s2, Ev c r :: t1 ++ t2)
            end
        end
    end.
Proof.
  unfold Reconcile. cbn zeta. rewrite run_bind, run_trigger.
  cbv beta iota delta [objT]. unfold Outcome.
  ask r s0. destruct r as [instance | err].
  - destruct (GetDeletionTimestamp instance) as [ts |].
    + rewrite run_trigger. ask out s1. reflexivity.
    + rewrite run_bind.
      ran (Reconcile_provision postfix (Reconcile_prepare instance))
        as [[p s1] t1].
      destruct p as [out | [[instance' crds] yamls]];
        [rewrite run_ret, app_nil_r; reflexivity |].
      destruct (negb (checkOffLine instance')).
      * rewrite run_bind, run_trigger. ask err s2.
        destruct err; rewrite run_ret, app_nil_r; reflexivity.
      * ran (Reconcile_offline instance') as [[out s2] t2].
        reflexivity.
  - destruct (errors.IsNotFound err); [| reflexivity].
    rewrite run_bind.
    ran (deleteNamespace (types.Name (reconcile.NamespacedName request)))
      as [[e s1] t].
    destruct e; rewrite run_ret, app_nil_r; reflexivity.
Qed.

(** A run of [Reconcile] that patches the status returns no error
    and asks for no requeue, whatever the patch answers. *)
Lemma Reconcile_patch_outcome (request : reconcile.Request) (s : St) :
  let '(out, s', t) := run handle (Reconcile postfix request) s in
  0 < count isStatusPatch t ->
  out.2 = None /\ reconcile.Requeue out.1 = false.
Proof.
  rewrite run_Reconcile. cbn zeta. ask r s0.
  destruct r as [instance0 | err].
  - destruct (GetDeletionTimestamp instance0) as [ts |].
    { ask out s1. cbn. lia. }
    pose proof (Avoids_count isImportStep _
                  (Reconcile_provision_avoids postfix
                     (Reconcile_prepare instance0)) s0)
      as Hprov.
    ran (Reconcile_provision postfix (Reconcile_prepare instance0))
      as [[p s1] t1].
    cbn [snd] in Hprov.
    apply count_import_free in Hprov as (Hprov & _ & _).
    destruct p as [out | [[instance crds] yamls]]; [cbn; lia |].
    destruct (negb (checkOffLine instance)).
    { ask err s2. cbn. rewrite count_app, Hprov. cbn. lia. }
    rewrite run_Reconcile_offline.
    pose proof (Avoids_count isImportStep _
                  (toBeImported_avoids instance) s1) as Hdec.
    ran (toBeImported instance) as [[[[[sec cd] toImport] err] s2] t2].
    cbn [snd] in Hdec.
    apply count_import_free in Hdec as (Hdec & _ & _).
    destruct err as [e |]; [cbn; rewrite count_app, Hprov, Hdec; lia |].
    destruct toImport; cbn [negb];
      [| cbn; rewrite count_app, Hprov, Hdec; lia].
    cbn zeta. ask res s3. destruct res as [result err].
    destruct (reconcile.Requeue result) eqn:Hrequeue; cbn [orb].
    { cbn. rewrite !count_app, Hprov, Hdec. cbn. lia. }
    case_bool_decide as Herr; cbn [orb].
    { cbn. rewrite !count_app, Hprov, Hdec. cbn. lia. }
    ran (setConditionImport instance err
           ("Unable to import " +:+ GetName instance))
      as [[errCond s4] t4].
    intros _. cbn. split; [| exact Hrequeue].
    exact Herr.
  - destruct (errors.IsNotFound err); [| cbn; lia].
    pose proof (Avoids_count isImportStep _
                  (deleteNamespace_avoids
                     (types.Name (reconcile.NamespacedName request))) s0)
      as Hdel.
    ran (deleteNamespace (types.Name (reconcile.NamespacedName request)))
      as [[e s1] t].
    cbn [snd] in Hdel.
    apply count_import_free in Hdel as (Hdel & _ & _).
    cbn. rewrite Hdel. lia.
Qed.

(** *** Claims on [Reconcile] *)

(** C8: when the ManagedCluster is not found at the initial fetch and
    the cleanup of its namespace then fails, [Reconcile] returns no
    error and a requeue after exactly one minute. *)
Theorem Reconcile_cleanup_retry (request : reconcile.Request) (s : St)
    (e : error) (s0 : St) (e' : error) (s1 : St) (t : list Event) :
  let name := types.Name (reconcile.NamespacedName request) in
  let fetch := Get KManagedCluster
                 {| types.Namespace := ""; types.Name := name |} in
  handle _ fetch s = (Failed e, s0) ->
  errors.IsNotFound e = true ->
  run handle (deleteNamespace name) s0 = (Some e', s1, t) ->
  run handle (Reconcile postfix request) s
  = (({| reconcile.Requeue := true;
         reconcile.RequeueAfter := 60000000000%Z |}, None),
     s1, Ev fetch (Failed e) :: t).
Proof.
  cbn zeta. intros Hfetch He Hdel. rewrite run_Reconcile. cbn zeta.
  rewrite Hfetch, He, Hdel. reflexivity.
Qed.

(** C6, as the code has it: [setConditionImport] patches the status
    with the ManagedClusterImportSucceeded condition, True with message
    "Import succeeded" when [errIn] is nil, False otherwise with the
    error's message, followed by ": " and the context when the context
    is not empty; the patch is a merge patch from the object as it was
    received; it returns [errIn] when the patch succeeds and the error
    of the patch when it fails; and a failed patch never becomes the
    error of [Reconcile]. *)
Theorem setConditionImport_contract :
  (forall (managedCluster : clusterv1.ManagedCluster)
          (errIn : option error) (reason : string) (s : St),
      let '(err, s', t) :=
        run handle (setConditionImport managedCluster errIn reason) s in
      exists reads conditions r c,
        t = reads ++
              [Ev (StatusPatch (setConditions managedCluster conditions)
                     managedCluster) r]
        /\ (reads = [] \/ exists now, reads = [Ev Now now])
        /\ FindStatusCondition conditions ManagedClusterImportSucceeded
           = Some c
        /\ metav1.Status c = match errIn with
                             | None => metav1.ConditionTrue
                             | Some _ => metav1.ConditionFalse
                             end
        /\ metav1.Message c = match errIn with
                              | None => "Import succeeded"
                              | Some e =>
                                  if bool_decide (reason = "")
                                  then Error e
                                  else Error e +:+ ": " +:+ reason
                              end
        /\ err = match r with
                 | Some e => Some e
                 | None => errIn
                 end)
  /\ (forall (request : reconcile.Request) (s : St),
        let '(out, s', t) := run handle (Reconcile postfix request) s in
        0 < count isFailedStatusPatch t -> out.2 = None).
Proof.
  split.
  - intros managedCluster errIn reason s.
    pose proof (run_setConditionImport managedCluster errIn reason s)
      as Hrun.
    ran (setConditionImport managedCluster errIn reason)
      as [[err s'] t].
    destruct Hrun
      as (reads & conditions & r & c & Ht & Hreads & Hfind & Hstatus
          & _ & Hmessage & _ & Herr).
    exists reads, conditions, r, c.
    repeat split; try assumption.
    + rewrite Hstatus. destruct errIn; reflexivity.
    + rewrite Hmessage. destruct errIn as [e |]; [| reflexivity].
      cbn. repeat case_bool_decide; congruence.
  - intros request s.
    pose proof (Reconcile_patch_outcome request s) as Hout.
    ran (Reconcile postfix request) as [[out s'] t].
    intros Hfailed. apply Hout.
    assert (count isFailedStatusPatch t <= count isStatusPatch t);
      [| lia].
    apply count_le. intros [X c x] Hev.
    destruct c; try discriminate Hev. reflexivity.
Qed.

(** The offline branch, as the code has it: when the decision
    engine declines, [Reconcile] returns the zero result and no error,
    and neither imports nor patches the status; when it approves,
    [Reconcile] calls [importCluster] with the secret and record of the
    decision and returns its result and error unchanged, patching the
    status, with the condition True and "Import succeeded", exactly
    when the import returned no error and asked for no requeue. *)
Lemma Reconcile_offline_contract (request : reconcile.Request)
    (s : St) (instance0 : clusterv1.ManagedCluster) (s0 : St)
    (instance : clusterv1.ManagedCluster) (crds yamls : list Unstructured)
    (s1 : St) (t1 : list Event) :
  let name := types.Name (reconcile.NamespacedName request) in
  let fetch := Get KManagedCluster
                 {| types.Namespace := ""; types.Name := name |} in
  handle _ fetch s = (Found instance0, s0) ->
  GetDeletionTimestamp instance0 = None ->
  run handle (Reconcile_provision postfix (Reconcile_prepare instance0)) s0
  = (inr (instance, crds, yamls), s1, t1) ->
  checkOffLine instance = true ->
  (forall sec cd s2 t2,
      run handle (toBeImported instance) s1
      = ((sec, cd, false, None), s2, t2) ->
      let '(out, s', t) := run handle (Reconcile postfix request) s in
      out = (reconcile.zero, None)
      /\ s' = s2
      /\ t = Ev fetch (Found instance0) :: t1 ++ t2
      /\ count isStatusPatch t = 0
      /\ count isImportCluster t = 0)
  /\ (forall sec cd s2 t2 result err s3,
        run handle (toBeImported instance) s1
        = ((sec, cd, true, None), s2, t2) ->
        handle _ (importCluster instance cd sec) s2
        = ((result, err), s3) ->
        let '(out, s', t) := run handle (Reconcile postfix request) s in
        let imported := Ev (importCluster instance cd sec) (result, err) in
        out = (result, err)
        /\ count isImportCluster t = 1
        /\ if reconcile.Requeue result || bool_decide (err ≠ None)
           then t = Ev fetch (Found instance0) :: t1 ++ t2 ++ [imported]
                /\ s' = s3
                /\ count isStatusPatch t = 0
           else exists reads conditions r c,
               t = Ev fetch (Found instance0) :: t1 ++ t2 ++
                     imported :: reads ++
                     [Ev (StatusPatch (setConditions instance conditions)
                            instance) r]
               /\ (reads = [] \/ exists now, reads = [Ev Now now])
               /\ FindStatusCondition conditions
                    ManagedClusterImportSucceeded = Some c
               /\ metav1.Status c = metav1.ConditionTrue
               /\ metav1.Message c = "Import succeeded"
               /\ count isStatusPatch t = 1).
Proof.
  cbn zeta. intros Hfetch Hts Hprov Hoff.
  pose proof (Avoids_count isImportStep _
                (Reconcile_provision_avoids postfix
                   (Reconcile_prepare instance0)) s0)
    as Hfree1.
  pose proof (Avoids_count isImportStep _
                (toBeImported_avoids instance) s1) as Hfree2.
  unfold Decision, Outcome, Provisioned in *.
  rewrite Hprov in Hfree1. cbn [snd] in Hfree1.
  apply count_import_free in Hfree1 as (Hpatch1 & Himport1 & _).
  split.
  - intros sec cd s2 t2 Hdec. unfold Decision in Hdec.
    rewrite Hdec in Hfree2. cbn [snd] in Hfree2.
    apply count_import_free in Hfree2 as (Hpatch2 & Himport2 & _).
    rewrite run_Reconcile. cbn zeta.
    rewrite Hfetch. cbv beta iota delta [objT].
    unfold Decision, Outcome, Provisioned.
    rewrite Hts, Hprov. cbv beta iota.
    rewrite Hoff. cbn [negb].
    rewrite run_Reconcile_offline.
    unfold Decision, Outcome, Provisioned in *.
    rewrite Hdec. cbn [negb].
    repeat split; cbn; rewrite count_app; lia.
  - intros sec cd s2 t2 result err s3 Hdec Himp. unfold Decision in Hdec.
    rewrite Hdec in Hfree2. cbn [snd] in Hfree2.
    apply count_import_free in Hfree2 as (Hpatch2 & Himport2 & _).
    rewrite run_Reconcile. cbn zeta.
    rewrite Hfetch. cbv beta iota delta [objT].
    unfold Decision, Outcome, Provisioned.
    rewrite Hts, Hprov. cbv beta iota.
    rewrite Hoff. cbn [negb].
    rewrite run_Reconcile_offline.
    unfold Decision, Outcome, Provisioned in *.
    rewrite Hdec. cbn [negb]. cbn zeta.
    rewrite Himp.
    destruct (reconcile.Requeue result || bool_decide (err ≠ None))
      eqn:Hguard.
    + repeat split; cbn; rewrite ?count_app; cbn; lia.
    + apply orb_false_elim in Hguard as [_ Herr].
      apply bool_decide_eq_false in Herr.
      assert (err = None) as ->
        by (destruct err; [exfalso; apply Herr; discriminate | reflexivity]).
      pose proof (run_setConditionImport instance None
                    ("Unable to import " +:+ GetName instance) s3)
        as Hrec.
      ran (setConditionImport instance None
             ("Unable to import " +:+ GetName instance))
        as [[errCond s4] t4].
      destruct Hrec
        as (reads & conditions & r & c & -> & Hreads & Hfind & Hstatus
            & _ & Hmessage & _ & _).
      split; [reflexivity |].
      assert (count isStatusPatch reads = 0
              /\ count isImportCluster reads = 0) as [Hr1 Hr2].
      { destruct Hreads as [-> | [now ->]]; split; reflexivity. }
      split; [cbn; rewrite !count_app; cbn; rewrite !count_app; cbn; lia |].
      exists reads, conditions, r, c.
      repeat split; try assumption.
      cbn. rewrite !count_app. cbn. rewrite !count_app. cbn. lia.
Qed.

End Reconcile.

End Properties.

(** ** Reconciling twice

    Two runs of [Reconcile] in a row against the in-memory store, the
    second starting from the store the first has left. *)

(** Run the store: unfold the run and the operations of the store, and
    nothing else. *)
Ltac sim :=
  cbn [run mbind Prog_bind bind trigger mret Prog_ret
       fake.handle fake.get fake.update fake.delete fake.statusPatch
       fake.nextFault fake.lookup fake.store fake.keyOf fake.nsKey fake.objKey
       fake.setClusters fake.setNamespaces fake.setFaults fake.tick
       clusters namespaces deployments secrets serviceAccounts faults clock
       answers fst snd types.Name types.Namespace objT].

(** The next observation a run is waiting for: recall its value, or
    distinguish its cases. *)
Ltac observe :=
  match goal with
  | H : ?x = _ |- context [match ?x with _ => _ end] => rewrite H
  | |- context [match ?x with _ => _ end] =>
      lazymatch x with
      | context [run] => fail
      | context [match _ with _ => _ end] => fail
      | _ => destruct x eqn:?
      end
  end.


Lemma SetLabels_name (ns : corev1.Namespace) (l : gmap string string) :
  GetName (SetLabels ns l) = GetName ns.
Proof. reflexivity. Qed.
Lemma SetLabels_labels (ns : corev1.Namespace) (l : gmap string string) :
  GetLabels (SetLabels ns l) = l.
Proof. reflexivity. Qed.


Lemma updateCondition_id (conditions : list metav1.Condition) (ty : string)
    (f : metav1.Condition -> metav1.Condition) (c : metav1.Condition) :
  FindStatusCondition conditions ty = Some c -> f c = c ->
  updateCondition conditions ty f = conditions.
Proof.
  intros Hfind Hf. induction conditions as [| c' rest IH]; [reflexivity |].
  cbn in *. destruct (bool_decide (metav1.CondType c' = ty)).
  - injection Hfind as ->. rewrite Hf. reflexivity.
  - rewrite IH by assumption. reflexivity.
Qed.

(** Setting a condition that is already there, with its status, reason
    and message, changes nothing and does not read the clock. *)
Lemma SetStatusCondition_again (conditions : list metav1.Condition)
    (newCondition c : metav1.Condition) :
  FindStatusCondition conditions (metav1.CondType newCondition) = Some c ->
  metav1.Status c = metav1.Status newCondition ->
  metav1.Reason c = metav1.Reason newCondition ->
  metav1.Message c = metav1.Message newCondition ->
  SetStatusCondition conditions newCondition = mret conditions.
Proof.
  intros Hfind Hstatus Hreason Hmessage. unfold SetStatusCondition.
  rewrite Hfind.
  rewrite bool_decide_eq_false_2 by (intros Hne; apply Hne; exact Hstatus).
  cbn. f_equal. apply updateCondition_id with (c := c); [assumption |].
  destruct c; cbn in *; subst; reflexivity.
Qed.

Lemma setConditions_same (i : clusterv1.ManagedCluster) :
  setConditions i (clusterv1.Conditions (clusterv1.Status i)) = i.
Proof. destruct i as [m [C]]. reflexivity. Qed.

(** [SetStatusCondition] leaves the store alone, its clock apart. *)
Lemma fake_SetStatusCondition (conditions : list metav1.Condition)
    (newCondition : metav1.Condition) cl nss dep sec sa clk ans :
  let '(conditions', w', t) :=
    run fake.handle (SetStatusCondition conditions newCondition)
      (mkWorld cl nss dep sec sa [] clk ans) in
  exists clk', w' = mkWorld cl nss dep sec sa [] clk' ans.
Proof.
  unfold SetStatusCondition.
  destruct (FindStatusCondition conditions (metav1.CondType newCondition));
    [case_bool_decide |];
    destruct (metav1.LastTransitionTime newCondition); sim; eauto.
Qed.

(** Spell the accessors of the objects out as projections. *)
Ltac names :=
  unfold GetName, GetLabels, GetFinalizers, GetDeletionTimestamp, SetLabels,
    SetFinalizers, setConditions in *;
  cbn [GetObjectMeta SetObjectMeta ManagedCluster_Object Namespace_Object
       clusterv1.ObjectMeta clusterv1.Status clusterv1.Conditions
       corev1.NamespaceMeta metav1.Name metav1.Namespace metav1.Labels
       metav1.Finalizers metav1.DeletionTimestamp metav1.SetLabels
       metav1.SetFinalizers] in *.

(** Recording a successful import in a store without faults stores the
    cluster with the new conditions; recording it again patches the
    stored cluster against itself. *)
Lemma fake_setConditionImport_again (i : clusterv1.ManagedCluster)
    (reason name : string) cl nss dep sec sa clk ans :
  GetName i = name -> cl !! name = Some i ->
  let '(e1, w1, t1) :=
    run fake.handle (setConditionImport i None reason)
      (mkWorld cl nss dep sec sa [] clk ans) in
  exists C1 clk1,
    w1 = mkWorld (<[name := setConditions i C1]> cl) nss dep sec sa [] clk1 ans
    /\ (forall ty, ty ≠ ManagedClusterImportSucceeded ->
          FindStatusCondition C1 ty
          = FindStatusCondition (clusterv1.Conditions (clusterv1.Status i)) ty)
    /\ forall cl' clk',
        cl' !! name = Some (setConditions i C1) ->
        run fake.handle (setConditionImport (setConditions i C1) None reason)
          (mkWorld cl' nss dep sec sa [] clk' ans)
        = (None, mkWorld cl' nss dep sec sa [] clk' ans,
           [Ev (StatusPatch (setConditions i C1) (setConditions i C1)) None]).
Proof.
  intros Hname Hcl. unfold setConditionImport. cbn zeta. rewrite run_bind.
  pose proof (run_SetStatusCondition fake.handle
                (clusterv1.Conditions (clusterv1.Status i))
                (importCondition None reason)
                (mkWorld cl nss dep sec sa [] clk ans)) as Hset.
  pose proof (fake_SetStatusCondition
                (clusterv1.Conditions (clusterv1.Status i))
                (importCondition None reason) cl nss dep sec sa clk ans) as Hworld.
  destruct (run fake.handle (SetStatusCondition _ _) _) as [[C1 w'] t].
  destruct Hworld as [clk1 ->].
  destruct Hset as (_ & (c & Hfind & Hstatus & Hreason & Hmessage) & Hothers).
  assert (forall cl' clk',
             cl' !! name = Some (setConditions i C1) ->
             run fake.handle
               (setConditionImport (setConditions i C1) None reason)
               (mkWorld cl' nss dep sec sa [] clk' ans)
             = (None, mkWorld cl' nss dep sec sa [] clk' ans,
                [Ev (StatusPatch (setConditions i C1) (setConditions i C1))
                   None])) as Hagain.
  { intros cl' clk' Hcl'. unfold setConditionImport. cbn zeta.
    change (clusterv1.Conditions (clusterv1.Status (setConditions i C1)))
      with C1.
    rewrite (SetStatusCondition_again C1 (importCondition None reason) c)
      by assumption.
    sim. names. rewrite Hname, Hcl'.
    rewrite bool_decide_eq_true_2 by reflexivity. reflexivity. }
  sim. names. rewrite Hname, Hcl.
  case_bool_decide as Hsame; sim; exists C1, clk1;
    (split; [| split; [exact Hothers | exact Hagain]]); [| reflexivity].
  rewrite Hsame.
  change (clusterv1.mkManagedCluster (clusterv1.ObjectMeta i)
            (clusterv1.mkStatus (clusterv1.Conditions (clusterv1.Status i))))
    with (setConditions i (clusterv1.Conditions (clusterv1.Status i))).
  rewrite (setConditions_same i).
  rewrite (insert_id cl) by assumption. reflexivity.
Qed.

(** The decision engine leaves a store without faults as it is, and
    decides the same whatever the conditions and the other clusters. *)
Lemma fake_toBeImported_again (i : clusterv1.ManagedCluster)
    cl nss dep sec sa clk ans :
  let '(d1, w1, t1) :=
    run fake.handle (toBeImported i) (mkWorld cl nss dep sec sa [] clk ans) in
  w1 = mkWorld cl nss dep sec sa [] clk ans
  /\ forall C cl' clk',
      exists t2,
        run fake.handle (toBeImported (setConditions i C))
          (mkWorld cl' nss dep sec sa [] clk' ans)
        = (d1, mkWorld cl' nss dep sec sa [] clk' ans, t2)
        /\ mutations t2 = [].
Proof.
  unfold toBeImported. names.
  destruct (metav1.Labels (clusterv1.ObjectMeta i) !! selfManagedLabel).
  - destruct (strconv.ParseBool s). sim. eauto.
  - sim. repeat (observe; sim); eauto.
Qed.

Lemma mutations_app (t1 t2 : list Event) :
  mutations (t1 ++ t2) = mutations t1 ++ mutations t2.
Proof. apply List.filter_app. Qed.

(** The offline branch in a store without faults changes at most the
    conditions of the cluster; run again on the cluster as stored it
    returns the same, changes nothing, and writes at most a patch of the
    stored cluster against itself. *)
Lemma fake_offline_again (i : clusterv1.ManagedCluster) (name : string)
    cl nss dep sec sa clk ans :
  GetName i = name -> cl !! name = Some i ->
  let '(out1, w1, t1) :=
    run fake.handle (Reconcile_offline i)
      (mkWorld cl nss dep sec sa [] clk ans) in
  exists C1 clk1,
    w1 = mkWorld (<[name := setConditions i C1]> cl) nss dep sec sa [] clk1 ans
    /\ (forall ty, ty ≠ ManagedClusterImportSucceeded ->
          FindStatusCondition C1 ty
          = FindStatusCondition (clusterv1.Conditions (clusterv1.Status i)) ty)
    /\ forall cl' clk',
        cl' !! name = Some (setConditions i C1) ->
        let '(out2, w2, t2) :=
          run fake.handle (Reconcile_offline (setConditions i C1))
            (mkWorld cl' nss dep sec sa [] clk' ans) in
        out2 = out1
        /\ w2 = mkWorld cl' nss dep sec sa [] clk' ans
        /\ (mutations t2 = []
            \/ mutations t2
               = [Ev (StatusPatch (setConditions i C1) (setConditions i C1))
                    None]).
Proof.
  intros Hname Hcl. rewrite run_Reconcile_offline.
  pose proof (fake_toBeImported_again i cl nss dep sec sa clk ans) as Hdec.
  ran (toBeImported i) as [[[[[secret cd] toImport] err] w'] t].
  destruct Hdec as [-> Hdec].
  (* A first run that records nothing leaves the store as it is, and the
     second run then records nothing either. *)
  assert (cl = <[name := setConditions i
                           (clusterv1.Conditions (clusterv1.Status i))]> cl)
    as Hsame by (rewrite setConditions_same, insert_id; auto).
  destruct err as [e |]; [| destruct toImport; cbn [negb]].
  - exists (clusterv1.Conditions (clusterv1.Status i)), clk.
    split; [rewrite <- Hsame; reflexivity |]. split; [reflexivity |].
    intros cl' clk' Hcl'. rewrite run_Reconcile_offline.
    destruct (Hdec (clusterv1.Conditions (clusterv1.Status i)) cl' clk')
      as (t2 & Hrun & Hmut).
      unfold Decision in *. rewrite Hrun.
    auto.
  - cbn zeta. sim. destruct (onImportCluster ans) as [result err] eqn:Himport.
    destruct (reconcile.Requeue result || bool_decide (err ≠ None))
      eqn:Hguard.
    + exists (clusterv1.Conditions (clusterv1.Status i)), clk.
      split; [rewrite <- Hsame; reflexivity |]. split; [reflexivity |].
      intros cl' clk' Hcl'. rewrite run_Reconcile_offline.
      destruct (Hdec (clusterv1.Conditions (clusterv1.Status i)) cl' clk')
        as (t2 & Hrun & Hmut).
      unfold Decision in *. rewrite Hrun.
      cbn [negb]. cbn zeta. sim. rewrite Himport, Hguard.
      rewrite mutations_app, Hmut. auto.
    + assert (err = None) as ->.
      { apply orb_false_elim in Hguard as [_ Herr].
        apply bool_decide_eq_false in Herr.
        destruct err; [exfalso; apply Herr; discriminate | reflexivity]. }
      pose proof (fake_setConditionImport_again i
                    ("Unable to import " +:+ GetName i) name
                    cl nss dep sec sa clk ans Hname Hcl) as Hrec.
      ran (setConditionImport i None ("Unable to import " +:+ GetName i))
        as [[errCond w1] t3].
      destruct Hrec as (C1 & clk1 & -> & Hothers & Hagain).
      exists C1, clk1. split; [reflexivity |]. split; [exact Hothers |].
      intros cl' clk' Hcl'. rewrite run_Reconcile_offline.
      destruct (Hdec C1 cl' clk') as (t2 & Hrun & Hmut).
      unfold Decision in *. rewrite Hrun.
      cbn [negb]. cbn zeta. sim. rewrite Himport, Hguard.
      change (GetName (setConditions i C1)) with (GetName i).
      rewrite (Hagain cl' clk' Hcl').
      rewrite mutations_app, Hmut. auto.
  - exists (clusterv1.Conditions (clusterv1.Status i)), clk.
    split; [rewrite <- Hsame; reflexivity |]. split; [reflexivity |].
    intros cl' clk' Hcl'. rewrite run_Reconcile_offline.
    destruct (Hdec (clusterv1.Conditions (clusterv1.Status i)) cl' clk')
      as (t2 & Hrun & Hmut).
      unfold Decision in *. rewrite Hrun.
    cbn [negb]. auto.
Qed.








(** [Reconcile_prepare] leaves a prepared cluster as it is. *)
Lemma prepare_fixed (mc : clusterv1.ManagedCluster) :
  managedClusterFinalizer ∈ GetFinalizers mc ->
  is_Some (GetLabels mc !! "name") ->
  Reconcile_prepare mc = mc.
Proof.
  intros Hfin [v Hlabel]. unfold Reconcile_prepare, libgometav1.AddFinalizer.
  rewrite bool_decide_eq_true_2 by assumption. cbn zeta. rewrite Hlabel.
  reflexivity.
Qed.

Lemma prepare_prepared (mc : clusterv1.ManagedCluster) :
  managedClusterFinalizer ∈ GetFinalizers (Reconcile_prepare mc)
  /\ is_Some (GetLabels (Reconcile_prepare mc) !! "name")
  /\ GetName (Reconcile_prepare mc) = GetName mc
  /\ GetDeletionTimestamp (Reconcile_prepare mc) = GetDeletionTimestamp mc
  /\ clusterv1.Status (Reconcile_prepare mc) = clusterv1.Status mc.
Proof.
  unfold Reconcile_prepare, libgometav1.AddFinalizer. cbn zeta.
  case_bool_decide as Hfin.
  - destruct (GetLabels mc !! "name") eqn:Hlabel.
    + rewrite Hlabel. repeat split; eauto.
    + names. repeat split; try assumption. rewrite lookup_insert_eq. eauto.
  - destruct (GetLabels (SetFinalizers mc _) !! "name") eqn:Hlabel.
    + names. rewrite Hlabel.
      repeat split; eauto.
      apply elem_of_app. right. apply list_elem_of_singleton. reflexivity.
    + names. repeat split; try reflexivity.
      * apply elem_of_app. right. apply list_elem_of_singleton. reflexivity.
      * rewrite lookup_insert_eq. eauto.
Qed.


(** Conditions that agree on every type but the import condition give
    the same reachability. *)
Lemma checkOffLine_setConditions (i : clusterv1.ManagedCluster)
    (C : list metav1.Condition) :
  (forall ty, ty ≠ ManagedClusterImportSucceeded ->
     FindStatusCondition C ty
     = FindStatusCondition (clusterv1.Conditions (clusterv1.Status i)) ty) ->
  checkOffLine (setConditions i C) = checkOffLine i.
Proof.
  intros Hothers. unfold checkOffLine. rewrite !checkOffLineConditions_find.
  cbn. rewrite Hothers by discriminate. reflexivity.
Qed.


(** ** The reachability classifier *)

(** C3: [checkOffLine] answers offline exactly when the stored Available
    condition is absent, Unknown or False, and online exactly when its
    status is True. *)
Theorem checkOffLine_classification
    (managedCluster : clusterv1.ManagedCluster) :
  let available :=
    FindStatusCondition
      (clusterv1.Conditions (clusterv1.Status managedCluster))
      clusterv1.ManagedClusterConditionAvailable in
  (checkOffLine managedCluster = true <->
     available = None
     \/ exists sc, available = Some sc
                   /\ (metav1.Status sc = metav1.ConditionUnknown
                       \/ metav1.Status sc = metav1.ConditionFalse))
  /\ (checkOffLine managedCluster = false <->
        exists sc, available = Some sc
                   /\ metav1.Status sc = metav1.ConditionTrue).
Proof.
  cbn zeta. unfold checkOffLine. rewrite checkOffLineConditions_find.
  destruct (FindStatusCondition _ _) as [sc |].
  - destruct (metav1.Status sc) eqn:Hstatus; split; split;
      try discriminate; try reflexivity.
    + intros [? | (sc' & [= <-] & [? | ?])]; congruence.
    + eauto.
    + eauto.
    + intros (sc' & [= <-] & ?); congruence.
    + eauto 6.
    + intros (sc' & [= <-] & ?); congruence.
  - split; split; try discriminate; auto.
    intros (sc & ? & _); discriminate.
Qed.

(** ** The claims on sample stores *)

(** C1 on the samples: the label alone decides, true or malformed, with a
    cluster deployment in the store; without label the cluster deployment
    decides; without either and without secret the import is declined. *)
Lemma toBeImported_precedence_witness :
  let cdKey := {| types.Namespace := "cluster1"; types.Name := "cluster1" |} in
  let secretKey :=
    {| types.Namespace := "cluster1"; types.Name := autoImportSecretName |} in
  run fake.handle (toBeImported (sample.selfManaged "true")) sample.hived
  = ((None, None, true, None), sample.hived, [])
  /\ run fake.handle (toBeImported (sample.selfManaged "yes")) sample.hived
     = ((None, None, false, Some (NumError "ParseBool" "yes")),
        sample.hived, [])
  /\ run fake.handle (toBeImported sample.cluster) sample.hived
     = ((None, Some sample.deployment, true, None), sample.hived,
        [Ev (Get KClusterDeployment cdKey) (Found sample.deployment)])
  /\ run fake.handle (toBeImported sample.cluster) sample.bare
     = ((None, None, false, None), sample.bare,
        [Ev (Get KClusterDeployment cdKey) (Failed fake.notFound);
         Ev (Get KSecret secretKey) (Failed fake.notFound)]).
Proof.
  cbn zeta. split; [| split; [| split]].
  - apply (proj1 (toBeImported_precedence fake.handle
                    (sample.selfManaged "true") sample.hived)
             "true" true); vm_compute; reflexivity.
  - apply (proj1 (proj2 (toBeImported_precedence fake.handle
                           (sample.selfManaged "yes") sample.hived))
             "yes" false); vm_compute; reflexivity.
  - apply (proj1 (proj2 (proj2 (toBeImported_precedence fake.handle
                                  sample.cluster sample.hived)))
             sample.deployment sample.hived);
      vm_compute; reflexivity.
  - apply (proj2 (proj2 (proj2 (toBeImported_precedence fake.handle
                                  sample.cluster sample.bare)))
             fake.notFound sample.bare fake.notFound sample.bare);
      vm_compute; reflexivity.
Defined.

(** The claim of C7 fails on the bare sample: without label and without
    cluster deployment the decision engine makes two lookups. *)
Lemma toBeImported_lookups_counterexample :
  ~ count isLookup
      (run fake.handle (toBeImported sample.cluster) sample.bare).2 <= 1.
Proof. vm_compute. lia. Qed.

(** C9 on the samples: nothing to clean in an empty store; nothing done
    for a namespace already in deletion; a live namespace without cluster
    deployment is deleted, and a delete answered not found is a success. *)
Lemma deleteNamespace_noop_witness :
  let nsKey := {| types.Namespace := ""; types.Name := "cluster1" |} in
  let cdKey := {| types.Namespace := "cluster1"; types.Name := "cluster1" |} in
  let live := fake.setClusters sample.bare ∅ in
  let raced := fake.setFaults live [None; None; Some fake.notFound] in
  run fake.handle (deleteNamespace "cluster1") fake.emptyWorld
  = (None, fake.emptyWorld, [Ev (Get KNamespace nsKey) (Failed fake.notFound)])
  /\ run fake.handle (deleteNamespace "cluster1") sample.orphanedTerminating
     = (None, sample.orphanedTerminating,
        [Ev (Get KNamespace nsKey) (Found sample.terminating)])
  /\ run fake.handle (deleteNamespace "cluster1") live
     = (None, fake.remove KNamespace sample.namespace live,
        [Ev (Get KNamespace nsKey) (Found sample.namespace);
         Ev (Get KClusterDeployment cdKey) (Failed fake.notFound);
         Ev (Delete KNamespace sample.namespace) None])
  /\ run fake.handle (deleteNamespace "cluster1") raced
     = (None, live,
        [Ev (Get KNamespace nsKey) (Found sample.namespace);
         Ev (Get KClusterDeployment cdKey) (Failed fake.notFound);
         Ev (Delete KNamespace sample.namespace) (Some fake.notFound)]).
Proof.
  cbn zeta. split; [| split; [| split]].
  - apply (proj1 (deleteNamespace_noop fake.handle "cluster1"
                    fake.emptyWorld)); vm_compute; reflexivity.
  - apply (proj1 (proj2 (deleteNamespace_noop fake.handle "cluster1"
                           sample.orphanedTerminating))
             sample.terminating sample.orphanedTerminating 5%Z);
      vm_compute; reflexivity.
  - apply (proj2 (proj2 (deleteNamespace_noop fake.handle "cluster1"
                           (fake.setClusters sample.bare ∅)))
             sample.namespace (fake.setClusters sample.bare ∅)
             fake.notFound (fake.setClusters sample.bare ∅) None);
      vm_compute; first [reflexivity | exact I].
  - apply (proj2 (proj2 (deleteNamespace_noop fake.handle "cluster1"
                           (fake.setFaults (fake.setClusters sample.bare ∅)
                              [None; None; Some fake.notFound])))
             sample.namespace
             (fake.setFaults (fake.setClusters sample.bare ∅)
                [None; Some fake.notFound])
             fake.notFound
             (fake.setFaults (fake.setClusters sample.bare ∅)
                [Some fake.notFound])
             (Some fake.notFound));
      vm_compute; reflexivity.
Defined.

(** C2 on the orphaned sample: the cluster deployment is updated once,
    without the controller's finalizer, the namespace is not deleted and
    the error names the namespace. *)
Lemma deleteNamespace_blocked_witness :
  let released :=
    libgometav1.RemoveFinalizer sample.deployment managedClusterFinalizer in
  let '(err, w', t) :=
    run fake.handle (deleteNamespace "cluster1") sample.orphaned in
  err = Some (Errorf
                "can not delete namespace cluster1 as ClusterDeployment cluster1 still exist")
  /\ count isUpdate t = 1
  /\ count isDelete t = 0
  /\ w' = fake.store KClusterDeployment released sample.orphaned
  /\ GetFinalizers released = ["hive.openshift.io/deprovision"].
Proof.
  cbn zeta.
  pose proof (deleteNamespace_blocked fake.handle "cluster1" sample.orphaned
                sample.namespace sample.orphaned
                sample.deployment sample.orphaned
                None
                (fake.store KClusterDeployment
                   (libgometav1.RemoveFinalizer sample.deployment
                      managedClusterFinalizer) sample.orphaned)
                eq_refl eq_refl eq_refl eq_refl) as H.
  cbn zeta in H.
  destruct (run fake.handle (deleteNamespace "cluster1") sample.orphaned)
    as [[err w'] t].
  destruct H as (_ & Hw & Hupdates & Hdeletes & _ & _ & Herr).
  repeat split; assumption.
Defined.

(** The claim of C2 fails on two samples: with the namespace already in
    deletion the cluster deployment exists, yet no error is returned and
    nothing is updated; and when the update is refused, the error returned
    is the one of the update, not the one naming the namespace. *)
Lemma deleteNamespace_blocked_counterexample :
  let cdKey := {| types.Namespace := "cluster1"; types.Name := "cluster1" |} in
  let refused :=
    fake.setFaults sample.orphaned [None; None; Some sample.conflict] in
  (fake.lookup KClusterDeployment cdKey sample.orphanedTerminating
   = Some sample.deployment
   /\ (run fake.handle (deleteNamespace "cluster1")
         sample.orphanedTerminating).1.1 = None
   /\ count isUpdate
        (run fake.handle (deleteNamespace "cluster1")
           sample.orphanedTerminating).2 = 0)
  /\ (fake.lookup KClusterDeployment cdKey refused = Some sample.deployment
      /\ (run fake.handle (deleteNamespace "cluster1") refused).1.1
         = Some sample.conflict
      /\ Some sample.conflict ≠ Some (Errorf (blockedMessage "cluster1"))
      /\ fake.lookup KClusterDeployment cdKey
           (run fake.handle (deleteNamespace "cluster1") refused).1.2
         = Some sample.deployment).
Proof. cbn zeta. repeat split; try (vm_compute; reflexivity). discriminate. Qed.

(** C8 on the orphaned sample: the cluster is gone, its namespace is
    blocked by the cluster deployment, and [Reconcile] answers with a
    requeue after one minute and no error. *)
Lemma Reconcile_cleanup_retry_witness :
  (run fake.handle (Reconcile sample.postfix sample.request)
     sample.orphaned).1.1
  = ({| reconcile.Requeue := true;
        reconcile.RequeueAfter := (1 * time.Minute)%Z |}, None).
Proof.
  pose (cleanup := run fake.handle (deleteNamespace "cluster1")
                     sample.orphaned).
  rewrite (Reconcile_cleanup_retry fake.handle sample.postfix sample.request
             sample.orphaned fake.notFound sample.orphaned
             (Errorf (blockedMessage "cluster1")) cleanup.1.2 cleanup.2);
    vm_compute; reflexivity.
Defined.

(** The offline branch on the samples: on the bare sample the import is
    declined and nothing is recorded; with a cluster deployment the import is made and,
    having succeeded, recorded; when the import fails its error is
    returned and nothing is recorded. *)
Lemma Reconcile_offline_contract_samples :
  let reconcileIn w :=
    run fake.handle (Reconcile sample.postfix sample.request) w in
  let failing := sample.withAnswers sample.hived sample.failingImport in
  ((reconcileIn sample.bare).1.1 = (reconcile.zero, None)
   /\ count isImportCluster (reconcileIn sample.bare).2 = 0
   /\ count isStatusPatch (reconcileIn sample.bare).2 = 0)
  /\ ((reconcileIn sample.hived).1.1 = (reconcile.zero, None)
      /\ count isImportCluster (reconcileIn sample.hived).2 = 1
      /\ count isStatusPatch (reconcileIn sample.hived).2 = 1)
  /\ ((reconcileIn failing).1.1 = (reconcile.zero, Some sample.boom)
      /\ count isImportCluster (reconcileIn failing).2 = 1
      /\ count isStatusPatch (reconcileIn failing).2 = 0).
Proof.
  cbn zeta.
  pose (prepared := Reconcile_prepare sample.cluster).
  pose (provisionIn w :=
          run fake.handle (Reconcile_provision sample.postfix prepared) w).
  assert (forall w,
             fake.handle _ (Get KManagedCluster
                              {| types.Namespace := "";
                                 types.Name := "cluster1" |}) w
             = (Found sample.cluster, w) ->
             provisionIn w
             = (inr (prepared, [], []), (provisionIn w).1.2, (provisionIn w).2) ->
             (forall sec cd s2 t2,
                 run fake.handle (toBeImported prepared) (provisionIn w).1.2
                 = ((sec, cd, false, None), s2, t2) ->
                 let '(out, s', t) :=
                   run fake.handle (Reconcile sample.postfix sample.request) w
                 in
                 out = (reconcile.zero, None)
                 /\ count isStatusPatch t = 0
                 /\ count isImportCluster t = 0)
             /\ (forall sec cd s2 t2 result err s3,
                   run fake.handle (toBeImported prepared) (provisionIn w).1.2
                   = ((sec, cd, true, None), s2, t2) ->
                   fake.handle _ (importCluster prepared cd sec) s2
                   = ((result, err), s3) ->
                   let '(out, s', t) :=
                     run fake.handle
                       (Reconcile sample.postfix sample.request) w in
                   out = (result, err)
                   /\ count isImportCluster t = 1
                   /\ count isStatusPatch t
                      = if reconcile.Requeue result || bool_decide (err ≠ None)
                        then 0 else 1)) as Hcontract.
  { intros w Hfetch Hprovision.
    destruct (Reconcile_offline_contract fake.handle sample.postfix
                sample.request w sample.cluster w prepared [] []
                (provisionIn w).1.2 (provisionIn w).2
                Hfetch eq_refl Hprovision eq_refl) as [Hdecline Happrove].
    split.
    - intros sec cd s2 t2 Hdec. specialize (Hdecline sec cd s2 t2 Hdec).
      destruct (run fake.handle (Reconcile sample.postfix sample.request) w)
        as [[out s'] t].
      tauto.
    - intros sec cd s2 t2 result err s3 Hdec Himport.
      specialize (Happrove sec cd s2 t2 result err s3 Hdec Himport).
      destruct (run fake.handle (Reconcile sample.postfix sample.request) w)
        as [[out s'] t].
      destruct Happrove as (Hout & Himported & Hrecorded).
      split; [exact Hout |]. split; [exact Himported |].
      destruct (reconcile.Requeue result || bool_decide (err ≠ None)).
      + tauto.
      + destruct Hrecorded as (reads & conditions & r & c & H); tauto. }
  split; [| split].
  - destruct (Hcontract sample.bare) as [Hdecline _];
      [vm_compute; reflexivity .. |].
    specialize (Hdecline None None (provisionIn sample.bare).1.2
                  (run fake.handle (toBeImported prepared)
                     (provisionIn sample.bare).1.2).2).
    destruct (run fake.handle (Reconcile sample.postfix sample.request)
                sample.bare) as [[out s'] t].
    cbn [fst snd]. destruct Hdecline as (Hout & Hpatch & Himport);
      [vm_compute; reflexivity |]. tauto.
  - destruct (Hcontract sample.hived) as [_ Happrove];
      [vm_compute; reflexivity .. |].
    specialize (Happrove None (Some sample.deployment)
                  (provisionIn sample.hived).1.2
                  (run fake.handle (toBeImported prepared)
                     (provisionIn sample.hived).1.2).2
                  reconcile.zero None (provisionIn sample.hived).1.2).
    destruct (run fake.handle (Reconcile sample.postfix sample.request)
                sample.hived) as [[out s'] t].
    cbn [fst snd]. destruct Happrove as (Hout & Himport & Hpatch);
      [vm_compute; reflexivity .. |]. tauto.
  - set (failing := sample.withAnswers sample.hived sample.failingImport).
    destruct (Hcontract failing) as [_ Happrove];
      [vm_compute; reflexivity .. |].
    specialize (Happrove None (Some sample.deployment)
                  (provisionIn failing).1.2
                  (run fake.handle (toBeImported prepared)
                     (provisionIn failing).1.2).2
                  reconcile.zero (Some sample.boom) (provisionIn failing).1.2).
    destruct (run fake.handle (Reconcile sample.postfix sample.request)
                failing) as [[out s'] t].
    cbn [fst snd]. destruct Happrove as (Hout & Himport & Hpatch);
      [vm_compute; reflexivity .. |]. tauto.
Defined.

(** The claim of C6 fails on two samples: when the store refuses the
    patch, the recorder returns the error of the patch instead of the one
    it was given; and with an empty context the recorded message is the
    error's message alone, without the separator. *)
Lemma setConditionImport_contract_counterexample :
  let refused := fake.setFaults sample.bare [Some sample.conflict] in
  let recorded (w : World) : option string :=
    m ← clusters w !! "cluster1";
    c ← FindStatusCondition (clusterv1.Conditions (clusterv1.Status m))
          ManagedClusterImportSucceeded;
    Some (metav1.Message c) in
  ((run fake.handle
      (setConditionImport sample.cluster (Some sample.boom)
         "Unable to import cluster1") refused).1.1
   = Some sample.conflict
   /\ Some sample.conflict ≠ Some sample.boom)
  /\ (recorded
        (run fake.handle
           (setConditionImport sample.cluster (Some sample.boom) "")
           sample.bare).1.2
      = Some "boom"
      /\ "boom" ≠ Error sample.boom +:+ ": " +:+ "").
Proof.
  cbn zeta. repeat split; try (vm_compute; reflexivity); discriminate.
Qed.

(** C5 fails on this sample: the lookup of the bootstrap service account
    is refused with an internal error, and [Reconcile] goes on with the
    next step, makes every later call and returns no error. *)
Theorem Reconcile_service_account_error_ignored :
  let refused :=
    fake.setFaults sample.bare
      [None; None; None; None; Some sample.internal] in
  let config :=
    {| ManagedClusterName := "cluster1";
       ManagedClusterNamespace := "cluster1";
       BootstrapServiceAccountName := "cluster1-bootstrap-sa" |} in
  let '(out, _, t) :=
    run fake.handle (Reconcile sample.postfix sample.request) refused in
  out = (reconcile.zero, None)
  /\ t !! 5%nat
     = Some (Ev (Get KServiceAccount
                   {| types.Namespace := "cluster1";
                      types.Name := "cluster1-bootstrap-sa" |})
                (Failed sample.internal))
  /\ errors.IsNotFound sample.internal = false
  /\ t !! 6%nat
     = Some (Ev (CreateOrUpdateInPath "hub/managedcluster/manifests"
                   ["hub/managedcluster/manifests/managedcluster-service-account.yaml"]
                   false config) None)
  /\ length t = 12%nat.
Proof. vm_compute. repeat split. Qed.



(** C6 on the sample with a cluster deployment, the store refusing the
    status patch: the import is made, the patch fails, and [Reconcile]
    returns no error. *)
Lemma setConditionImport_contract_witness :
  let refused :=
    fake.setFaults sample.hived
      [None; None; None; None; None; None; Some sample.conflict] in
  let '(out, _, t) :=
    run fake.handle (Reconcile sample.postfix sample.request) refused in
  count isFailedStatusPatch t = 1%nat /\ out = (reconcile.zero, None).
Proof.
  cbn zeta.
  pose proof (proj2 (setConditionImport_contract fake.handle sample.postfix)
                sample.request
                (fake.setFaults sample.hived
                   [None; None; None; None; None; None; Some sample.conflict]))
    as Hlogged.
  destruct (run fake.handle (Reconcile sample.postfix sample.request) _)
    as [[out w'] t] eqn:Hrun.
  assert (count isFailedStatusPatch t = 1%nat) as Hfailed.
  { replace t
      with (run fake.handle (Reconcile sample.postfix sample.request)
              (fake.setFaults sample.hived
                 [None; None; None; None; None; None; Some sample.conflict])).2
      by (rewrite Hrun; reflexivity).
    vm_compute. reflexivity. }
  split; [exact Hfailed |].
  assert (out.2 = None) as Herr by (apply Hlogged; rewrite Hfailed; lia).
  assert (out.1 = reconcile.zero) as Hresult.
  { replace out
      with (run fake.handle (Reconcile sample.postfix sample.request)
              (fake.setFaults sample.hived
                 [None; None; None; None; None; None; Some sample.conflict])).1.1
      by (rewrite Hrun; reflexivity).
    vm_compute. reflexivity. }
  destruct out as [result err]. cbn in *. congruence.
Defined.

(** ** The finalizers of a cluster *)

Lemma filterFinalizers_found_elem (cf : string) (finalizers : list string) :
  filterFinalizers_found cf finalizers = bool_decide (cf ∈ finalizers).
Proof.
  induction finalizers as [| f rest IH]; cbn.
  - rewrite bool_decide_eq_false_2; [reflexivity | apply not_elem_of_nil].
  - destruct (decide (cf = f)) as [-> | Hne].
    + rewrite (bool_decide_eq_true_2 (f = f)) by reflexivity.
      rewrite bool_decide_eq_true_2; [reflexivity | left].
    + rewrite (bool_decide_eq_false_2 (cf = f)) by assumption.
      rewrite IH. apply bool_decide_ext. rewrite elem_of_cons. tauto.
Qed.

Lemma filterFinalizers_loop_filter (results clusterFinalizers : list string)
    (finalizers : list string) :
  filterFinalizers_loop results clusterFinalizers finalizers
  = results ++ filter (fun cf => cf ∉ finalizers) clusterFinalizers.
Proof.
  revert results.
  induction clusterFinalizers as [| cf rest IH]; intros results;
    cbn [filterFinalizers_loop].
  - cbn. rewrite app_nil_r. reflexivity.
  - rewrite IH, filterFinalizers_found_elem, filter_cons.
    case_bool_decide as Hcf; cbn.
    + destruct (decide (cf ∉ finalizers)); [contradiction | reflexivity].
    + destruct (decide (cf ∉ finalizers)); [| contradiction].
      rewrite <- app_assoc. reflexivity.
Qed.

Lemma filterFinalizers_filter (managedCluster : clusterv1.ManagedCluster)
    (finalizers : list string) :
  filterFinalizers managedCluster finalizers
  = filter (fun cf => cf ∉ finalizers) (GetFinalizers managedCluster).
Proof.
  unfold filterFinalizers. cbn zeta. apply filterFinalizers_loop_filter.
Qed.

(** X1: [filterFinalizers] returns the finalizers of the cluster that
    are not listed, in their order and with their repetitions: its two
    loops compute the filter of the cluster's finalizers by absence from
    the list, a finalizer is in the result exactly when the cluster has
    it and the list does not, and the result is a sublist of the
    cluster's finalizers. *)
Theorem filterFinalizers_others (managedCluster : clusterv1.ManagedCluster)
    (finalizers : list string) :
  filterFinalizers managedCluster finalizers
  = filter (fun cf => cf ∉ finalizers) (GetFinalizers managedCluster)
  /\ (forall cf,
        cf ∈ filterFinalizers managedCluster finalizers
        <-> (cf ∈ GetFinalizers managedCluster /\ cf ∉ finalizers))
  /\ filterFinalizers managedCluster finalizers
     `sublist_of` GetFinalizers managedCluster.
Proof.
  rewrite filterFinalizers_filter. split; [reflexivity |]. split.
  - intros cf. rewrite list_elem_of_filter. tauto.
  - apply sublist_filter.
Qed.

(** X2: filtering what a first filtering has left is filtering once
    by both lists; filtering again by the same list changes nothing;
    and with nothing listed every finalizer is returned. *)
Theorem filterFinalizers_twice (managedCluster : clusterv1.ManagedCluster)
    (first second : list string) :
  filterFinalizers
    (SetFinalizers managedCluster (filterFinalizers managedCluster first))
    second
  = filterFinalizers managedCluster (first ++ second)
  /\ filterFinalizers
       (SetFinalizers managedCluster (filterFinalizers managedCluster first))
       first
     = filterFinalizers managedCluster first
  /\ filterFinalizers managedCluster [] = GetFinalizers managedCluster.
Proof.
  rewrite !filterFinalizers_filter.
  change (GetFinalizers (SetFinalizers managedCluster ?l)) with l.
  repeat split.
  - rewrite list_filter_filter. apply list_filter_iff. intros cf.
    rewrite not_elem_of_app. tauto.
  - rewrite list_filter_filter. apply list_filter_iff. tauto.
  - generalize (GetFinalizers managedCluster) as l.
    induction l as [| x l IH]; [reflexivity |].
    rewrite filter_cons.
    destruct (decide (x ∉ [])) as [_ | Hx];
      [rewrite IH; reflexivity | destruct Hx; apply not_elem_of_nil].
Qed.

(** X3: filtered by the controller's own finalizer, the finalizers
    are those [RemoveFinalizer] leaves; the preparation of the instance
    in [Reconcile] does not change them; and none remains exactly when
    the cluster has no finalizer but the controller's. *)
Theorem filterFinalizers_own (managedCluster : clusterv1.ManagedCluster) :
  filterFinalizers managedCluster [managedClusterFinalizer]
  = GetFinalizers
      (libgometav1.RemoveFinalizer managedCluster managedClusterFinalizer)
  /\ filterFinalizers (Reconcile_prepare managedCluster)
       [managedClusterFinalizer]
     = filterFinalizers managedCluster [managedClusterFinalizer]
  /\ (filterFinalizers (Reconcile_prepare managedCluster)
        [managedClusterFinalizer] = []
      <-> forall f, f ∈ GetFinalizers managedCluster ->
                    f = managedClusterFinalizer).
Proof.
  assert (forall l : list string,
             filter (fun cf => cf ∉ [managedClusterFinalizer]) l
             = filter (fun f => f ≠ managedClusterFinalizer) l) as Hsingle.
  { intros l. apply list_filter_iff. intros cf.
    rewrite list_elem_of_singleton. tauto. }
  assert (filterFinalizers (Reconcile_prepare managedCluster)
            [managedClusterFinalizer]
          = filterFinalizers managedCluster [managedClusterFinalizer])
    as Hprepare.
  { rewrite !filterFinalizers_filter.
    unfold Reconcile_prepare, libgometav1.AddFinalizer. cbn zeta.
    assert (forall mc : clusterv1.ManagedCluster,
               GetFinalizers
                 match GetLabels mc !! "name" with
                 | Some _ => mc
                 | None => SetLabels mc (<["name" := GetName mc]> (GetLabels mc))
                 end = GetFinalizers mc) as Hlabels
      by (intros mc; destruct (GetLabels mc !! "name"); reflexivity).
    rewrite Hlabels. case_bool_decide as Hin; [reflexivity |].
    change (GetFinalizers (SetFinalizers managedCluster ?l)) with l.
    rewrite filter_app, filter_cons, filter_nil.
    destruct (decide (managedClusterFinalizer ∉ [managedClusterFinalizer]))
      as [Hno | _]; [| apply app_nil_r].
    destruct Hno. apply list_elem_of_singleton. reflexivity. }
  split; [| split; [exact Hprepare |]].
  - rewrite filterFinalizers_filter. apply Hsingle.
  - rewrite Hprepare.
    assert (forall cf,
               cf ∈ filterFinalizers managedCluster [managedClusterFinalizer]
               <-> (cf ∈ GetFinalizers managedCluster
                    /\ cf ∉ [managedClusterFinalizer])) as Hmem.
    { intros cf. rewrite filterFinalizers_filter, list_elem_of_filter.
      tauto. }
    split.
    + intros Hnil f Hf.
      destruct (decide (f = managedClusterFinalizer)) as [| Hne];
        [assumption |].
      assert (f ∈ filterFinalizers managedCluster [managedClusterFinalizer])
        as Hin
        by (apply Hmem; split; [assumption |];
            rewrite list_elem_of_singleton; assumption).
      rewrite Hnil in Hin. destruct (not_elem_of_nil _ Hin).
    + intros Hall.
      destruct (filterFinalizers managedCluster [managedClusterFinalizer])
        as [| f rest] eqn:Hf; [reflexivity |].
      assert (f ∈ f :: rest) as Hin by left.
      apply Hmem in Hin as [Hin Hnot].
      destruct Hnot. apply list_elem_of_singleton. apply Hall. exact Hin.
Qed.

(** ** The instance before provisioning *)

(** X4: before the first write, [Reconcile] only adds to the
    instance: name, deletion timestamp and status are kept; the
    finalizers are kept in order, with the controller's finalizer after
    them when it was missing; the [name] label keeps its value when it
    has one and is the name of the cluster otherwise; every other label
    is kept; and preparing a prepared instance changes nothing. *)
Theorem Reconcile_prepare_adds_only (instance : clusterv1.ManagedCluster) :
  let prepared := Reconcile_prepare instance in
  GetName prepared = GetName instance
  /\ GetDeletionTimestamp prepared = GetDeletionTimestamp instance
  /\ clusterv1.Status prepared = clusterv1.Status instance
  /\ GetFinalizers instance `prefix_of` GetFinalizers prepared
  /\ (forall f, f ∈ GetFinalizers prepared
                <-> (f ∈ GetFinalizers instance
                     \/ f = managedClusterFinalizer))
  /\ GetLabels prepared !! "name"
     = Some (default (GetName instance) (GetLabels instance !! "name"))
  /\ (forall key, key ≠ "name" ->
                  GetLabels prepared !! key = GetLabels instance !! key)
  /\ Reconcile_prepare prepared = prepared.
Proof.
  cbn zeta.
  assert (Reconcile_prepare (Reconcile_prepare instance)
          = Reconcile_prepare instance) as Hfixed.
  { destruct (prepare_prepared instance) as (Hfin & Hlabel & _).
    apply prepare_fixed; assumption. }
  destruct (prepare_prepared instance) as (_ & _ & Hname & Hts & Hstatus).
  repeat split; try assumption; clear Hfixed Hname Hts Hstatus;
    unfold Reconcile_prepare, libgometav1.AddFinalizer; cbn zeta;
    try intros key Hkey;
    case_bool_decide as Hfin; names;
    destruct (metav1.Labels (clusterv1.ObjectMeta instance) !! "name")
      eqn:Hlabel; names;
    rewrite ?elem_of_app, ?list_elem_of_singleton, ?Hlabel,
      ?lookup_insert_eq, ?lookup_insert_ne by congruence;
    try reflexivity; try tauto; try (apply prefix_app_r; reflexivity);
    try (intros [? | ->]; auto).
Qed.

(** ** The predicate on ManifestWork events *)

(** X5: the predicate on ManifestWork events lets every delete event
    through, no create and no generic event, and an update event exactly
    when both metadata are present, both objects are ManifestWorks and
    their specs are not deeply equal; with a reflexive [DeepEqual], an
    update that leaves the spec as it was does not pass, whatever else
    has changed. *)
Theorem newManifestWorkSpecPredicate_passes {ManifestWorkSpec : Type}
    (DeepEqual : ManifestWorkSpec -> ManifestWorkSpec -> bool) :
  let p := newManifestWorkSpecPredicate DeepEqual in
  (forall e, predicate.GenericFunc p e = false)
  /\ (forall e, predicate.CreateFunc p e = false)
  /\ (forall e, predicate.DeleteFunc p e = true)
  /\ (forall e,
        predicate.UpdateFunc p e = true
        <-> (is_Some (event.MetaOld e) /\ is_Some (event.MetaNew e)
             /\ exists oldManifestWork newManifestWork,
                 event.ObjectOld e
                 = Some (runtime.IsManifestWork oldManifestWork)
                 /\ event.ObjectNew e
                    = Some (runtime.IsManifestWork newManifestWork)
                 /\ DeepEqual (workv1.Spec newManifestWork)
                      (workv1.Spec oldManifestWork) = false))
  /\ ((forall spec, DeepEqual spec spec = true) ->
      forall e oldManifestWork newManifestWork,
        event.ObjectOld e = Some (runtime.IsManifestWork oldManifestWork) ->
        event.ObjectNew e = Some (runtime.IsManifestWork newManifestWork) ->
        workv1.Spec newManifestWork = workv1.Spec oldManifestWork ->
        predicate.UpdateFunc p e = false).
Proof.
  cbn zeta. do 3 (split; [reflexivity |]). split; [intros e; split |].
  - destruct e as [[metaOld |] [objectOld |] [metaNew |] [objectNew |]];
      cbn; try discriminate; try (destruct objectNew; discriminate).
    destruct objectNew as [new | ? ?], objectOld as [old | ? ?];
      try discriminate.
    intros Hdiff. split; [eauto |]. split; [eauto |].
    exists old, new. repeat split.
    apply negb_true_iff. exact Hdiff.
  - intros ([metaOld HmetaOld] & [metaNew HmetaNew] & old & new
            & Hold & Hnew & Hdiff).
    cbn. rewrite HmetaOld, Hold, Hnew, HmetaNew, Hdiff. reflexivity.
  - intros Hrefl e old new Hold Hnew Hspec. cbn.
    rewrite Hold, Hnew, Hspec, Hrefl.
    destruct (event.MetaOld e), (event.MetaNew e); reflexivity.
Qed.

(** ** The steps of the reconciler, whatever the environment *)

(** Destruct an answer of the environment into its parts. *)
Ltac parts x :=
  lazymatch type of x with
  | (_ * _ * option _)%type => destruct x as [[? ?] [? |]]
  | (_ * option _)%type => destruct x as [? [? |]]
  | got _ => destruct x as [? | ?]
  | option _ => destruct x as [? |]
  | _ => idtac
  end.

(** Case analysis on the run of a part of the program of the goal,
    keeping the equation. *)
Tactic Notation "ran" constr(p) "as" simple_intropattern(pat)
    "eqn" ":" ident(H) :=
  unfold Decision, Outcome, Provisioned in *;
  match goal with
  | |- context [@run ?S ?h ?T p ?s] =>
      destruct (@run S h T p s) as pat eqn:H
  end.

Lemma setConditionImport_avoids (bad : Event -> bool)
    (managedCluster : clusterv1.ManagedCluster) (errIn : option error)
    (reason : string) :
  (forall now, bad (Ev Now now) = false) ->
  (forall obj base err, bad (Ev (StatusPatch obj base) err) = false) ->
  Avoids bad (setConditionImport managedCluster errIn reason).
Proof.
  intros Hnow Hpatch. unfold setConditionImport, SetStatusCondition.
  repeat (cbn;
          lazymatch goal with
          | |- Avoids _ (Ret _) => constructor
          | |- Avoids _ (mret _) => exact (Avoids_ret _ _)
          | |- Avoids _ (Vis _ _) =>
              constructor; [intros; first [apply Hnow | apply Hpatch] | intros]
          | |- context [match ?x with _ => _ end] => destruct x
          end).
Qed.

Lemma Reconcile_offline_avoids (bad : Event -> bool)
    (instance : clusterv1.ManagedCluster) :
  Avoids bad (toBeImported instance) ->
  (forall cd sec out, bad (Ev (importCluster instance cd sec) out) = false) ->
  (forall now, bad (Ev Now now) = false) ->
  (forall obj base err, bad (Ev (StatusPatch obj base) err) = false) ->
  Avoids bad (Reconcile_offline instance).
Proof.
  intros Hdec Himport Hnow Hpatch. unfold Reconcile_offline.
  apply Avoids_bind; [exact Hdec |].
  intros [[[sec cd] toImport] [err |]]; [constructor |].
  destruct toImport; cbn [negb]; [| constructor].
  apply (Avoids_bind bad (trigger (importCluster instance cd sec))).
  { constructor; [intros; apply Himport | intros; constructor]. }
  intros [result err].
  destruct (reconcile.Requeue result || bool_decide (err ≠ None));
    [constructor |].
  apply Avoids_bind; [| intros; constructor].
  apply setConditionImport_avoids; assumption.
Qed.

Lemma toBeImported_free (bad : Event -> bool)
    (managedCluster : clusterv1.ManagedCluster) :
  (forall k key r,
      k = KClusterDeployment
      \/ (k = KSecret /\ types.Name key = autoImportSecretName) ->
      bad (Ev (Get k key) r) = false) ->
  Avoids bad (toBeImported managedCluster).
Proof.
  intros Hget. unfold toBeImported.
  repeat (cbn;
          lazymatch goal with
          | |- Avoids _ (Ret _) => constructor
          | |- Avoids _ (mret _) => exact (Avoids_ret _ _)
          | |- Avoids _ (Vis _ _) =>
              constructor;
              [intros;
               first [ apply (Hget KClusterDeployment); left; reflexivity
                     | apply (Hget KSecret); right; split; reflexivity ]
              | intros]
          | |- context [match ?x with _ => _ end] => destruct x
          end).
Qed.

Lemma lastError_cons (ev : Event) (t : list Event) (e : error) :
  lastError t = Some e -> lastError (ev :: t) = Some e.
Proof. destruct t; [discriminate | auto]. Qed.

Lemma lastError_app (t1 t2 : list Event) (e : error) :
  lastError t2 = Some e -> lastError (t1 ++ t2) = Some e.
Proof.
  intros He. induction t1 as [| ev t1 IH]; [exact He |].
  apply lastError_cons. exact IH.
Qed.

Section Steps.

Context {St : Type}.
Variable handle : forall X : Type, call X -> St -> X * St.
Variable postfix : string.

(** Follow a run call by call, one case per answer and per test. *)
Ltac walk :=
  repeat (cbn;
          match goal with
          | |- context [handle ?X ?c ?s] =>
              let x := fresh "x" in
              let s1 := fresh "s" in
              destruct (handle X c s) as [x s1]; parts x
          | |- context [match ?x with _ => _ end] =>
              lazymatch x with
              | context [run] => fail
              | context [match _ with _ => _ end] => fail
              | _ => destruct x eqn:?
              end
          end).

(** X6: the provisioning steps of [Reconcile] stop at the first call
    that fails, the lookup of the service account apart: in every run
    each call before the last one succeeded or was that lookup; when the
    steps end [Reconcile] early, the error returned is the error of the
    last call, and the result is the very result that call answered
    when it is [deleteKlusterletSyncSets], the zero result when it is any
    other; when they pass, the last call succeeded, the instance handed on is the
    one received, and the crds and yamls handed on are those that
    [generateImportYAMLs] answered and [createOrUpdateImportSecret]
    received. *)
Theorem Reconcile_provision_fail_fast (instance : clusterv1.ManagedCluster)
    (s : St) :
  let '(p, s', t) := run handle (Reconcile_provision postfix instance) s in
  failFast t = true
  /\ match p with
     | inl (result, err) =>
         err ≠ None
         /\ err = lastError t
         /\ if from_option isDeleteKlusterletSyncSets false (last t)
            then last t = Some (Ev (deleteKlusterletSyncSets instance)
                                  (result, err))
            else result = reconcile.zero
     | inr (instance', crds, yamls) =>
         lastError t = None
         /\ instance' = instance
         /\ Ev (generateImportYAMLs instance []) (crds, yamls, None) ∈ t
         /\ Ev (createOrUpdateImportSecret instance crds yamls) None ∈ t
     end.
Proof.
  unfold Reconcile_provision. walk.
  all: split; [reflexivity |].
  all: try (split; [discriminate |]; split; reflexivity).
  all: split; [reflexivity |]; split; [reflexivity |];
    split; repeat constructor.
Qed.

(** The instance that leaves the provisioning is the one that entered. *)
Lemma Reconcile_provision_instance (instance : clusterv1.ManagedCluster)
    (s : St) :
  let '(p, _, _) := run handle (Reconcile_provision postfix instance) s in
  match p with
  | inl _ => True
  | inr (instance', _, _) => instance' = instance
  end.
Proof. unfold Reconcile_provision. walk; cbn; auto. Qed.

(** The calls of a run of [Reconcile]: the fetch, then those of the
    cleanup, or the deletion, or those of the provisioning followed by
    the manifest works or by the calls of the offline branch. *)
Lemma Reconcile_parts (request : reconcile.Request) (s : St) :
  let name := types.Name (reconcile.NamespacedName request) in
  let fetch := Get KManagedCluster
                 {| types.Namespace := ""; types.Name := name |} in
  exists r rest,
    (run handle (Reconcile postfix request) s).2 = Ev fetch r :: rest
    /\ match r with
       | Failed e =>
           if errors.IsNotFound e
           then exists s0, rest = (run handle (deleteNamespace name) s0).2
           else rest = []
       | Found instance0 =>
           match GetDeletionTimestamp instance0 with
           | Some _ =>
               exists out, rest = [Ev (managedClusterDeletion instance0) out]
           | None =>
               let instance := Reconcile_prepare instance0 in
               exists s0 tail,
                 rest = (run handle (Reconcile_provision postfix instance)
                           s0).2 ++ tail
                 /\ (tail = []
                     \/ (exists crds yamls err,
                            tail = [Ev (createOrUpdateManifestWorks instance
                                          crds yamls) err])
                     \/ (exists s1,
                            tail = (run handle (Reconcile_offline instance)
                                      s1).2))
           end
       end.
Proof.
  cbn zeta. rewrite run_Reconcile. cbn zeta.
  destruct (handle _ _ s) as [r s0]. exists r.
  destruct r as [instance0 | e].
  - destruct (GetDeletionTimestamp instance0) as [ts |].
    + destruct (handle _ _ s0) as [out s1]. eexists. split; [reflexivity |].
      eauto.
    + pose proof (Reconcile_provision_instance
                    (Reconcile_prepare instance0) s0) as Hsame.
      unfold Decision, Outcome, Provisioned in *.
      ran (Reconcile_provision postfix (Reconcile_prepare instance0))
        as [[p s1] t1] eqn:Hprov.
      destruct p as [out | [[instance crds] yamls]].
      * eexists. split; [reflexivity |]. exists s0, [].
        rewrite Hprov, app_nil_r. auto.
      * subst instance.
        destruct (negb (checkOffLine (Reconcile_prepare instance0))).
        -- destruct (handle _ _ s1) as [err s2].
           eexists. split; [reflexivity |]. exists s0. eexists.
           rewrite Hprov. split; [reflexivity |]. right; left. eauto.
        -- ran (Reconcile_offline (Reconcile_prepare instance0))
             as [[out s2] t2] eqn:Hoff.
           eexists. split; [reflexivity |]. exists s0, t2.
           rewrite Hprov. split; [reflexivity |]. right; right.
           exists s1. rewrite Hoff. reflexivity.
  - destruct (errors.IsNotFound e).
    + ran (deleteNamespace (types.Name (reconcile.NamespacedName request)))
        as [[err s1] t] eqn:Hdel.
      eexists. split; [reflexivity |]. exists s0. rewrite Hdel. reflexivity.
    + eexists. split; reflexivity.
Qed.

Lemma Reconcile_provision_service_account
    (instance : clusterv1.ManagedCluster) (s : St) :
  let t := (run handle (Reconcile_provision postfix instance) s).2 in
  count isCreateResource t = count isMissingServiceAccount t
  /\ count isCreateResource t <= 1.
Proof.
  unfold Reconcile_provision. walk.
  all: cbn;
    repeat match goal with
           | H : errors.IsNotFound _ = _ |- _ => rewrite H
           end;
    cbn; lia.
Qed.

(** X7: in every run of [Reconcile] the bootstrap service account is
    created exactly when its lookup answers not found: [CreateResource]
    is called as often as a lookup of a service account answers not
    found, and at most once; it is not called when the lookup finds the
    account or fails otherwise. *)
Theorem Reconcile_service_account_create_only (request : reconcile.Request)
    (s : St) :
  let t := (run handle (Reconcile postfix request) s).2 in
  count isCreateResource t = count isMissingServiceAccount t
  /\ count isCreateResource t <= 1.
Proof.
  cbn zeta.
  assert (forall t, count aboutServiceAccount t = 0 ->
                    count isCreateResource t = 0
                    /\ count isMissingServiceAccount t = 0) as Hfree.
  { intros t Hfree.
    assert (count isCreateResource t <= count aboutServiceAccount t)
      by (apply count_le; intros ev Hev; unfold aboutServiceAccount;
          rewrite Hev; reflexivity).
    assert (count isMissingServiceAccount t <= count aboutServiceAccount t).
    { apply count_le. intros ev Hev. unfold aboutServiceAccount.
      apply andb_true_iff in Hev as [-> _]. apply orb_true_r. }
    lia. }
  destruct (Reconcile_parts request s) as (r & rest & -> & Hrest).
  change (count ?f (Ev (Get KManagedCluster ?key) r :: rest))
    with (count f rest).
  destruct r as [instance0 | e].
  - destruct (GetDeletionTimestamp instance0) as [ts |].
    { destruct Hrest as [out ->]. cbn. lia. }
    destruct Hrest as (s0 & tail & -> & Htail).
    pose proof (Reconcile_provision_service_account
                  (Reconcile_prepare instance0) s0) as [Heq Hle].
    assert (count aboutServiceAccount tail = 0) as Hnone.
    { destruct Htail as [-> | [(crds & yamls & err & ->) | [s1 ->]]];
        [reflexivity | reflexivity |].
      apply Avoids_count, Reconcile_offline_avoids; try reflexivity.
      apply toBeImported_free. intros k key r [-> | [-> _]]; reflexivity. }
    apply Hfree in Hnone as [Hcreate Hmissing].
    rewrite !count_app, Hcreate, Hmissing. lia.
  - destruct (errors.IsNotFound e); [| subst rest; cbn; lia].
    destruct Hrest as [s0 ->].
    assert (count aboutServiceAccount
              (run handle
                 (deleteNamespace
                    (types.Name (reconcile.NamespacedName request))) s0).2
            = 0) as Hnone.
    { apply Avoids_count. unfold deleteNamespace. avoids. }
    apply Hfree in Hnone as [-> ->]. lia.
Qed.

Lemma deleteNamespace_delete (namespaceName : string) (s : St) :
  let nsKey := {| types.Namespace := ""; types.Name := namespaceName |} in
  let cdKey :=
    {| types.Name := namespaceName; types.Namespace := namespaceName |} in
  let t := (run handle (deleteNamespace namespaceName) s).2 in
  (count isRoute t = 0 /\ count isDelete t = 0)
  \/ exists ns e r,
       t = [Ev (Get KNamespace nsKey) (Found ns);
            Ev (Get KClusterDeployment cdKey) (Failed e);
            Ev (Delete KNamespace ns) r]
       /\ GetDeletionTimestamp ns = None
       /\ errors.IsNotFound e = true.
Proof.
  unfold deleteNamespace. walk; cbn;
    first [left; split; reflexivity | right; eauto 10].
Qed.

Lemma Reconcile_offline_route (instance : clusterv1.ManagedCluster)
    (s : St) :
  let t := (run handle (Reconcile_offline instance) s).2 in
  count isRoute t <= 1 /\ count isDelete t = 0.
Proof.
  cbn zeta. split.
  - rewrite run_Reconcile_offline.
    assert (count isRoute (run handle (toBeImported instance) s).2 = 0)
      as Hdec
      by (apply Avoids_count, toBeImported_free; reflexivity).
    ran (toBeImported instance) as [[[[[sec cd] toImport] err] s1] t1].
    cbn [snd] in Hdec.
    destruct err as [e |]; [cbn; lia |].
    destruct toImport; cbn [negb]; [| cbn; lia].
    cbn zeta. destruct (handle _ _ s1) as [[result err] s2].
    destruct (reconcile.Requeue result || bool_decide (err ≠ None)).
    { cbn. rewrite count_app, Hdec. cbn. lia. }
    assert (count isRoute
              (run handle
                 (setConditionImport instance err
                    ("Unable to import " +:+ GetName instance)) s2).2 = 0)
      as Hrec
      by (apply Avoids_count, setConditionImport_avoids; reflexivity).
    ran (setConditionImport instance err
           ("Unable to import " +:+ GetName instance))
      as [[errCond s3] t3].
    cbn in *. rewrite count_app, Hdec. cbn. rewrite Hrec. lia.
  - apply Avoids_count, Reconcile_offline_avoids; try reflexivity.
    apply toBeImported_free. reflexivity.
Qed.

(** X8: a run of [Reconcile] takes one route at most: among the
    deletion of the cluster, the creation of its manifest works, its
    import and the delete of its namespace, at most one call is made. *)
Theorem Reconcile_single_route (request : reconcile.Request) (s : St) :
  count isRoute (run handle (Reconcile postfix request) s).2 <= 1.
Proof.
  destruct (Reconcile_parts request s) as (r & rest & -> & Hrest).
  change (count ?f (Ev (Get KManagedCluster ?key) r :: rest))
    with (count f rest).
  destruct r as [instance0 | e].
  - destruct (GetDeletionTimestamp instance0) as [ts |].
    { destruct Hrest as [out ->]. cbn. lia. }
    destruct Hrest as (s0 & tail & -> & Htail).
    rewrite count_app.
    rewrite (Avoids_count handle isRoute)
      by (unfold Reconcile_provision; avoids).
    destruct Htail as [-> | [(crds & yamls & err & ->) | [s1 ->]]];
      [cbn; lia | cbn; lia |].
    apply Reconcile_offline_route.
  - destruct (errors.IsNotFound e); [| subst rest; cbn; lia].
    destruct Hrest as [s0 ->].
    destruct (deleteNamespace_delete
                (types.Name (reconcile.NamespacedName request)) s0)
      as [[-> _] | (ns & e' & r & -> & _)]; cbn; lia.
Qed.

(** X9: [Reconcile] deletes at most once, and only a namespace whose
    cluster is gone: a run with a delete is the fetch of the cluster
    answered not found, the lookup of the namespace named as the
    request, found without deletion timestamp, the lookup of the cluster
    deployment of that name answered not found, and the delete of the
    namespace that was found, and nothing else. *)
Theorem Reconcile_deletes_orphans_only (request : reconcile.Request)
    (s : St) :
  let name := types.Name (reconcile.NamespacedName request) in
  let fetch := Get KManagedCluster
                 {| types.Namespace := ""; types.Name := name |} in
  let nsKey := {| types.Namespace := ""; types.Name := name |} in
  let cdKey := {| types.Name := name; types.Namespace := name |} in
  let t := (run handle (Reconcile postfix request) s).2 in
  count isDelete t <= 1
  /\ (0 < count isDelete t ->
      exists e ns e' r,
        t = [Ev fetch (Failed e);
             Ev (Get KNamespace nsKey) (Found ns);
             Ev (Get KClusterDeployment cdKey) (Failed e');
             Ev (Delete KNamespace ns) r]
        /\ errors.IsNotFound e = true
        /\ GetDeletionTimestamp ns = None
        /\ errors.IsNotFound e' = true).
Proof.
  cbn zeta.
  destruct (Reconcile_parts request s) as (r & rest & -> & Hrest).
  change (count ?f (Ev (Get KManagedCluster ?key) r :: rest))
    with (count f rest).
  destruct r as [instance0 | e].
  - assert (count isDelete rest = 0) as ->; [| split; lia].
    destruct (GetDeletionTimestamp instance0) as [ts |].
    { destruct Hrest as [out ->]. reflexivity. }
    destruct Hrest as (s0 & tail & -> & Htail).
    rewrite count_app.
    rewrite (Avoids_count handle isDelete)
      by (unfold Reconcile_provision; avoids).
    destruct Htail as [-> | [(crds & yamls & err & ->) | [s1 ->]]];
      [reflexivity | reflexivity |].
    apply Reconcile_offline_route.
  - destruct (errors.IsNotFound e) eqn:He; [| subst rest; cbn; split; lia].
    destruct Hrest as [s0 ->].
    destruct (deleteNamespace_delete
                (types.Name (reconcile.NamespacedName request)) s0)
      as [[_ ->] | (ns & e' & r & -> & Hts & He')]; [split; lia |].
    split; [cbn; lia |]. intros _. exists e, ns, e', r. auto.
Qed.

(** What no part of [Reconcile] does, [Reconcile] does not do. *)
Lemma Reconcile_avoids (bad : Event -> bool) (request : reconcile.Request) :
  (forall key r, bad (Ev (Get KManagedCluster key) r) = false) ->
  (forall instance out,
      bad (Ev (managedClusterDeletion instance) out) = false) ->
  (forall instance crds yamls err,
      bad (Ev (createOrUpdateManifestWorks instance crds yamls) err)
      = false) ->
  (forall namespaceName, Avoids bad (deleteNamespace namespaceName)) ->
  (forall instance, Avoids bad (Reconcile_provision postfix instance)) ->
  (forall instance, Avoids bad (Reconcile_offline instance)) ->
  Avoids bad (Reconcile postfix request).
Proof.
  intros Hfetch Hdeletion Hworks Hcleanup Hprovision Hoffline.
  unfold Reconcile. cbn zeta.
  constructor; [intros; apply Hfetch |].
  intros [instance | err].
  - lazymatch goal with
    | |- Avoids _ (match ?x with _ => _ end) => destruct x as [ts |]
    end.
    + constructor; [intros; apply Hdeletion | intros; constructor].
    + apply Avoids_bind; [apply Hprovision |].
      intros [out | [[instance' crds] yamls]]; [constructor |].
      destruct (negb (checkOffLine instance')); [| apply Hoffline].
      constructor; [intros; apply Hworks |].
      intros [e |]; constructor.
  - destruct (errors.IsNotFound err); [| constructor].
    apply Avoids_bind; [apply Hcleanup |].
    intros [e |]; constructor.
Qed.

(** X10: through the client [Reconcile] never deletes anything but a
    namespace, never updates a secret or a service account, and reads no
    secret but one named [auto-import-secret]. *)
Theorem Reconcile_client_footprint (request : reconcile.Request) (s : St) :
  let t := (run handle (Reconcile postfix request) s).2 in
  count isForeignWrite t = 0 /\ count isForeignSecretRead t = 0.
Proof.
  cbn zeta. split; apply Avoids_count, Reconcile_avoids;
    try reflexivity; intros.
  - unfold deleteNamespace. avoids.
  - unfold Reconcile_provision. avoids.
  - apply Reconcile_offline_avoids; try reflexivity.
    apply toBeImported_free. intros k key r [-> | [-> _]]; reflexivity.
  - unfold deleteNamespace. avoids.
  - unfold Reconcile_provision. avoids.
  - apply Reconcile_offline_avoids; try reflexivity.
    apply toBeImported_free. intros k key r [-> | [-> Hname]];
      [reflexivity |].
    cbn. rewrite Hname. reflexivity.
Qed.

(** X11: when the fetch of the ManagedCluster fails otherwise than
    with not found, [Reconcile] returns that error with the zero result
    and makes no other call; when it answers not found and the cleanup
    of the namespace succeeds, [Reconcile] returns the zero result and
    no error. *)
Theorem Reconcile_fetch_failed (request : reconcile.Request) (s : St)
    (e : error) (s0 : St) :
  let name := types.Name (reconcile.NamespacedName request) in
  let fetch := Get KManagedCluster
                 {| types.Namespace := ""; types.Name := name |} in
  handle _ fetch s = (Failed e, s0) ->
  (errors.IsNotFound e = false ->
   run handle (Reconcile postfix request) s
   = ((reconcile.zero, Some e), s0, [Ev fetch (Failed e)]))
  /\ (errors.IsNotFound e = true ->
      forall s1 t,
        run handle (deleteNamespace name) s0 = (None, s1, t) ->
        run handle (Reconcile postfix request) s
        = ((reconcile.zero, None), s1, Ev fetch (Failed e) :: t)).
Proof.
  cbn zeta. intros Hfetch. rewrite run_Reconcile. cbn zeta. rewrite Hfetch.
  split.
  - intros ->. reflexivity.
  - intros -> s1 t ->. reflexivity.
Qed.

(** X12: a ManagedCluster with a deletion timestamp is handed to
    [managedClusterDeletion] as it was fetched, without finalizer or
    label added and without any write; [Reconcile] returns what
    [managedClusterDeletion] returns. *)
Theorem Reconcile_deleting (request : reconcile.Request) (s : St)
    (instance : clusterv1.ManagedCluster) (s0 : St) (ts : Z)
    (out : reconcile.Result * option error) (s1 : St) :
  let name := types.Name (reconcile.NamespacedName request) in
  let fetch := Get KManagedCluster
                 {| types.Namespace := ""; types.Name := name |} in
  handle _ fetch s = (Found instance, s0) ->
  GetDeletionTimestamp instance = Some ts ->
  handle _ (managedClusterDeletion instance) s0 = (out, s1) ->
  run handle (Reconcile postfix request) s
  = (out, s1,
     [Ev fetch (Found instance); Ev (managedClusterDeletion instance) out]).
Proof.
  cbn zeta. intros Hfetch Hts Hdel. rewrite run_Reconcile. cbn zeta.
  rewrite Hfetch. cbv beta iota delta [objT]. rewrite Hts.
  cbn zeta. rewrite Hdel. reflexivity.
Qed.

(** X13: for a cluster that is not offline [Reconcile] ends with
    [createOrUpdateManifestWorks], called with the prepared instance and
    the crds and yamls of the provisioning, and returns the zero result
    with the error of that call; it makes no lookup of the import
    decision, no import and no status patch; and the cluster is online
    as fetched, the preparation leaving the status alone. *)
Theorem Reconcile_online (request : reconcile.Request)
    (s : St) (instance0 : clusterv1.ManagedCluster) (s0 : St)
    (instance : clusterv1.ManagedCluster) (crds yamls : list Unstructured)
    (s1 : St) (t1 : list Event) (err : option error) (s2 : St) :
  let name := types.Name (reconcile.NamespacedName request) in
  let fetch := Get KManagedCluster
                 {| types.Namespace := ""; types.Name := name |} in
  let works := createOrUpdateManifestWorks instance crds yamls in
  handle _ fetch s = (Found instance0, s0) ->
  GetDeletionTimestamp instance0 = None ->
  run handle (Reconcile_provision postfix (Reconcile_prepare instance0)) s0
  = (inr (instance, crds, yamls), s1, t1) ->
  checkOffLine instance = false ->
  handle _ works s1 = (err, s2) ->
  let '(out, s', t) := run handle (Reconcile postfix request) s in
  out = (reconcile.zero, err)
  /\ s' = s2
  /\ t = Ev fetch (Found instance0) :: t1 ++ [Ev works err]
  /\ instance = Reconcile_prepare instance0
  /\ checkOffLine instance0 = false
  /\ count isDecisionLookup t = 0
  /\ count isImportStep t = 0.
Proof.
  cbn zeta. intros Hfetch Hts Hprov Hon Hworks.
  pose proof (Reconcile_provision_instance (Reconcile_prepare instance0) s0)
    as Hsame.
  assert (Avoids isDecisionLookup
            (Reconcile_provision postfix (Reconcile_prepare instance0)))
    as Hfree by (unfold Reconcile_provision; avoids).
  pose proof (Avoids_count handle _ _ Hfree s0) as Hlookups.
  pose proof (Avoids_count handle isImportStep _
                (Reconcile_provision_avoids postfix
                   (Reconcile_prepare instance0)) s0) as Hsteps.
  unfold Decision, Outcome, Provisioned in *.
  rewrite Hprov in Hsame, Hlookups, Hsteps. cbn [snd] in Hlookups, Hsteps.
  subst instance.
  rewrite run_Reconcile. cbn zeta.
  rewrite Hfetch. cbv beta iota delta [objT].
  unfold Decision, Outcome, Provisioned.
  rewrite Hts, Hprov. cbv beta iota. rewrite Hon. cbn [negb]. cbn zeta.
  rewrite Hworks.
  destruct (prepare_prepared instance0) as (_ & _ & _ & _ & Hstatus).
  repeat split.
  - unfold checkOffLine in *. rewrite <- Hstatus. exact Hon.
  - cbn. rewrite count_app, Hlookups. reflexivity.
  - cbn. rewrite count_app, Hsteps. reflexivity.
Qed.

(** X14: what [toBeImported] returns is consistent in every run:
    never a secret and a cluster deployment together; either of them
    only with the decision to import, no error and no self-managed
    label; the cluster deployment is the one the only lookup found, the
    secret the one the last lookup found; and an error comes with the
    decision not to import and with neither object, and is the parse
    error of the label, with no lookup made, or the error of the last
    lookup, which is not a not-found error. *)
Theorem toBeImported_decision (managedCluster : clusterv1.ManagedCluster)
    (s : St) :
  let name := GetName managedCluster in
  let cdKey := {| types.Name := name; types.Namespace := name |} in
  let secretKey :=
    {| types.Name := autoImportSecretName; types.Namespace := name |} in
  let '(autoImportSecret, clusterDeployment, toImport, err, _, t) :=
    run handle (toBeImported managedCluster) s in
  (autoImportSecret = None \/ clusterDeployment = None)
  /\ (is_Some autoImportSecret \/ is_Some clusterDeployment ->
      toImport = true /\ err = None
      /\ GetLabels managedCluster !! selfManagedLabel = None)
  /\ (forall cd, clusterDeployment = Some cd ->
                 t = [Ev (Get KClusterDeployment cdKey) (Found cd)])
  /\ (forall secret, autoImportSecret = Some secret ->
                     last t = Some (Ev (Get KSecret secretKey)
                                      (Found secret)))
  /\ (forall e, err = Some e ->
        toImport = false /\ autoImportSecret = None
        /\ clusterDeployment = None
        /\ (t = [] /\ (exists v,
                          GetLabels managedCluster !! selfManagedLabel
                          = Some v /\ e = NumError "ParseBool" v)
            \/ lastError t = Some e /\ errors.IsNotFound e = false)).
Proof.
  cbn zeta. unfold toBeImported.
  destruct (GetLabels managedCluster !! selfManagedLabel) as [v |] eqn:Hl.
  - destruct (strconv.ParseBool v) as [b err] eqn:Hparse. cbn.
    split; [auto |]. split; [intros [[? [=]] | [? [=]]] |].
    split; [discriminate |]. split; [discriminate |].
    intros e ->. apply ParseBool_error in Hparse as [-> ->]. eauto 10.
  - walk; cbn; (split; [auto |]); (split; [| split; [| split]]);
      first [ discriminate
            | intros ? [= <-]; reflexivity
            | intros [[? [=]] | [? [=]]]; repeat split
            | intros ? [= <-]; do 3 (split; [reflexivity |]); right;
              split; [reflexivity |];
              first [assumption | apply negb_true_iff; assumption] ].
Qed.

(** X15: without the self-managed label, a lookup of the cluster
    deployment that fails otherwise than with not found is fatal,
    without a look at the secret; no cluster deployment and an
    auto-import secret means import, with that secret; and a lookup of
    the secret that fails otherwise than with not found is fatal. *)
Theorem toBeImported_lookup_answers
    (managedCluster : clusterv1.ManagedCluster) (s : St) :
  let name := GetName managedCluster in
  let cdKey := {| types.Name := name; types.Namespace := name |} in
  let secretKey :=
    {| types.Name := autoImportSecretName; types.Namespace := name |} in
  GetLabels managedCluster !! selfManagedLabel = None ->
  (forall e s1,
      handle _ (Get KClusterDeployment cdKey) s = (Failed e, s1) ->
      errors.IsNotFound e = false ->
      run handle (toBeImported managedCluster) s
      = ((None, None, false, Some e), s1,
         [Ev (Get KClusterDeployment cdKey) (Failed e)]))
  /\ (forall e1 s1 secret s2,
        handle _ (Get KClusterDeployment cdKey) s = (Failed e1, s1) ->
        errors.IsNotFound e1 = true ->
        handle _ (Get KSecret secretKey) s1 = (Found secret, s2) ->
        run handle (toBeImported managedCluster) s
        = ((Some secret, None, true, None), s2,
           [Ev (Get KClusterDeployment cdKey) (Failed e1);
            Ev (Get KSecret secretKey) (Found secret)]))
  /\ (forall e1 s1 e2 s2,
        handle _ (Get KClusterDeployment cdKey) s = (Failed e1, s1) ->
        errors.IsNotFound e1 = true ->
        handle _ (Get KSecret secretKey) s1 = (Failed e2, s2) ->
        errors.IsNotFound e2 = false ->
        run handle (toBeImported managedCluster) s
        = ((None, None, false, Some e2), s2,
           [Ev (Get KClusterDeployment cdKey) (Failed e1);
            Ev (Get KSecret secretKey) (Failed e2)])).
Proof.
  cbn zeta. intros Hl. unfold toBeImported. rewrite Hl. cbn.
  split; [| split].
  - intros e s1 Hcd He. cbn in Hcd. rewrite Hcd. cbn. rewrite He.
    reflexivity.
  - intros e1 s1 secret s2 Hcd He1 Hsec. cbn in Hcd. rewrite Hcd. cbn.
    rewrite He1. cbn. cbn in Hsec. rewrite Hsec. reflexivity.
  - intros e1 s1 e2 s2 Hcd He1 Hsec He2. cbn in Hcd. rewrite Hcd. cbn.
    rewrite He1. cbn. cbn in Hsec. rewrite Hsec. cbn. rewrite He2.
    reflexivity.
Qed.

(** X16: [deleteNamespace] makes three calls at most and one write
    at most, an update or a delete.  It returns no error only without
    any update and when the namespace is not found, or is already in
    deletion, or was live without cluster deployment and its delete
    answered success or not found.  An error is the error of the last
    call, which is not a not-found error unless the call is the update,
    or, after a successful update of the cluster deployment, the error
    that names the namespace. *)
Theorem deleteNamespace_outcome (namespaceName : string) (s : St) :
  let nsKey := {| types.Namespace := ""; types.Name := namespaceName |} in
  let cdKey :=
    {| types.Name := namespaceName; types.Namespace := namespaceName |} in
  let '(err, _, t) := run handle (deleteNamespace namespaceName) s in
  length t <= 3
  /\ count isUpdate t + count isDelete t <= 1
  /\ match err with
     | None =>
         count isUpdate t = 0
         /\ ((exists e, t = [Ev (Get KNamespace nsKey) (Failed e)]
                        /\ errors.IsNotFound e = true)
             \/ (exists ns ts, t = [Ev (Get KNamespace nsKey) (Found ns)]
                              /\ GetDeletionTimestamp ns = Some ts)
             \/ (exists ns e r,
                    t = [Ev (Get KNamespace nsKey) (Found ns);
                         Ev (Get KClusterDeployment cdKey) (Failed e);
                         Ev (Delete KNamespace ns) r]
                    /\ GetDeletionTimestamp ns = None
                    /\ errors.IsNotFound e = true
                    /\ match r with
                       | None => True
                       | Some e' => errors.IsNotFound e' = true
                       end))
     | Some e =>
         (lastError t = Some e
          /\ (errors.IsNotFound e = false \/ count isUpdate t = 1))
         \/ (lastError t = None
             /\ e = Errorf (blockedMessage namespaceName)
             /\ count isUpdate t = 1)
     end.
Proof.
  cbn zeta. unfold deleteNamespace. walk; cbn;
    (split; [lia |]); (split; [lia |]);
    repeat match goal with
           | H : negb _ = true |- _ => apply negb_true_iff in H
           | H : negb _ = false |- _ => apply negb_false_iff in H
           end;
    first [ left; split; [reflexivity |];
            first [left; assumption | right; reflexivity]
          | right; split; [reflexivity |]; split; reflexivity
          | split; [reflexivity |];
            first [ left; eexists; split; [reflexivity | assumption]
                  | right; left; eexists _, _; split;
                    [reflexivity | eassumption]
                  | right; right; eexists _, _, _;
                    split; [reflexivity |]; split; [assumption |];
                    split; [assumption |]; first [exact I | assumption] ] ].
Qed.

(** X17: recording the outcome of an import changes neither the
    metadata of the cluster nor its reachability: the object that
    [setConditionImport] patches, against the cluster as received and
    after no other write, has the metadata of the cluster, the same
    answer of [checkOffLine], and the same condition of every type but
    ManagedClusterImportSucceeded. *)
Theorem setConditionImport_keeps_reachability
    (managedCluster : clusterv1.ManagedCluster) (errIn : option error)
    (reason : string) (s : St) :
  let '(_, _, t) :=
    run handle (setConditionImport managedCluster errIn reason) s in
  exists reads patched r,
    t = reads ++ [Ev (StatusPatch patched managedCluster) r]
    /\ count isMutation reads = 0
    /\ clusterv1.ObjectMeta patched = clusterv1.ObjectMeta managedCluster
    /\ checkOffLine patched = checkOffLine managedCluster
    /\ forall ty, ty ≠ ManagedClusterImportSucceeded ->
         FindStatusCondition (clusterv1.Conditions (clusterv1.Status patched))
           ty
         = FindStatusCondition
             (clusterv1.Conditions (clusterv1.Status managedCluster)) ty.
Proof.
  pose proof (run_setConditionImport handle managedCluster errIn reason s)
    as Hrun.
  ran (setConditionImport managedCluster errIn reason) as [[err s'] t].
  destruct Hrun
    as (reads & conditions & r & c & -> & Hreads & _ & _ & _ & _
        & Hothers & _).
  exists reads, (setConditions managedCluster conditions), r.
  split; [reflexivity |]. split.
  { destruct Hreads as [-> | [now ->]]; reflexivity. }
  split; [reflexivity |]. split; [| exact Hothers].
  apply checkOffLine_setConditions. exact Hothers.
Qed.

Lemma Reconcile_provision_error (instance : clusterv1.ManagedCluster)
    (s : St) :
  let '(p, _, t) := run handle (Reconcile_provision postfix instance) s in
  match p with
  | inl (_, err) => exists e, err = Some e /\ lastError t = Some e
  | inr _ => True
  end.
Proof. unfold Reconcile_provision. walk; cbn; eauto. Qed.

Lemma toBeImported_error (managedCluster : clusterv1.ManagedCluster)
    (s : St) :
  let '(_, _, _, err, _, t) := run handle (toBeImported managedCluster) s in
  forall e, err = Some e ->
            lastError t = Some e \/ exists v, e = NumError "ParseBool" v.
Proof.
  unfold toBeImported.
  destruct (GetLabels managedCluster !! selfManagedLabel) as [v |].
  - destruct (strconv.ParseBool v) as [b err] eqn:Hparse. cbn.
    intros e ->. apply ParseBool_error in Hparse as [_ ->]. eauto.
  - walk; cbn; intros e' [= <-]; auto.
Qed.

(** An error returned by [Reconcile] is the error of the last call of
    the run, or the parse error of the self-managed label. *)
Lemma Reconcile_error_last (request : reconcile.Request) (s : St) :
  let '(out, _, t) := run handle (Reconcile postfix request) s in
  forall e, out.2 = Some e ->
            lastError t = Some e \/ exists v, e = NumError "ParseBool" v.
Proof.
  rewrite run_Reconcile. cbn zeta.
  destruct (handle _ _ s) as [r s0]. destruct r as [instance0 | err].
  - destruct (GetDeletionTimestamp instance0) as [ts |].
    { destruct (handle _ _ s0) as [[result err] s1]. cbn. auto. }
    pose proof (Reconcile_provision_error (Reconcile_prepare instance0) s0)
      as Hprov.
    ran (Reconcile_provision postfix (Reconcile_prepare instance0))
      as [[p s1] t1].
    destruct p as [[result err] | [[instance crds] yamls]].
    { destruct Hprov as (e & -> & Hlast). cbn [snd]. intros e' [= <-].
      left. apply lastError_cons. exact Hlast. }
    destruct (negb (checkOffLine instance)).
    { destruct (handle _ _ s1) as [err s2]. cbn [snd]. intros e ->.
      left. apply lastError_cons, lastError_app. reflexivity. }
    rewrite run_Reconcile_offline.
    pose proof (toBeImported_error instance s1) as Hdec.
    ran (toBeImported instance) as [[[[[sec cd] toImport] err] s2] t2].
    destruct err as [e |].
    { cbn [snd]. intros e' [= <-].
      destruct (Hdec e eq_refl) as [Hlast | Hparse]; [left | right; exact Hparse].
      apply lastError_cons, lastError_app. exact Hlast. }
    destruct toImport; cbn [negb]; [| cbn; discriminate].
    cbn zeta. destruct (handle _ _ s2) as [[result err] s3].
    destruct (reconcile.Requeue result || bool_decide (err ≠ None))
      eqn:Hguard.
    { cbn [snd]. intros e ->. left.
      apply lastError_cons, lastError_app, lastError_app. reflexivity. }
    apply orb_false_elim in Hguard as [_ Herr].
    apply bool_decide_eq_false in Herr.
    ran (setConditionImport instance err
           ("Unable to import " +:+ GetName instance))
      as [[errCond s4] t4].
    cbn [snd]. intros e ->. destruct Herr. discriminate.
  - destruct (errors.IsNotFound err).
    + ran (deleteNamespace (types.Name (reconcile.NamespacedName request)))
        as [[e s1] t].
      destruct e; cbn; discriminate.
    + cbn. intros e [= <-]. auto.
Qed.

(** When the cluster of the request is gone, [Reconcile] cleans up the
    namespace and returns no error, whatever [deleteNamespace]
    returned. *)
Lemma Reconcile_cleanup_no_error (request : reconcile.Request) (s : St)
    (e : error) (s0 : St) :
  let name := types.Name (reconcile.NamespacedName request) in
  let fetch := Get KManagedCluster
                 {| types.Namespace := ""; types.Name := name |} in
  handle _ fetch s = (Failed e, s0) ->
  errors.IsNotFound e = true ->
  let '(_, s1, cleanup) := run handle (deleteNamespace name) s0 in
  exists result,
    run handle (Reconcile postfix request) s
    = ((result, None), s1, Ev fetch (Failed e) :: cleanup).
Proof.
  cbn zeta. intros Hfetch Hgone. rewrite run_Reconcile. cbn zeta.
  rewrite Hfetch, Hgone.
  ran (deleteNamespace (types.Name (reconcile.NamespacedName request)))
    as [[errDel s1] cleanup].
  destruct errDel; eauto.
Qed.

(** X18: an error returned by [Reconcile] is the error of the last
    call of the run, or the parse error of the self-managed label;
    errors of the status patch and of the cleanup of the namespace are
    never returned: a run that patches the status returns no error, and
    a run that cleans up the namespace, the fetch of the cluster having
    answered not found, returns no error whatever [deleteNamespace]
    returned. *)
Theorem Reconcile_error_origin (request : reconcile.Request) (s : St) :
  let name := types.Name (reconcile.NamespacedName request) in
  let fetch := Get KManagedCluster
                 {| types.Namespace := ""; types.Name := name |} in
  let '(out, _, t) := run handle (Reconcile postfix request) s in
  (forall e, out.2 = Some e ->
             lastError t = Some e \/ exists v, e = NumError "ParseBool" v)
  /\ (0 < count isStatusPatch t -> out.2 = None)
  /\ (forall e s0,
        handle _ fetch s = (Failed e, s0) ->
        errors.IsNotFound e = true ->
        let '(errDel, _, cleanup) := run handle (deleteNamespace name) s0 in
        out.2 = None /\ t = Ev fetch (Failed e) :: cleanup).
Proof.
  cbn zeta.
  pose proof (Reconcile_error_last request s) as Horigin.
  pose proof (Reconcile_patch_outcome handle postfix request s) as Hpatch.
  pose proof (Reconcile_cleanup_no_error request s) as Hcleanup.
  cbn zeta in Hcleanup.
  ran (Reconcile postfix request) as [[out s'] t].
  split; [exact Horigin |]. split.
  { intros Hcount. apply Hpatch. exact Hcount. }
  intros e s0 Hfetch Hgone. specialize (Hcleanup e s0 Hfetch Hgone).
  ran (deleteNamespace (types.Name (reconcile.NamespacedName request)))
    as [[errDel s1] cleanup].
  destruct Hcleanup as [result [= -> _ ->]]. split; reflexivity.
Qed.

Lemma Reconcile_provision_result (instance : clusterv1.ManagedCluster)
    (s : St) :
  let '(p, _, t) := run handle (Reconcile_provision postfix instance) s in
  match p with
  | inl (result, err) =>
      result = reconcile.zero
      \/ Ev (deleteKlusterletSyncSets instance) (result, err) ∈ t
  | inr _ => True
  end.
Proof.
  unfold Reconcile_provision. walk; cbn;
    first [exact I | left; reflexivity | right; repeat constructor].
Qed.

(** X19: a result of [Reconcile] other than the zero result is the
    requeue after one minute, with no error, or is returned, with its
    error, as [managedClusterDeletion], [deleteKlusterletSyncSets] or
    [importCluster] answered it in the run. *)
Theorem Reconcile_result_origin (request : reconcile.Request) (s : St) :
  let '(out, _, t) := run handle (Reconcile postfix request) s in
  out.1 ≠ reconcile.zero ->
  out = ({| reconcile.Requeue := true;
            reconcile.RequeueAfter := 60000000000%Z |}, None)
  \/ (exists instance, Ev (managedClusterDeletion instance) out ∈ t)
  \/ (exists instance, Ev (deleteKlusterletSyncSets instance) out ∈ t)
  \/ (exists instance clusterDeployment autoImportSecret,
         Ev (importCluster instance clusterDeployment autoImportSecret) out
         ∈ t).
Proof.
  rewrite run_Reconcile. cbn zeta.
  destruct (handle _ _ s) as [r s0]. destruct r as [instance0 | err].
  - destruct (GetDeletionTimestamp instance0) as [ts |].
    { destruct (handle _ _ s0) as [out s1]. intros _. right; left.
      exists instance0. repeat constructor. }
    pose proof (Reconcile_provision_result (Reconcile_prepare instance0) s0)
      as Hprov.
    ran (Reconcile_provision postfix (Reconcile_prepare instance0))
      as [[p s1] t1].
    destruct p as [[result err] | [[instance crds] yamls]].
    { cbn [fst]. intros Hresult.
      destruct Hprov as [-> | Hin]; [contradiction |].
      right; right; left. eexists. right. exact Hin. }
    destruct (negb (checkOffLine instance)).
    { destruct (handle _ _ s1) as [err s2]. cbn [fst]. contradiction. }
    rewrite run_Reconcile_offline.
    ran (toBeImported instance) as [[[[[sec cd] toImport] err] s2] t2].
    destruct err as [e |]; [cbn [fst]; contradiction |].
    destruct toImport; cbn [negb]; [| cbn [fst]; contradiction].
    cbn zeta. destruct (handle _ _ s2) as [[result err] s3].
    assert (forall t3,
               Ev (importCluster instance cd sec) (result, err)
               ∈ Ev (Get KManagedCluster
                       {| types.Namespace := "";
                          types.Name :=
                            types.Name (reconcile.NamespacedName request) |})
                    (Found instance0)
                  :: t1 ++ t2 ++ Ev (importCluster instance cd sec)
                                   (result, err) :: t3) as Hin.
    { intros t3. right. apply elem_of_app. right.
      apply elem_of_app. right. left. }
    destruct (reconcile.Requeue result || bool_decide (err ≠ None)).
    { intros _. right; right; right. eexists _, _, _. apply Hin. }
    ran (setConditionImport instance err
           ("Unable to import " +:+ GetName instance))
      as [[errCond s4] t4].
    intros _. right; right; right. eexists _, _, _. apply Hin.
  - destruct (errors.IsNotFound err).
    + ran (deleteNamespace (types.Name (reconcile.NamespacedName request)))
        as [[e s1] t].
      destruct e; cbn [fst]; [intros _; left; reflexivity | contradiction].
    + cbn [fst]. contradiction.
Qed.

(** *** What the import leaves on record *)

Lemma recordsSuccess_other (ev : Event) :
  isImportStep ev = false -> recordsSuccess ev.
Proof.
  destruct ev as [X c x].
  destruct c; first [exact (fun _ => I) | discriminate].
Qed.

Lemma count_Forall (f : Event -> bool) (t : list Event) :
  count f t = 0 -> Forall (fun ev => f ev = false) t.
Proof.
  induction t as [| ev t IH]; cbn; [constructor |].
  destruct (f ev) eqn:Hf; [discriminate |].
  intros Hcount. constructor; auto.
Qed.

Lemma count_free_recordsSuccess (t : list Event) :
  count isImportStep t = 0 -> Forall recordsSuccess t.
Proof.
  intros Hfree. apply count_Forall in Hfree.
  eapply Forall_impl; [exact Hfree |]. apply recordsSuccess_other.
Qed.

Lemma count_stopped_import (t : list Event) :
  count isImportStep t = 0 -> count isStoppedImport t = 0.
Proof.
  intros Hfree.
  assert (count isStoppedImport t <= count isImportStep t); [| lia].
  apply count_le. intros [X c x] Hev. destruct c; try discriminate Hev.
  reflexivity.
Qed.

(** In a run without import step every patch records a success, there
    being none, and no import has failed. *)
Lemma import_free (out : Outcome) (t : list Event) :
  count isImportStep t = 0 ->
  Forall recordsSuccess t
  /\ (0 < count isStoppedImport t ->
      count isStatusPatch t = 0
      /\ exists ev, last t = Some ev
                    /\ isStoppedImport ev = true
                    /\ importAnswer ev = Some out).
Proof.
  intros Hfree. split; [apply count_free_recordsSuccess, Hfree |].
  rewrite (count_stopped_import t Hfree). lia.
Qed.

Ltac import_free :=
  lazymatch goal with
  | |- Forall _ ?t /\ (_ -> _ /\ exists ev, _ /\ _ /\ _ = Some ?out) =>
      apply (import_free out t); cbn; rewrite ?count_app; cbn; lia
  end.

(** Whatever [Reconcile] patches records a success, and after an import
    on which line 290 returns it patches nothing. *)
Lemma Reconcile_import_recorded (request : reconcile.Request) (s : St) :
  let '(out, _, t) := run handle (Reconcile postfix request) s in
  Forall recordsSuccess t
  /\ (0 < count isStoppedImport t ->
      count isStatusPatch t = 0
      /\ exists ev, last t = Some ev
                    /\ isStoppedImport ev = true
                    /\ importAnswer ev = Some out).
Proof.
  rewrite run_Reconcile. cbn zeta.
  destruct (handle _ _ s) as [r s0]. destruct r as [instance0 | err].
  - destruct (GetDeletionTimestamp instance0) as [ts |].
    { destruct (handle _ _ s0) as [out s1]. import_free. }
    pose proof (Avoids_count handle isImportStep _
                  (Reconcile_provision_avoids postfix
                     (Reconcile_prepare instance0)) s0) as Hprov.
    ran (Reconcile_provision postfix (Reconcile_prepare instance0))
      as [[p s1] t1].
    cbn [snd] in Hprov.
    destruct p as [out | [[instance crds] yamls]]; [import_free |].
    destruct (negb (checkOffLine instance)).
    { destruct (handle _ _ s1) as [err s2]. import_free. }
    rewrite run_Reconcile_offline.
    pose proof (Avoids_count handle isImportStep _
                  (toBeImported_avoids instance) s1) as Hdec.
    ran (toBeImported instance) as [[[[[sec cd] toImport] err] s2] t2].
    cbn [snd] in Hdec.
    destruct err as [e |]; [import_free |].
    destruct toImport; cbn [negb]; [| import_free].
    cbn zeta. destruct (handle _ _ s2) as [[result err] s3].
    apply count_import_free in Hprov as Hprov'.
    destruct Hprov' as (Hprov1 & _ & _).
    apply count_import_free in Hdec as Hdec'.
    destruct Hdec' as (Hdec1 & _ & _).
    destruct (reconcile.Requeue result || bool_decide (err ≠ None))
      eqn:Hguard.
    + (* the import failed or asks for a requeue *)
      split.
      * constructor; [exact I |]. apply Forall_app. split;
          [apply count_free_recordsSuccess, Hprov |].
        apply Forall_app. split;
          [apply count_free_recordsSuccess, Hdec | repeat constructor].
      * intros _. split.
        { cbn. rewrite !count_app, Hprov1, Hdec1. reflexivity. }
        eexists. split.
        -- rewrite app_assoc.
           change (?e :: ?l ++ [?x]) with ((e :: l) ++ [x]).
           apply last_snoc.
        -- split; [exact Hguard | reflexivity].
    + (* the import succeeded *)
      pose proof (run_setConditionImport handle instance err
                    ("Unable to import " +:+ GetName instance) s3) as Hrec.
      apply orb_false_elim in Hguard as [Hrequeue Herr].
      apply bool_decide_eq_false in Herr.
      assert (err = None) as ->
        by (destruct err; [exfalso; apply Herr; discriminate | reflexivity]).
      ran (setConditionImport instance None
             ("Unable to import " +:+ GetName instance))
        as [[errCond s4] t4].
      destruct Hrec
        as (reads & conditions & r & c & -> & Hreads & Hfind & Hstatus
            & Hreason & Hmessage & _ & _).
      split.
      * constructor; [exact I |]. apply Forall_app. split;
          [apply count_free_recordsSuccess, Hprov |].
        apply Forall_app. split;
          [apply count_free_recordsSuccess, Hdec |].
        constructor; [exact I |]. apply Forall_app. split.
        { destruct Hreads as [-> | [now ->]]; repeat constructor. }
        constructor; [| constructor].
        exists c. cbn. auto.
      * assert (count isStoppedImport reads = 0) as Hreads0
          by (destruct Hreads as [-> | [now ->]]; reflexivity).
        assert (count isStoppedImport t1 = 0) as H1
          by (apply count_stopped_import, Hprov).
        assert (count isStoppedImport t2 = 0) as H2
          by (apply count_stopped_import, Hdec).
        cbn. rewrite !count_app, H1, H2. cbn.
        rewrite Hrequeue. cbn.
        rewrite count_app, Hreads0. cbn. lia.
  - destruct (errors.IsNotFound err); [| import_free].
    pose proof (Avoids_count handle isImportStep _
                  (deleteNamespace_avoids
                     (types.Name (reconcile.NamespacedName request))) s0)
      as Hdel.
    ran (deleteNamespace (types.Name (reconcile.NamespacedName request)))
      as [[e s1] t].
    cbn [snd] in Hdel.
    destruct e as [e |]; import_free.
Qed.

(** C4 fails where the import fails: in every run of [Reconcile], each
    status patch it sends carries the import condition with status True,
    reason ManagedClusterImported and message "Import succeeded", so that
    the failure that line 293 hands to the recorder is never recorded;
    when [importCluster] returned an error or asked for a requeue, it was
    the last call of the run, [Reconcile] returned its answer as it was
    and sent no status patch; and a run that returns an error has sent
    no status patch. *)
Theorem Reconcile_import_failure_unrecorded (request : reconcile.Request)
    (s : St) :
  let '(out, _, t) := run handle (Reconcile postfix request) s in
  Forall recordsSuccess t
  /\ (0 < count isStoppedImport t ->
      count isStatusPatch t = 0
      /\ exists ev, last t = Some ev
                    /\ isStoppedImport ev = true
                    /\ importAnswer ev = Some out)
  /\ (forall e, out.2 = Some e -> count isStatusPatch t = 0).
Proof.
  pose proof (Reconcile_patch_outcome handle postfix request s) as Hpatch.
  pose proof (Reconcile_import_recorded request s) as Hrecorded.
  ran (Reconcile postfix request) as [[out s'] t].
  destruct Hrecorded as [Hall Hfailed].
  split; [exact Hall |]. split; [exact Hfailed |].
  intros e He. destruct (count isStatusPatch t); [reflexivity |].
  destruct Hpatch as [Hnone _]; [lia | congruence].
Qed.

End Steps.

(** ** The client of the reconciler *)

Lemma customClient_ext {St : Type}
    (Client Client' : forall X : Type, call X -> St -> X * St)
    (APIReader APIReader' :
       forall k : Kind, types.NamespacedName -> St -> got (objT k) * St) :
  (forall X (c : call X) s,
      isSecretGet c = false -> Client X c s = Client' X c s) ->
  (forall key s, APIReader KSecret key s = APIReader' KSecret key s) ->
  forall X (c : call X) s,
    customClient Client APIReader X c s
    = customClient Client' APIReader' X c s.
Proof.
  intros Hclient Hreader X c s.
  destruct c; try (apply Hclient; reflexivity).
  unfold customClient, customClient_Get.
  destruct k; cbn [isSecret];
    first [apply Hclient; reflexivity | apply Hreader].
Qed.

(** X20: with [customClient] a run reads secrets from the API reader
    and everything else from the embedded client: two embedded clients
    that differ only on reads of secrets, and two API readers that agree
    on secrets, give the same run of any program; so the import decision
    takes the auto-import secret the API reader finds, whatever the
    embedded client holds. *)
Theorem customClient_reads_secrets_uncached {St : Type}
    (Client Client' : forall X : Type, call X -> St -> X * St)
    (APIReader APIReader' :
       forall k : Kind, types.NamespacedName -> St -> got (objT k) * St) :
  (forall X (c : call X) s,
      isSecretGet c = false -> Client X c s = Client' X c s) ->
  (forall key s, APIReader KSecret key s = APIReader' KSecret key s) ->
  (forall A (p : Prog A) s,
      run (customClient Client APIReader) p s
      = run (customClient Client' APIReader') p s)
  /\ (forall (managedCluster : clusterv1.ManagedCluster) s e s1 secret s2,
        let name := GetName managedCluster in
        let cdKey := {| types.Name := name; types.Namespace := name |} in
        let secretKey :=
          {| types.Name := autoImportSecretName; types.Namespace := name |} in
        GetLabels managedCluster !! selfManagedLabel = None ->
        Client _ (Get KClusterDeployment cdKey) s = (Failed e, s1) ->
        errors.IsNotFound e = true ->
        APIReader KSecret secretKey s1 = (Found secret, s2) ->
        run (customClient Client' APIReader') (toBeImported managedCluster) s
        = ((Some secret, None, true, None), s2,
           [Ev (Get KClusterDeployment cdKey) (Failed e);
            Ev (Get KSecret secretKey) (Found secret)])).
Proof.
  intros Hclient Hreader.
  assert (forall A (p : Prog A) s,
             run (customClient Client APIReader) p s
             = run (customClient Client' APIReader') p s) as Hrun.
  { intros A p. induction p as [a | X c k IH]; intros s; [reflexivity |].
    cbn [run].
    rewrite (customClient_ext Client Client' APIReader APIReader'
               Hclient Hreader X c s).
    destruct (customClient Client' APIReader' X c s) as [x s1].
    rewrite IH. reflexivity. }
  split; [exact Hrun |].
  intros managedCluster s e s1 secret s2 name cdKey secretKey Hl Hcd He Hsec.
  rewrite <- Hrun. unfold toBeImported. rewrite Hl. cbn.
  unfold customClient_Get. cbn [isSecret].
  subst name cdKey secretKey. cbn in Hcd, Hsec.
  rewrite Hcd. cbn. rewrite He. cbn. rewrite Hsec. reflexivity.
Qed.

(** ** The effect of a reconciliation on the store *)

(** Provisioning in a store without faults stores the instance, labels
    the namespace when the label is missing, and touches nothing else;
    it passes only when the namespace exists. *)
Lemma fake_provision_store (postfix : string)
    (i : clusterv1.ManagedCluster) cl nss dep sec sa clk ans
    (old : clusterv1.ManagedCluster) :
  cl !! GetName i = Some old ->
  (forall ns, nss !! GetName i = Some ns -> GetName ns = GetName i) ->
  let '(p, w1, t) :=
    run fake.handle (Reconcile_provision postfix i)
      (mkWorld cl nss dep sec sa [] clk ans) in
  w1 = mkWorld (<[GetName i := i]> cl) (labelled (GetName i) nss)
         dep sec sa [] clk ans
  /\ match p with
     | inl (_, err) => err ≠ None
     | inr _ => is_Some (nss !! GetName i)
     end.
Proof.
  intros Hold Hwf. unfold Reconcile_provision, labelled. sim.
  rewrite Hold. sim.
  destruct (nss !! GetName i) as [ns |] eqn:Hns; sim;
    [| split; [reflexivity | discriminate]].
  pose proof (Hwf ns eq_refl) as Hnsname.
  destruct (GetLabels ns !! clusterLabel) eqn:Hl; sim.
  - repeat (observe; sim); split; first [reflexivity | discriminate | eauto].
  - rewrite SetLabels_name, Hnsname, Hns. sim.
    repeat (observe; sim); split; first [reflexivity | discriminate | eauto].
Qed.

(** X21: in a store without faults that holds an active cluster
    under its name, and apart from what the functions of the other files
    do, one [Reconcile] leaves the cluster stored with the metadata of
    the prepared instance, the same reachability and the same conditions
    of every type but ManagedClusterImportSucceeded; it leaves every
    other namespace alone; the namespace of the cluster, when there is
    one, then carries the cluster label, with the value it had or else
    the name of the cluster, and its other labels, finalizers and
    deletion timestamp as before; and without that namespace
    [Reconcile] returns an error. *)
Theorem Reconcile_store_effect (postfix : string)
    (request : reconcile.Request) (w : World)
    (mc : clusterv1.ManagedCluster) :
  let name := types.Name (reconcile.NamespacedName request) in
  faults w = [] ->
  clusters w !! name = Some mc ->
  GetName mc = name ->
  GetDeletionTimestamp mc = None ->
  (forall ns, namespaces w !! name = Some ns -> GetName ns = name) ->
  let '(out, w1, t) := run fake.handle (Reconcile postfix request) w in
  (exists mc1,
      clusters w1 = <[name := mc1]> (clusters w)
      /\ clusterv1.ObjectMeta mc1
         = clusterv1.ObjectMeta (Reconcile_prepare mc)
      /\ checkOffLine mc1 = checkOffLine mc
      /\ forall ty, ty ≠ ManagedClusterImportSucceeded ->
           FindStatusCondition (clusterv1.Conditions (clusterv1.Status mc1))
             ty
           = FindStatusCondition
               (clusterv1.Conditions (clusterv1.Status mc)) ty)
  /\ (forall other, other ≠ name ->
        namespaces w1 !! other = namespaces w !! other)
  /\ match namespaces w !! name with
     | None => namespaces w1 !! name = None /\ out.2 ≠ None
     | Some ns =>
         exists ns1,
           namespaces w1 !! name = Some ns1
           /\ GetLabels ns1 !! clusterLabel
              = Some (default name (GetLabels ns !! clusterLabel))
           /\ (forall key, key ≠ clusterLabel ->
                 GetLabels ns1 !! key = GetLabels ns !! key)
           /\ GetFinalizers ns1 = GetFinalizers ns
           /\ GetDeletionTimestamp ns1 = GetDeletionTimestamp ns
     end.
Proof.
  cbn zeta. destruct w as [cl nss dep sec sa fs clk ans].
  cbn [faults clusters namespaces].
  intros -> Hcl Hname Hdel Hwf.
  set (name := types.Name (reconcile.NamespacedName request)) in *.
  set (i := Reconcile_prepare mc).
  destruct (prepare_prepared mc) as (_ & _ & Hiname & Hidel & Histatus).
  fold i in Hiname, Hidel, Histatus. rewrite Hname in Hiname.
  assert (forall nss1,
             nss1 = labelled name nss ->
             (forall other, other ≠ name -> nss1 !! other = nss !! other)
             /\ match nss !! name with
                | None => nss1 !! name = None
                | Some ns =>
                    exists ns1,
                      nss1 !! name = Some ns1
                      /\ GetLabels ns1 !! clusterLabel
                         = Some (default name (GetLabels ns !! clusterLabel))
                      /\ (forall key, key ≠ clusterLabel ->
                            GetLabels ns1 !! key = GetLabels ns !! key)
                      /\ GetFinalizers ns1 = GetFinalizers ns
                      /\ GetDeletionTimestamp ns1 = GetDeletionTimestamp ns
                end) as Hlabelled.
  { intros nss1 ->. unfold labelled.
    destruct (nss !! name) as [ns |] eqn:Hns; [| rewrite Hns; auto].
    destruct (GetLabels ns !! clusterLabel) as [v |] eqn:Hl.
    - split; [reflexivity |]. exists ns. rewrite Hns, Hl. auto.
    - split; [intros other Hother; apply lookup_insert_ne; congruence |].
      eexists. rewrite lookup_insert_eq. split; [reflexivity |].
      rewrite SetLabels_labels, lookup_insert_eq.
      split; [reflexivity |].
      split; [intros key Hkey; apply lookup_insert_ne; congruence |].
      split; reflexivity. }
  assert (forall C,
             (forall ty, ty ≠ ManagedClusterImportSucceeded ->
                FindStatusCondition C ty
                = FindStatusCondition
                    (clusterv1.Conditions (clusterv1.Status i)) ty) ->
             clusterv1.ObjectMeta (setConditions i C) = clusterv1.ObjectMeta i
             /\ checkOffLine (setConditions i C) = checkOffLine mc
             /\ forall ty, ty ≠ ManagedClusterImportSucceeded ->
                  FindStatusCondition
                    (clusterv1.Conditions (clusterv1.Status (setConditions i C)))
                    ty
                  = FindStatusCondition
                      (clusterv1.Conditions (clusterv1.Status mc)) ty)
    as Hcluster.
  { intros C Hothers. split; [reflexivity |]. split.
    - rewrite (checkOffLine_setConditions i C Hothers).
      unfold checkOffLine. rewrite Histatus. reflexivity.
    - intros ty Hty. cbn. rewrite (Hothers ty Hty), Histatus.
      reflexivity. }
  rewrite run_Reconcile. cbn zeta. fold name. sim. rewrite Hcl.
  cbv beta iota. rewrite Hdel. fold i.
  pose proof (fake_provision_store postfix i cl nss dep sec sa clk ans mc)
    as Hprov.
  pose proof (Reconcile_provision_instance fake.handle postfix i
                (mkWorld cl nss dep sec sa [] clk ans)) as Hsame.
  rewrite Hiname in Hprov. specialize (Hprov Hcl Hwf).
  ran (Reconcile_provision postfix i) as [[p w1] t1].
  destruct Hprov as (-> & Hp).
  destruct (Hlabelled _ eq_refl) as [Hothers Hns].
  assert (<[name := i]> cl !! name = Some i) as Hstored
    by apply lookup_insert_eq.
  destruct p as [[result err] | [[j crds] yamls]].
  - cbv beta iota. cbn [clusters namespaces snd].
    split; [| split; [exact Hothers |]].
    + exists i. split; [reflexivity |].
      rewrite <- (setConditions_same i). apply Hcluster. reflexivity.
    + destruct (nss !! name); auto.
  - subst j. destruct Hp as [ns Hnss]. rewrite Hnss in Hns |- *.
    destruct (checkOffLine i) eqn:Hoff; cbn [negb].
    + pose proof (fake_offline_again i name (<[name := i]> cl)
                    (labelled name nss) dep sec sa clk ans Hiname Hstored)
        as Hoffline.
      ran (Reconcile_offline i) as [[out w2] t2].
      destruct Hoffline as (C1 & clk1 & -> & HC1 & _).
      cbv beta iota. cbn [clusters namespaces].
      split; [| split; [exact Hothers | exact Hns]].
      exists (setConditions i C1). rewrite insert_insert_eq.
      split; [reflexivity |]. apply Hcluster. exact HC1.
    + cbn [answers]. cbv beta iota. cbn [clusters namespaces].
      split; [| split; [exact Hothers | exact Hns]].
      exists i. split; [reflexivity |].
      rewrite <- (setConditions_same i). apply Hcluster. reflexivity.
Qed.

(** ** The steps on sample stores *)

Lemma newManifestWorkSpecPredicate_passes_witness :
  let DeepEqual := fun a b : list string => bool_decide (a = b) in
  let p := newManifestWorkSpecPredicate DeepEqual in
  let meta := metav1.mkObjectMeta "cluster1-klusterlet" "cluster1" ∅ [] None in
  let relabelled :=
    metav1.mkObjectMeta "cluster1-klusterlet" "cluster1"
      {[ "touched" := "yes" ]} [] None in
  let work m spec := runtime.IsManifestWork (workv1.mkManifestWork m spec) in
  predicate.UpdateFunc p
    (event.mkUpdateEvent (Some meta) (Some (work meta ["crd"]))
       (Some meta) (Some (work meta ["crd"; "klusterlet"]))) = true
  /\ predicate.UpdateFunc p
       (event.mkUpdateEvent (Some meta) (Some (work meta ["crd"]))
          (Some relabelled) (Some (work relabelled ["crd"]))) = false
  /\ predicate.UpdateFunc p
       (event.mkUpdateEvent None (Some (work meta ["crd"]))
          (Some meta) (Some (work meta ["crd"; "klusterlet"]))) = false.
Proof.
  cbn zeta.
  destruct (newManifestWorkSpecPredicate_passes
              (fun a b : list string => bool_decide (a = b)))
    as (_ & _ & _ & Hupdate & Hsame).
  split; [| split].
  - apply Hupdate. cbn. split; [eauto |]. split; [eauto |].
    eexists _, _. repeat split.
  - eapply Hsame.
    + intros spec. apply bool_decide_eq_true_2. reflexivity.
    + reflexivity.
    + reflexivity.
    + reflexivity.
  - reflexivity.
Defined.

Lemma Reconcile_fetch_failed_witness :
  let fetch := Get KManagedCluster
                 {| types.Namespace := ""; types.Name := "cluster1" |} in
  run fake.handle (Reconcile sample.postfix sample.request)
    (fake.setFaults sample.bare [Some sample.internal])
  = ((reconcile.zero, Some sample.internal), sample.bare,
     [Ev fetch (Failed sample.internal)])
  /\ run fake.handle (Reconcile sample.postfix sample.request)
       fake.emptyWorld
     = ((reconcile.zero, None), fake.emptyWorld,
        [Ev fetch (Failed fake.notFound);
         Ev (Get KNamespace
               {| types.Namespace := ""; types.Name := "cluster1" |})
            (Failed fake.notFound)]).
Proof.
  cbn zeta. split.
  - apply (Reconcile_fetch_failed fake.handle sample.postfix sample.request
             (fake.setFaults sample.bare [Some sample.internal])
             sample.internal sample.bare eq_refl).
    reflexivity.
  - apply (Reconcile_fetch_failed fake.handle sample.postfix sample.request
             fake.emptyWorld fake.notFound fake.emptyWorld eq_refl);
      reflexivity.
Defined.

Lemma Reconcile_deleting_witness :
  let w := fake.setClusters sample.bare {[ "cluster1" := sample.deleting ]} in
  run fake.handle (Reconcile sample.postfix sample.request) w
  = ((reconcile.zero, None), w,
     [Ev (Get KManagedCluster
            {| types.Namespace := ""; types.Name := "cluster1" |})
         (Found sample.deleting);
      Ev (managedClusterDeletion sample.deleting) (reconcile.zero, None)]).
Proof.
  cbn zeta.
  apply (Reconcile_deleting fake.handle sample.postfix sample.request
           (fake.setClusters sample.bare {[ "cluster1" := sample.deleting ]})
           sample.deleting
           (fake.setClusters sample.bare {[ "cluster1" := sample.deleting ]})
           7%Z (reconcile.zero, None)
           (fake.setClusters sample.bare {[ "cluster1" := sample.deleting ]}));
    reflexivity.
Defined.

Lemma Reconcile_online_witness :
  let w := fake.setClusters sample.bare {[ "cluster1" := sample.online ]} in
  let '(out, _, t) :=
    run fake.handle (Reconcile sample.postfix sample.request) w in
  out = (reconcile.zero, None)
  /\ count isCreateOrUpdateManifestWorks t = 1
  /\ count isDecisionLookup t = 0
  /\ count isImportStep t = 0.
Proof.
  cbn zeta.
  pose (w := fake.setClusters sample.bare {[ "cluster1" := sample.online ]}).
  pose (prepared := Reconcile_prepare sample.online).
  pose (provisioned :=
          run fake.handle (Reconcile_provision sample.postfix prepared) w).
  assert (let '(out, s', t) :=
            run fake.handle (Reconcile sample.postfix sample.request) w in
          out = (reconcile.zero, None)
          /\ s' = provisioned.1.2
          /\ t = Ev (Get KManagedCluster
                       {| types.Namespace := ""; types.Name := "cluster1" |})
                    (Found sample.online)
                 :: provisioned.2
                    ++ [Ev (createOrUpdateManifestWorks prepared [] []) None]
          /\ prepared = Reconcile_prepare sample.online
          /\ checkOffLine sample.online = false
          /\ count isDecisionLookup t = 0
          /\ count isImportStep t = 0) as Honline.
  { apply (Reconcile_online fake.handle sample.postfix sample.request
             w sample.online w prepared [] []
             provisioned.1.2 provisioned.2 None provisioned.1.2);
      reflexivity. }
  cbn zeta in Honline. fold w.
  destruct (run fake.handle (Reconcile sample.postfix sample.request) w)
    as [[out w'] t].
  destruct Honline as (-> & _ & -> & _ & _ & Hlookups & Hsteps).
  split; [reflexivity |]. split; [reflexivity |].
  split; assumption.
Defined.

Lemma toBeImported_lookup_answers_witness :
  let cdKey := {| types.Name := "cluster1"; types.Namespace := "cluster1" |} in
  let secretKey :=
    {| types.Name := autoImportSecretName; types.Namespace := "cluster1" |} in
  let w := fake.setSecrets sample.bare
             {[ ("cluster1", autoImportSecretName) := sample.secret ]} in
  run fake.handle (toBeImported sample.cluster) w
  = ((Some sample.secret, None, true, None), w,
     [Ev (Get KClusterDeployment cdKey) (Failed fake.notFound);
      Ev (Get KSecret secretKey) (Found sample.secret)])
  /\ run fake.handle (toBeImported sample.cluster)
       (fake.setFaults sample.bare [Some sample.internal])
     = ((None, None, false, Some sample.internal), sample.bare,
        [Ev (Get KClusterDeployment cdKey) (Failed sample.internal)])
  /\ run fake.handle (toBeImported sample.cluster)
       (fake.setFaults sample.bare [None; Some sample.conflict])
     = ((None, None, false, Some sample.conflict), sample.bare,
        [Ev (Get KClusterDeployment cdKey) (Failed fake.notFound);
         Ev (Get KSecret secretKey) (Failed sample.conflict)]).
Proof.
  cbn zeta. split; [| split].
  - eapply (toBeImported_lookup_answers fake.handle sample.cluster _ eq_refl);
      reflexivity.
  - eapply (toBeImported_lookup_answers fake.handle sample.cluster _ eq_refl);
      reflexivity.
  - eapply (toBeImported_lookup_answers fake.handle sample.cluster _ eq_refl);
      reflexivity.
Defined.

Lemma customClient_reads_secrets_uncached_witness :
  let reader := fun k key w => fake.get k key w in
  let secret :=
    corev1.mkSecret
      (metav1.mkObjectMeta autoImportSecretName "cluster1" ∅ [] None) in
  let w := fake.setSecrets sample.bare
             {[ ("cluster1", autoImportSecretName) := secret ]} in
  run (customClient sample.brokenCache reader) (toBeImported sample.cluster) w
  = ((Some secret, None, true, None), w,
     [Ev (Get KClusterDeployment
            {| types.Name := "cluster1"; types.Namespace := "cluster1" |})
         (Failed fake.notFound);
      Ev (Get KSecret
            {| types.Name := autoImportSecretName;
               types.Namespace := "cluster1" |})
         (Found secret)])
  /\ run (customClient fake.handle reader)
       (Reconcile sample.postfix sample.request) w
     = run (customClient sample.brokenCache reader)
         (Reconcile sample.postfix sample.request) w.
Proof.
  cbn zeta.
  assert (forall X (c : call X) s,
             isSecretGet c = false -> fake.handle X c s = sample.brokenCache X c s)
    as Hclient.
  { intros X c s Hc. destruct c; try reflexivity.
    destruct k; first [reflexivity | discriminate Hc]. }
  destruct (customClient_reads_secrets_uncached fake.handle sample.brokenCache
              (fun k key w => fake.get k key w)
              (fun k key w => fake.get k key w)
              Hclient (fun _ _ => eq_refl)) as [Hrun Hdecision].
  split.
  - eapply (Hdecision sample.cluster); reflexivity.
  - apply Hrun.
Defined.

Lemma Reconcile_store_effect_witness :
  let '(out, w1, _) :=
    run fake.handle (Reconcile sample.postfix sample.request) sample.bare in
  out = (reconcile.zero, None)
  /\ exists mc1 ns1,
      clusters w1 !! "cluster1" = Some mc1
      /\ GetFinalizers mc1 = [managedClusterFinalizer]
      /\ GetLabels mc1 !! "name" = Some "cluster1"
      /\ checkOffLine mc1 = true
      /\ namespaces w1 !! "cluster1" = Some ns1
      /\ GetLabels ns1 !! clusterLabel = Some "cluster1".
Proof.
  assert (forall ns : corev1.Namespace,
             namespaces sample.bare !! "cluster1" = Some ns ->
             GetName ns = "cluster1") as Hwf.
  { intros ns Hns. vm_compute in Hns. injection Hns as <-. reflexivity. }
  pose proof (Reconcile_store_effect sample.postfix sample.request
                sample.bare sample.cluster eq_refl eq_refl eq_refl eq_refl
                Hwf) as Heffect.
  cbn zeta in Heffect.
  destruct (run fake.handle (Reconcile sample.postfix sample.request)
              sample.bare) as [[out w1] t] eqn:Hrun.
  destruct Heffect as ((mc1 & Hclusters & Hmeta & Hoff & _) & _ & Hns).
  split; [vm_compute in Hrun; injection Hrun as <- _ _; reflexivity |].
  change (namespaces sample.bare
          !! types.Name (reconcile.NamespacedName sample.request))
    with (Some sample.namespace) in Hns.
  destruct Hns as (ns1 & Hns1 & Hlabel & _).
  exists mc1, ns1. rewrite Hclusters.
  split; [apply lookup_insert_eq |].
  unfold GetFinalizers, GetLabels. cbn [GetObjectMeta ManagedCluster_Object].
  rewrite Hmeta, Hoff.
  repeat split; try assumption; reflexivity.
Defined.

(** C4 on the sample with a cluster deployment, the import failing: the
    import is the last call of the run, its error is returned, and no
    status patch is sent. *)
Lemma Reconcile_import_failure_unrecorded_witness :
  let failing := sample.withAnswers sample.hived sample.failingImport in
  let '(out, _, t) :=
    run fake.handle (Reconcile sample.postfix sample.request) failing in
  out = (reconcile.zero, Some sample.boom)
  /\ count isStoppedImport t = 1%nat
  /\ count isStatusPatch t = 0%nat
  /\ last t
     = Some (Ev (importCluster (Reconcile_prepare sample.cluster)
                   (Some sample.deployment) None)
                (reconcile.zero, Some sample.boom)).
Proof.
  cbn zeta.
  pose proof (Reconcile_import_failure_unrecorded fake.handle sample.postfix
                sample.request
                (sample.withAnswers sample.hived sample.failingImport))
    as Hunrecorded.
  destruct (run fake.handle (Reconcile sample.postfix sample.request) _)
    as [[out w'] t] eqn:Hrun.
  assert (t
          = (run fake.handle (Reconcile sample.postfix sample.request)
               (sample.withAnswers sample.hived sample.failingImport)).2)
    as Ht by (rewrite Hrun; reflexivity).
  assert (count isStoppedImport t = 1%nat) as Hstopped
    by (rewrite Ht; vm_compute; reflexivity).
  assert (last t
          = Some (Ev (importCluster (Reconcile_prepare sample.cluster)
                        (Some sample.deployment) None)
                     (reconcile.zero, Some sample.boom))) as Hlast
    by (rewrite Ht; vm_compute; reflexivity).
  destruct Hunrecorded as (_ & Hstop & _).
  destruct Hstop as (Hpatch & ev & Hev & _ & Hanswer);
    [rewrite Hstopped; lia |].
  rewrite Hlast in Hev. injection Hev as <-. cbn in Hanswer.
  injection Hanswer as <-. auto.
Defined.
